(** * A shallow embedding of the Robinhood crypto trading client

    The development follows [robinhood.py]: the pydantic models
    ([TradingPair], [EstimatedOrderPrice], [EstimatedBidAndAskPrice],
    [EstimatedOrderPriceHistoryEntry]) and the [CryptoAPITrading] client
    (request signing, the single-attempt transport, the memoized
    trading-pair lookup and the price operations built on them).

    Python values coming out of [response.json()] are modelled by the
    inductive type [json]; a Python [dict] is a [gmap string json].
    Python exceptions are values of type [exn]; a computation that may
    raise returns [exn + A].  The client's effects (clock reads, HTTP
    requests, the disk cache, printed lines) are threaded through an
    explicit [world]. *)

From Stdlib Require Import ZArith String Ascii List DecimalString DecimalFacts DecimalPos.
From Stdlib Require Import Floats.SpecFloat.
From stdpp Require Import gmap strings list fin_maps sorting.

#[local] Set Warnings "-register-all".
#[local] Open Scope Z_scope.

(** ** Python exceptions *)

(** The exception classes that the modelled code can raise.  [KeyError]
    carries the missing key, [ValueError] and [RequestException] their
    message. *)
Inductive exn :=
  | KeyError (key : string)
  | IndexError
  | TypeError
  | AttributeError
  | ValueError (msg : string)
  | OverflowError
  | ZeroDivisionError
  | JSONDecodeError
  | ValidationError
  | RequestException (msg : string).

(** A computation without side effects that may raise. *)
Definition result (A : Type) : Type := exn + A.

#[global] Instance result_ret : MRet result := λ A x, inr x.
#[global] Instance result_bind : MBind result := λ A B f m,
  match m with inl e => inl e | inr x => f x end.

(** ** Python values *)

(** The Python [float] type is IEEE-754 binary64. *)
Definition prec : Z := 53.
Definition emax : Z := 1024.
Definition float : Type := spec_float.

(** What [json.loads] / [response.json()] can return.  [JNull] is [None]. *)
Inductive json :=
  | JNull
  | JBool (b : bool)
  | JInt (z : Z)
  | JFloat (f : float)
  | JStr (s : string)
  | JArr (l : list json)
  | JObj (m : gmap string json).

(** [v[key]] with a string key.  Only a dict supports it; a list or a
    string wants an integer index and every other value is not
    subscriptable: all of those raise [TypeError]. *)
Definition py_getitem (v : json) (key : string) : result json :=
  match v with
  | JObj m => match m !! key with Some x => inr x | None => inl (KeyError key) end
  | _ => inl TypeError
  end.

(** [v.get(key)]: defined on dicts only ([None] when the key is absent);
    on any other value the attribute lookup raises [AttributeError]. *)
Definition py_get (v : json) (key : string) : result json :=
  match v with
  | JObj m => inr (default JNull (m !! key))
  | _ => inl AttributeError
  end.

(** The items produced by [for data in v].  A list yields its elements, a
    dict its keys, a string its characters; other values are not
    iterable.  (A [gmap] forgets insertion order, so the keys come in the
    map's order; the bytes of a string stand for its characters.) *)
Definition py_iter (v : json) : result (list json) :=
  match v with
  | JArr l => inr l
  | JObj m => inr ((λ kv, JStr kv.1) <$> map_to_list m)
  | JStr s => inr ((λ a, JStr (String a EmptyString)) <$> list_ascii_of_string s)
  | _ => inl TypeError
  end.

(** [l[0]] on a Python list. *)
Definition py_first {A} (l : list A) : result A :=
  match l with
  | x :: _ => inr x
  | [] => inl IndexError
  end.

(** [str(n)] for an [int]. *)
Definition str_of_int (n : Z) : string := NilZero.string_of_int (Z.to_int n).

(** ** [float(...)]

    [float] on a [str] follows CPython: white space is stripped,
    underscores may separate digits, then comes an optional sign and
    either [inf], [infinity] or [nan] in any case, or a decimal numeral
    with an optional fraction and exponent, rounded to the nearest
    binary64 number.  Texts are the UTF-8 bytes of a [str].  The parser
    below is the one CPython runs on a text of ASCII characters only;
    on any other text CPython first maps the Unicode spaces and decimal
    digits to ASCII ones, which is left to the library (see [py_float]). *)

Module PyFloat.

(** White space stripped by [float] before parsing an ASCII text: tab,
    line feed, vertical tab, form feed, carriage return and the
    space. *)
Definition is_space (a : ascii) : bool :=
  let n := nat_of_ascii a in
  ((9 <=? n)%nat && (n <=? 13)%nat) || (n =? 32)%nat.

(** A text of ASCII characters only. *)
Definition is_ascii (s : string) : bool :=
  forallb (λ a, (nat_of_ascii a <? 128)%nat) (list_ascii_of_string s).

Definition is_digit (a : ascii) : bool :=
  let n := nat_of_ascii a in (48 <=? n)%nat && (n <=? 57)%nat.

Definition digit_val (a : ascii) : Z := Z.of_nat (nat_of_ascii a) - 48.

Fixpoint drop_spaces (l : list ascii) : list ascii :=
  match l with
  | a :: l' => if is_space a then drop_spaces l' else l
  | [] => []
  end.

Definition strip (l : list ascii) : list ascii :=
  rev (drop_spaces (rev (drop_spaces l))).

(** An underscore must stand between two digits; underscores are
    removed.  [prev] is the previous character, if any. *)
Fixpoint remove_underscores (prev : option ascii) (l : list ascii)
  : option (list ascii) :=
  match l with
  | [] => if decide (prev = Some "_"%char) then None else Some []
  | a :: l' =>
      if decide (a = "_"%char)
      then match prev with
           | Some p => if is_digit p then remove_underscores (Some a) l' else None
           | None => None
           end
      else if bool_decide (prev = Some "_"%char) && negb (is_digit a) then None
      else cons a <$> remove_underscores (Some a) l'
  end.

(** Splits the longest prefix of decimal digits off [l]. *)
Fixpoint span_digits (l : list ascii) : list ascii * list ascii :=
  match l with
  | a :: l' =>
      if is_digit a then let '(ds, r) := span_digits l' in (a :: ds, r)
      else ([], l)
  | [] => ([], [])
  end.

Definition digits_val (ds : list ascii) : Z :=
  fold_left (λ acc a, 10 * acc + digit_val a) ds 0.

Definition take_sign (l : list ascii) : bool * list ascii :=
  match l with
  | "-"%char :: l' => (true, l')
  | "+"%char :: l' => (false, l')
  | _ => (false, l)
  end.

Definition lower (a : ascii) : ascii :=
  let n := nat_of_ascii a in
  if (65 <=? n)%nat && (n <=? 90)%nat then ascii_of_nat (n + 32) else a.

(** The exponent part: empty, or [e]/[E], an optional sign and at
    least one digit, up to the end of the text. *)
Definition parse_exponent (l : list ascii) : option Z :=
  match l with
  | [] => Some 0
  | a :: l' =>
      if decide (lower a = "e"%char) then
        let '(neg, l'') := take_sign l' in
        match span_digits l'' with
        | ([], _) | (_, _ :: _) => None
        | (ds, []) => Some (if neg then - digits_val ds else digits_val ds)
        end
      else None
  end.

(** A decimal numeral as mantissa and power of ten: [m * 10 ^ e]. *)
Definition parse_decimal (l : list ascii) : option (Z * Z) :=
  let '(ip, r) := span_digits l in
  let '(fp, r') :=
    match r with
    | "."%char :: r0 => span_digits r0
    | _ => ([], r)
    end in
  match ip ++ fp with
  | [] => None
  | ds =>
      ex ← parse_exponent r';
      Some (digits_val ds, ex - Z.of_nat (length fp))
  end.

(** The binary64 number nearest to [(-1)^neg * m * 10^e] (ties to
    even), for [0 <= m]. *)
Definition round_decimal (neg : bool) (m e : Z) : float :=
  match m with
  | Z0 => S754_zero neg
  | Zneg _ => S754_nan
  | Zpos _ =>
      if 0 <=? e then binary_normalize prec emax (if neg then - (m * 10 ^ e) else m * 10 ^ e) 0 neg
      else
        let '(q, e', loc) := SFdiv_core_binary prec emax m 0 (10 ^ (- e)) 0 in
        binary_round_aux prec emax neg q e' loc
  end.

(** [float(s)] for a [str] of ASCII characters: [None] stands for
    [ValueError]. *)
Definition of_string (s : string) : option float :=
  l ← remove_underscores None (strip (list_ascii_of_string s));
  let '(neg, body) := take_sign l in
  let word := string_of_list_ascii (lower <$> body) in
  if decide (word = "inf" ∨ word = "infinity") then Some (S754_infinity neg)
  else if decide (word = "nan") then Some S754_nan
  else '(m, e) ← parse_decimal body; Some (round_decimal neg m e).

(** [float(n)] for an [int]: the nearest binary64 number, or
    [OverflowError] when [n] is too large. *)
Definition of_int (n : Z) : result float :=
  match binary_normalize prec emax n 0 false with
  | S754_infinity _ => inl OverflowError
  | f => inr f
  end.

(** [n / d] for two [int]s with [0 < d]: the binary64 number nearest
    to the quotient (ties to even). *)
Definition int_truediv (n d : Z) : float :=
  match n with
  | Z0 => S754_zero false
  | Zpos _ =>
      let '(q, e, loc) := SFdiv_core_binary prec emax n 0 d 0 in
      binary_round_aux prec emax false q e loc
  | Zneg p =>
      let '(q, e, loc) := SFdiv_core_binary prec emax (Zpos p) 0 d 0 in
      binary_round_aux prec emax true q e loc
  end.

(** [int(x)] for a finite float: its integer part, towards zero.  (On
    an infinity or a NaN [int] raises; the value here is then [0].) *)
Definition trunc (f : float) : Z :=
  match f with
  | S754_finite s m e =>
      let magnitude := if 0 <=? e then Zpos m * 2 ^ e else Zpos m / 2 ^ (- e) in
      if s then - magnitude else magnitude
  | _ => 0
  end.

(** A decimal literal of the program text, such as [0.000001]. *)
Definition literal (s : string) : float := default S754_nan (of_string s).

Definition is_zero (f : float) : bool :=
  match f with S754_zero _ => true | _ => false end.

(** [x == y] on floats. *)
Definition eqb (x y : float) : bool := SFeqb x y.

(** [x / y]: division by a zero raises. *)
Definition truediv (x y : float) : result float :=
  if is_zero y then inl ZeroDivisionError else inr (SFdiv prec emax x y).

End PyFloat.

(** ** Library functions taken as parameters *)

(** The functions of the Python libraries that the client calls and whose
    results are only passed along.  Timestamps are values of the type
    [datetime], produced by [datetime.fromisoformat] ([None] stands for
    its [ValueError]) and compared by [datetime.__eq__]. *)
Class PyLib := {
  datetime : Type;
  fromisoformat : string → option datetime;
  datetime_eq : datetime → datetime → bool;
  (** [SigningKey(seed).sign(message).signature] *)
  ed25519_sign : string → string → string;
  b64encode : string → string;
  (** [str(x)] for a float [x] *)
  float_str : float → string;
  (** [float(s)] for a text [s] that has characters outside ASCII
      ([None]: [ValueError]) *)
  float_of_unicode : string → option float;
  (** [json.loads] on a non-empty text ([None]: [JSONDecodeError]) *)
  json_loads_nonempty : string → option json;
  json_dumps : json → string;
  (** what pydantic makes of a value that is not a [str] where the
      model declares a [str] field ([None]: [ValidationError]) *)
  pydantic_str_of_other : json → option string;
}.

Section Builtins.
Context `{PyLib}.

(** [float(v)] for a value of a JSON payload. *)
Definition py_float (v : json) : result float :=
  match v with
  | JStr s =>
      match (if PyFloat.is_ascii s then PyFloat.of_string s else float_of_unicode s) with
      | Some f => inr f
      | None => inl (ValueError "could not convert string to float")
      end
  | JInt n => PyFloat.of_int n
  | JFloat f => inr f
  | JBool b => inr (if b then PyFloat.literal "1" else PyFloat.literal "0")
  | JNull | JArr _ | JObj _ => inl TypeError
  end.

(** [a != b] on two [datetime] values. *)
Definition datetime_ne (a b : datetime) : bool := negb (datetime_eq a b).

(** [datetime.datetime.fromisoformat(v)]. *)
Definition py_fromisoformat (v : json) : result datetime :=
  match v with
  | JStr s =>
      match fromisoformat s with
      | Some t => inr t
      | None => inl (ValueError "Invalid isoformat string")
      end
  | _ => inl TypeError
  end.

(** [json.loads(s)]: the empty text is not a JSON document. *)
Definition json_loads (s : string) : result json :=
  match s with
  | EmptyString => inl JSONDecodeError
  | _ =>
      match json_loads_nonempty s with
      | Some v => inr v
      | None => inl JSONDecodeError
      end
  end.

(** pydantic's validation of a value for a field declared [str]. *)
Definition str_field (v : json) : option string :=
  match v with
  | JStr s => Some s
  | _ => pydantic_str_of_other v
  end.

(** [v == s] for a string literal [s]. *)
Definition py_eq_str (v : json) (s : string) : bool :=
  match v with
  | JStr s' => bool_decide (s' = s)
  | _ => false
  end.
End Builtins.

(** ** The pydantic models *)

Module TradingPair.
Record t := mk {
  asset_code : string;
  asset_increment : float;
  max_order_size : float;
  min_order_size : float;
  quote_code : string;
  quote_increment : float;
  status : string;
  symbol : string;
}.

Section Methods.
Context `{PyLib}.

(** [cls(asset_code=..., ...)]: the four [str] fields are validated,
    the [float] fields already hold floats. *)
Definition new (asset_code : json) (asset_increment max_order_size min_order_size : float)
    (quote_code : json) (quote_increment : float) (status symbol : json) : result t :=
  match str_field asset_code, str_field quote_code, str_field status, str_field symbol with
  | Some ac, Some qc, Some st, Some sy =>
      inr (mk ac asset_increment max_order_size min_order_size qc quote_increment st sy)
  | _, _, _, _ => inl ValidationError
  end.

Definition from_dict (data : json) : result t :=
  asset_code ← py_getitem data "asset_code";
  asset_increment ← py_getitem data "asset_increment" ≫= py_float;
  max_order_size ← py_getitem data "max_order_size" ≫= py_float;
  min_order_size ← py_getitem data "min_order_size" ≫= py_float;
  quote_code ← py_getitem data "quote_code";
  quote_increment ← py_getitem data "quote_increment" ≫= py_float;
  status ← py_getitem data "status";
  symbol ← py_getitem data "symbol";
  new asset_code asset_increment max_order_size min_order_size
      quote_code quote_increment status symbol.
End Methods.
End TradingPair.

Module EstimatedOrderPrice.
Section Model.
Context `{PyLib}.

Record t := mk {
  symbol : string;
  price : float;
  quantity : float;
  side : string;
  timestamp : datetime;
  price_including_spread : float;
  spread : float;
}.

Definition new (symbol : json) (price quantity : float) (side : json)
    (timestamp : datetime) (price_including_spread spread : float) : result t :=
  match str_field symbol, str_field side with
  | Some sy, Some sd =>
      inr (mk sy price quantity sd timestamp price_including_spread spread)
  | _, _ => inl ValidationError
  end.

(** The two wire fields that hold the price including the spread and
    the spread, chosen by [data["side"] == "bid"]. *)
Definition spread_keys (side : json) : string * string :=
  if py_eq_str side "bid"
  then ("bid_inclusive_of_sell_spread", "sell_spread")
  else ("ask_inclusive_of_buy_spread", "buy_spread").

Definition from_dict (data : json) : result t :=
  side0 ← py_getitem data "side";
  let '(price_including_spread_key, spread_key) := spread_keys side0 in
  symbol ← py_getitem data "symbol";
  price ← py_getitem data "price" ≫= py_float;
  quantity ← py_getitem data "quantity" ≫= py_float;
  side ← py_getitem data "side";
  timestamp ← py_getitem data "timestamp" ≫= py_fromisoformat;
  price_including_spread ← py_getitem data price_including_spread_key ≫= py_float;
  spread ← py_getitem data spread_key ≫= py_float;
  new symbol price quantity side timestamp price_including_spread spread.
End Model.
End EstimatedOrderPrice.

Module EstimatedBidAndAskPrice.
Section Model.
Context `{PyLib}.

Record t := mk {
  bid : EstimatedOrderPrice.t;
  ask : EstimatedOrderPrice.t;
  timestamp : datetime;
}.

Definition from_objs (bid ask : EstimatedOrderPrice.t) : result t :=
  if datetime_ne (EstimatedOrderPrice.timestamp bid) (EstimatedOrderPrice.timestamp ask)
  then inl (ValueError "Bid and ask timestamps must match")
  else
    let timestamp := EstimatedOrderPrice.timestamp bid in
    inr (mk bid ask timestamp).

Definition from_dict (data : json) : result t :=
  bid ← py_getitem data "bid" ≫= EstimatedOrderPrice.from_dict;
  ask ← py_getitem data "ask" ≫= EstimatedOrderPrice.from_dict;
  if datetime_ne (EstimatedOrderPrice.timestamp bid) (EstimatedOrderPrice.timestamp ask)
  then inl (ValueError "Bid and ask timestamps must match")
  else
    let timestamp := EstimatedOrderPrice.timestamp bid in
    inr (mk bid ask timestamp).
End Model.
End EstimatedBidAndAskPrice.

Module EstimatedOrderPriceHistoryEntry.
Section Model.
Context `{PyLib}.

Record t := mk {
  symbol : string;
  bid_price : float;
  bid_quantity : float;
  bid_side : string;
  bid_timestamp : datetime;
  bid_price_including_spread : float;
  bid_spread : float;
  ask_price : float;
  ask_quantity : float;
  ask_side : string;
  ask_timestamp : datetime;
  ask_price_including_spread : float;
  ask_spread : float;
  timestamp : datetime;
}.

Definition from_obj (data : EstimatedBidAndAskPrice.t) : t :=
  let b := EstimatedBidAndAskPrice.bid data in
  let a := EstimatedBidAndAskPrice.ask data in
  mk (EstimatedOrderPrice.symbol b)
     (EstimatedOrderPrice.price b)
     (EstimatedOrderPrice.quantity b)
     (EstimatedOrderPrice.side b)
     (EstimatedOrderPrice.timestamp b)
     (EstimatedOrderPrice.price_including_spread b)
     (EstimatedOrderPrice.spread b)
     (EstimatedOrderPrice.price a)
     (EstimatedOrderPrice.quantity a)
     (EstimatedOrderPrice.side a)
     (EstimatedOrderPrice.timestamp a)
     (EstimatedOrderPrice.price_including_spread a)
     (EstimatedOrderPrice.spread a)
     (EstimatedBidAndAskPrice.timestamp data).

Definition from_objs (bid ask : EstimatedOrderPrice.t) : t :=
  mk (EstimatedOrderPrice.symbol bid)
     (EstimatedOrderPrice.price bid)
     (EstimatedOrderPrice.quantity bid)
     (EstimatedOrderPrice.side bid)
     (EstimatedOrderPrice.timestamp bid)
     (EstimatedOrderPrice.price_including_spread bid)
     (EstimatedOrderPrice.spread bid)
     (EstimatedOrderPrice.price ask)
     (EstimatedOrderPrice.quantity ask)
     (EstimatedOrderPrice.side ask)
     (EstimatedOrderPrice.timestamp ask)
     (EstimatedOrderPrice.price_including_spread ask)
     (EstimatedOrderPrice.spread ask)
     (EstimatedOrderPrice.timestamp bid).
End Model.
End EstimatedOrderPriceHistoryEntry.

(** ** The outside world *)

(** An HTTP request as handed to [requests.get] / [requests.post]. *)
Record request := mk_request {
  rq_method : string;
  rq_url : string;
  rq_headers : gmap string string;
  rq_json : option json;        (** the [json=] payload of a POST *)
  rq_timeout : Z;               (** seconds *)
}.

(** A [requests.Response]: the status, the text and what
    [response.json()] does (it may raise). *)
Record response := mk_response {
  status_code : Z;
  text : string;
  json_body : result json;
}.

(** What one HTTP attempt comes to: a [requests.RequestException]
    (connection error, timeout) or a response. *)
Inductive reply :=
  | NetworkFailure (msg : string)
  | Reply (r : response).

(** The environment of a run: [clock k] is the system time at the [k]-th
    reading, in microseconds since the epoch, and [server k rq] is the
    outcome of the [k]-th HTTP attempt when it carries [rq]. *)
Class Env := {
  clock : nat → Z;
  server : nat → request → reply;
}.

Definition us_per_second : Z := 1000000.

(** The key under which [diskcache] stores a memoized call: the client
    (its two secrets) and the symbols of the call. *)
Abbreviation cache_key := (string * string * list (option string))%type.

(** The mutable state: the number of clock readings so far, the HTTP
    attempts made so far (oldest first), the entries of the disk cache
    (expiry time in microseconds, value) and the lines printed. *)
Record world := mk_world {
  ticks : nat;
  sent : list request;
  disk : gmap cache_key (Z * list TradingPair.t);
  stdout : list string;
}.

(** A computation on the world that may raise; the world is kept when
    it raises. *)
Definition M (A : Type) : Type := world → result A * world.

#[global] Instance M_ret : MRet M := λ A x w, (inr x, w).
#[global] Instance M_bind : MBind M := λ A B f m w,
  match m w with
  | (inl e, w') => (inl e, w')
  | (inr x, w') => f x w'
  end.

Definition raise {A} (e : exn) : M A := λ w, (inl e, w).
Definition lift {A} (r : result A) : M A := λ w, (r, w).

(** [try: c except requests.RequestException as e: handler(e)] *)
Definition try_except_RequestException {A} (c : M A) (handler : string → M A) : M A :=
  λ w, match c w with
       | (inl (RequestException msg), w') => handler msg w'
       | r => r
       end.

Definition print (line : string) : M unit :=
  λ w, (inr tt, mk_world (ticks w) (sent w) (disk w) (stdout w ++ [line])).

(** Reading and writing the entries of the disk cache. *)
Definition disk_lookup (key : cache_key) : M (option (Z * list TradingPair.t)) :=
  λ w, (inr (disk w !! key), w).

Definition disk_store (key : cache_key) (entry : Z * list TradingPair.t) : M unit :=
  λ w, (inr tt, mk_world (ticks w) (sent w) (<[key := entry]> (disk w)) (stdout w)).

(** What [Cache.set] removes once it has written its entry, at the time
    [now]: the entries whose expiry time is before [now], those that
    expire first and no more than [cull_limit] of them.  (Which of
    several entries with the same expiry time go first is up to the
    database; here the order of the map decides.) *)
Definition cull_limit : nat := 10.

Definition expires_before (now : Z) (row : cache_key * (Z * list TradingPair.t)) : Prop :=
  row.2.1 < now.

Definition expires_first (row1 row2 : cache_key * (Z * list TradingPair.t)) : Prop :=
  row1.2.1 ≤ row2.2.1.

#[global] Instance expires_before_dec now row : Decision (expires_before now row) :=
  Z.lt_dec _ _.
#[global] Instance expires_first_dec row1 row2 : Decision (expires_first row1 row2) :=
  Z.le_dec _ _.

Definition culled (now : Z) (d : gmap cache_key (Z * list TradingPair.t))
  : list cache_key :=
  fst <$> take cull_limit (merge_sort expires_first (filter (expires_before now) (map_to_list d))).

Definition cull (now : Z) (d : gmap cache_key (Z * list TradingPair.t))
  : gmap cache_key (Z * list TradingPair.t) :=
  foldr delete d (culled now d).

Definition disk_cull (now : Z) : M unit :=
  λ w, (inr tt, mk_world (ticks w) (sent w) (cull now (disk w)) (stdout w)).

(** The value of a cache entry at the time [now], unless it is missing
    or its expiry time is not after [now]. *)
Definition unexpired (now : Z) (entry : option (Z * list TradingPair.t))
  : option (list TradingPair.t) :=
  match entry with
  | Some (expire_time, value) =>
      if bool_decide (now < expire_time) then Some value else None
  | None => None
  end.

Section Effects.
Context `{Env}.

(** One reading of the system clock. *)
Definition time_time : M Z :=
  λ w, (inr (clock (ticks w)), mk_world (S (ticks w)) (sent w) (disk w) (stdout w)).

(** One HTTP attempt. *)
Definition requests_send (rq : request) : M response :=
  λ w, let w' := mk_world (ticks w) (sent w ++ [rq]) (disk w) (stdout w) in
       match server (length (sent w)) rq with
       | NetworkFailure msg => (inl (RequestException msg), w')
       | Reply r => (inr r, w')
       end.

Definition requests_get (url : string) (headers : gmap string string) (timeout : Z)
  : M response :=
  requests_send (mk_request "GET" url headers None timeout).

Definition requests_post (url : string) (headers : gmap string string) (payload : json)
    (timeout : Z) : M response :=
  requests_send (mk_request "POST" url headers (Some payload) timeout).

(** [Cache.get(key)]: the stored value unless the entry is missing or
    its expiry time is not after the current time. *)
Definition cache_get (key : cache_key) : M (option (list TradingPair.t)) :=
  now ← time_time;
  entry ← disk_lookup key;
  mret (unexpired now entry).

(** [Cache.set(key, value, expire)], [expire] in seconds: the entry is
    written to expire [expire] seconds after the current time, and the
    cache is culled at that time. *)
Definition cache_set (key : cache_key) (value : list TradingPair.t) (expire : Z) : M unit :=
  now ← time_time;
  disk_store key (now + expire * us_per_second, value);;
  disk_cull now.

(** The wrapper built by [@cache.memoize(expire=...)] around [func],
    called with the arguments that make up [key], after diskcache: a
    live entry is returned; otherwise [func] runs and, if it returns,
    its value is stored to expire [expire] seconds after the time of
    storing, upon which expired entries are culled.  The second stage
    of the cull, the eviction of entries once the cache has grown
    beyond its size limit (one gigabyte), is left out. *)
Definition memoize (expire : Z) (key : cache_key) (func : M (list TradingPair.t))
  : M (list TradingPair.t) :=
  cached ← cache_get key;
  match cached with
  | Some value => mret value
  | None =>
      value ← func;
      (if bool_decide (0 < expire) then cache_set key value expire else mret tt);;
      mret value
  end.
End Effects.

(** ** The client *)

Module CryptoAPITrading.

(** A constructed client: the API key and the seed of its signing key. *)
Record t := mk {
  api_key : string;
  private_key : string;
}.

Definition base_url : string := "https://trading.robinhood.com".

(** The local variable [response] of [make_api_request]: the empty
    dict it starts as, or the response of the HTTP attempt. *)
Inductive response_var :=
  | EmptyDict
  | Received (r : response).

(** The text [f"{arg}"] of an optional string. *)
Definition format_arg (arg : option string) : string := default "None" arg.

Fixpoint join (sep : string) (parts : list string) : string :=
  match parts with
  | [] => ""
  | [p] => p
  | p :: rest => p +:+ sep +:+ join sep rest
  end.

Definition get_query_params (key : string) (args : list (option string)) : string :=
  match args with
  | [] => ""
  | _ =>
      let params := (λ arg, key +:+ "=" +:+ format_arg arg) <$> args in
      "?" +:+ join "&" params
  end.

(** The paths of the requests. *)
Definition trading_pairs_path (symbols : list (option string)) : string :=
  "/api/v1/crypto/trading/trading_pairs/" +:+ get_query_params "symbol" symbols.

Definition estimated_price_path (symbol side quantity : string) : string :=
  "/api/v1/crypto/marketdata/estimated_price/?symbol=" +:+ symbol
  +:+ "&side=" +:+ side +:+ "&quantity=" +:+ quantity.

(** [int(d.timestamp())] for the UTC time [d] that lies [now]
    microseconds after the epoch: [timestamp] divides the microseconds
    by [10^6] into a float, of which [int] keeps the integer part.  (A
    [datetime] lies between the years 1 and 9999, where the quotient is
    finite.) *)
Definition seconds_since_epoch (now : Z) : Z :=
  PyFloat.trunc (PyFloat.int_truediv now us_per_second).

Section Methods.
Context `{PyLib} `{Env}.

Definition _get_current_timestamp : M Z :=
  now ← time_time;
  mret (seconds_since_epoch now).

Definition get_authorization_header (self : t) (method path body : string)
    (timestamp : Z) : gmap string string :=
  let message_to_sign :=
    api_key self +:+ str_of_int timestamp +:+ path +:+ method +:+ body in
  let signature := ed25519_sign (private_key self) message_to_sign in
  {[ "x-api-key" := api_key self;
     "x-signature" := b64encode signature;
     "x-timestamp" := str_of_int timestamp ]}.

Definition make_api_request (self : t) (method path body : string) : M json :=
  timestamp ← _get_current_timestamp;
  let headers := get_authorization_header self method path body timestamp in
  let url := base_url +:+ path in
  try_except_RequestException
    (response ←
       (if bool_decide (method = "GET") then
          r ← requests_get url headers 10; mret (Received r)
        else if bool_decide (method = "POST") then
          payload ← lift (json_loads body);
          r ← requests_post url headers payload 10; mret (Received r)
        else mret EmptyDict);
     match response with
     | EmptyDict => raise AttributeError
     | Received r =>
         if bool_decide (400 ≤ status_code r) then
           print ("Error making API request: " +:+ text r);;
           mret JNull
         else lift (json_body r)
     end)
    (λ e, print ("Error making API request: " +:+ e);; mret JNull).

Definition get_account (self : t) : M json :=
  let path := "/api/v1/crypto/trading/accounts/" in
  make_api_request self "GET" path "".

(** The body of [get_trading_pairs], under the decorator. *)
Definition fetch_trading_pairs (self : t) (symbols : list (option string))
  : M (list TradingPair.t) :=
  print "Fetching trading pairs";;
  let path := trading_pairs_path symbols in
  answer ← make_api_request self "GET" path "";
  r ← lift (py_getitem answer "results");
  items ← lift (py_iter r);
  lift (mapM TradingPair.from_dict items).

Definition memoize_key (self : t) (symbols : list (option string)) : cache_key :=
  (api_key self, private_key self, symbols).

Definition get_trading_pairs (self : t) (symbols : list (option string))
  : M (list TradingPair.t) :=
  memoize 86400 (memoize_key self symbols) (fetch_trading_pairs self symbols).

Definition get_holdings (self : t) (asset_codes : list (option string)) : M json :=
  let query_params := get_query_params "asset_code" asset_codes in
  let path := "/api/v1/crypto/trading/holdings/" +:+ query_params in
  answer ← make_api_request self "GET" path "";
  lift (py_get answer "results").

Definition get_best_bid_ask (self : t) (symbols : list (option string)) : M json :=
  let query_params := get_query_params "symbol" symbols in
  let path := "/api/v1/crypto/marketdata/best_bid_ask/" +:+ query_params in
  answer ← make_api_request self "GET" path "";
  lift (py_get answer "results").

(** [quantity] is the text that the f-string puts into the path. *)
Definition get_estimated_price (self : t) (symbol side quantity : string)
  : M (list EstimatedOrderPrice.t) :=
  let path := estimated_price_path symbol side quantity in
  answer ← make_api_request self "GET" path "";
  r ← lift (py_get answer "results");
  items ← lift (py_iter r);
  lift (mapM EstimatedOrderPrice.from_dict items).

Definition get_estimated_bid_price (self : t) (symbol quantity : string)
  : M EstimatedOrderPrice.t :=
  quotes ← get_estimated_price self symbol "bid" quantity;
  lift (py_first quotes).

Definition get_estimated_ask_price (self : t) (symbol quantity : string)
  : M EstimatedOrderPrice.t :=
  quotes ← get_estimated_price self symbol "ask" quantity;
  lift (py_first quotes).

Definition get_quantity_of_crypto (self : t) (symbol : string) (price : float)
  : M float :=
  pairs ← get_trading_pairs self [Some symbol];
  tp ← lift (py_first pairs);
  r ← get_estimated_bid_price self symbol (float_str (TradingPair.min_order_size tp));
  lift (PyFloat.truediv price (EstimatedOrderPrice.price r)).

Definition get_current_estimated_price (self : t) (symbol : string)
  : M EstimatedOrderPriceHistoryEntry.t :=
  pairs ← get_trading_pairs self [Some symbol];
  tp ← lift (py_first pairs);
  both ← get_estimated_price self symbol "both"
           (float_str (TradingPair.min_order_size tp));
  bid ← lift (py_first (filter (λ x, EstimatedOrderPrice.side x = "bid") both));
  ask ← lift (py_first (filter (λ x, EstimatedOrderPrice.side x = "ask") both));
  mret (EstimatedOrderPriceHistoryEntry.from_objs bid ask).

Definition place_order (self : t) (client_order_id side order_type symbol : string)
    (order_config : gmap string string) : M json :=
  let body : gmap string json :=
    {[ "client_order_id" := JStr client_order_id;
       "side" := JStr side;
       "type" := JStr order_type;
       "symbol" := JStr symbol;
       order_type +:+ "_order_config" := JObj (JStr <$> order_config) ]} in
  let path := "/api/v1/crypto/trading/orders/" in
  make_api_request self "POST" path (json_dumps (JObj body)).

Definition cancel_order (self : t) (order_id : string) : M json :=
  let path := "/api/v1/crypto/trading/orders/" +:+ order_id +:+ "/cancel/" in
  make_api_request self "POST" path "".

Definition get_order (self : t) (order_id : string) : M json :=
  let path := "/api/v1/crypto/trading/orders/" +:+ order_id +:+ "/" in
  make_api_request self "GET" path "".

Definition get_orders (self : t) : M json :=
  let path := "/api/v1/crypto/trading/orders/" in
  make_api_request self "GET" path "".
End Methods.
End CryptoAPITrading.

(** ** A sample instantiation

    Stand-ins for the library functions and two environments, used to
    run the model on concrete payloads.  Timestamps stay ISO-8601 texts
    and are equal when the texts are equal; the signature of a message
    is the message tagged with the seed; [str] of a float is given for
    the order sizes that occur below. *)
Module Sample.

#[export] Instance lib : PyLib := {|
  datetime := string;
  fromisoformat := λ s, if bool_decide (s = "") then None else Some s;
  datetime_eq := λ a b, bool_decide (a = b);
  ed25519_sign := λ seed message, seed +:+ ":" +:+ message;
  b64encode := λ s, s;
  float_str := λ f,
    match f with
    | S754_finite false 4722366482869645 (-72) => "1e-06"
    | S754_finite false 7036874417766400 (-43) => "800.0"
    | _ => "nan"
    end;
  float_of_unicode := λ _, None;
  json_loads_nonempty := λ _, None;
  json_dumps := λ _, "{}";
  pydantic_str_of_other := λ _, None;
|}.

Definition self : CryptoAPITrading.t := CryptoAPITrading.mk "rh-api-key" "seed".

(** The trading pair of the comment above [TradingPair]. *)
Definition btc_usd : gmap string json :=
  {[ "asset_code" := JStr "BTC";
     "asset_increment" := JStr "0.000000010000000000";
     "max_order_size" := JStr "20.0000000000000000";
     "min_order_size" := JStr "0.000001000000000000";
     "quote_code" := JStr "USD";
     "quote_increment" := JStr "0.010000000000000000";
     "status" := JStr "tradable";
     "symbol" := JStr "BTC-USD" ]}.

Definition shib_usd : gmap string json :=
  {[ "asset_code" := JStr "SHIB";
     "asset_increment" := JStr "1";
     "max_order_size" := JStr "2000000000";
     "min_order_size" := JStr "800";
     "quote_code" := JStr "USD";
     "quote_increment" := JStr "0.00000001";
     "status" := JStr "tradable";
     "symbol" := JStr "SHIB-USD" ]}.

(** Quotes shaped like those of the comment above
    [EstimatedOrderPrice]. *)
Definition bid_quote (price timestamp : string) : gmap string json :=
  {[ "symbol" := JStr "SHIB-USD";
     "price" := JStr price;
     "quantity" := JStr "800";
     "side" := JStr "bid";
     "bid_inclusive_of_sell_spread" := JStr "0.00001933";
     "sell_spread" := JStr "0.00514668";
     "timestamp" := JStr timestamp ]}.

Definition ask_quote (price timestamp : string) : gmap string json :=
  {[ "symbol" := JStr "SHIB-USD";
     "price" := JStr price;
     "quantity" := JStr "800";
     "side" := JStr "ask";
     "ask_inclusive_of_buy_spread" := JStr "0.00001955";
     "buy_spread" := JStr "0.00514139";
     "timestamp" := JStr timestamp ]}.

Definition t0 : string := "2024-11-09T06:16:50.104485-05:00".
Definition t1 : string := "2024-11-09T06:15:05.545528-05:00".

Definition ok (body : json) : reply := Reply (mk_response 200 "" (inr body)).

Definition results (items : list json) : json := JObj {[ "results" := JArr items ]}.

Definition is_trading_pairs (rq : request) : bool :=
  String.prefix (CryptoAPITrading.base_url +:+ "/api/v1/crypto/trading/trading_pairs/")
                (rq_url rq).

(** A server that answers a trading-pair lookup with [pairs] and every
    other request with [quotes]. *)
Definition serving (pairs quotes : list json) : Env := {|
  clock := λ k, 1731150000 * us_per_second + Z.of_nat k;
  server := λ _ rq, if is_trading_pairs rq then ok (results pairs) else ok (results quotes);
|}.

(** A server that answers every request with HTTP 503. *)
Definition unavailable : Env := {|
  clock := λ k, 1731150000 * us_per_second + Z.of_nat k;
  server := λ _ _, Reply (mk_response 503 "Service Unavailable" (inl JSONDecodeError));
|}.

Definition w0 : world := mk_world 0 [] ∅ [].

Definition bid_a : json := JObj (bid_quote "0.00001943" t0).
Definition bid_b : json := JObj (bid_quote "0.00001940" t0).
Definition ask_a : json := JObj (ask_quote "0.00001945" t0).

(** The records that the payloads above parse into. *)
Definition bid_record (price timestamp : string) : EstimatedOrderPrice.t :=
  EstimatedOrderPrice.mk "SHIB-USD" (PyFloat.literal price) (PyFloat.literal "800") "bid"
    timestamp (PyFloat.literal "0.00001933") (PyFloat.literal "0.00514668").

Definition ask_record (price timestamp : string) : EstimatedOrderPrice.t :=
  EstimatedOrderPrice.mk "SHIB-USD" (PyFloat.literal price) (PyFloat.literal "800") "ask"
    timestamp (PyFloat.literal "0.00001955") (PyFloat.literal "0.00514139").

Definition shib_pair : TradingPair.t :=
  TradingPair.mk "SHIB" (PyFloat.literal "1") (PyFloat.literal "2000000000")
    (PyFloat.literal "800") "USD" (PyFloat.literal "0.00000001") "tradable" "SHIB-USD".

(** A server that knows the pair SHIB-USD and answers every request for
    quotes with [quotes]. *)
Definition shib_market (quotes : list json) : Env := serving [JObj shib_usd] quotes.

End Sample.

(** ** Vocabulary of the statements *)

(** The fields that [TradingPair.from_dict] reads. *)
Definition trading_pair_fields : list string :=
  ["asset_code"; "asset_increment"; "max_order_size"; "min_order_size";
   "quote_code"; "quote_increment"; "status"; "symbol"].

(** A character of a decimal numeral: a digit or the point. *)
Definition numeral_char (a : ascii) : Prop := PyFloat.is_digit a = true ∨ a = "."%char.

(** The digits that the text [s] spells (none if [s] has any other
    character). *)
Definition digits (s : string) : Decimal.uint :=
  default Decimal.Nil (NilEmpty.uint_of_string s).

(** The text of the decimal numeral with the digits [i] before and the
    digits [f] after the point, such as [0.000001]. *)
Definition decimal_text (i f : Decimal.uint) : string :=
  NilEmpty.string_of_uint i +:+ "." +:+ NilEmpty.string_of_uint f.

(** The binary64 number nearest to the value of that numeral, which is
    the number written with the digits of [i] and [f] divided by ten to
    the number of digits of [f]. *)
Definition decimal_float (i f : Decimal.uint) : float :=
  PyFloat.round_decimal false (Z.of_uint (Decimal.app i f))
    (- Z.of_nat (Decimal.nb_digits f)).

(** [x] is a positive normal binary64 number with a negative exponent
    that lies within half a unit in the last place of [num / den]. *)
Definition nearest_to (x : float) (num den : Z) : Prop :=
  match x with
  | S754_finite false m e =>
      2 ^ 52 ≤ Zpos m < 2 ^ 53 ∧ e < 0 ∧
      2 * Z.abs (Zpos m * den - num * 2 ^ (- e)) ≤ den
  | _ => False
  end.

Section Vocabulary.
Context `{PyLib}.

(** [r] holds the fields of the quote payload [data], its price
    including the spread and its spread being read from the wire fields
    [k_price] and [k_spread]. *)
Definition quote_built_from (data : json) (k_price k_spread : string)
    (r : EstimatedOrderPrice.t) : Prop :=
  (∃ v, py_getitem data "symbol" = inr v ∧ str_field v = Some (EstimatedOrderPrice.symbol r)) ∧
  py_getitem data "price" ≫= py_float = inr (EstimatedOrderPrice.price r) ∧
  py_getitem data "quantity" ≫= py_float = inr (EstimatedOrderPrice.quantity r) ∧
  (∃ v, py_getitem data "side" = inr v ∧ str_field v = Some (EstimatedOrderPrice.side r)) ∧
  py_getitem data "timestamp" ≫= py_fromisoformat = inr (EstimatedOrderPrice.timestamp r) ∧
  py_getitem data k_price ≫= py_float = inr (EstimatedOrderPrice.price_including_spread r) ∧
  py_getitem data k_spread ≫= py_float = inr (EstimatedOrderPrice.spread r).

(** [q] is the first quote of [quotes] whose side is [side]. *)
Definition first_of_side (side : string) (quotes : list EstimatedOrderPrice.t)
    (q : EstimatedOrderPrice.t) : Prop :=
  ∃ before after,
    quotes = before ++ q :: after ∧
    Forall (λ x, EstimatedOrderPrice.side x ≠ side) before ∧
    EstimatedOrderPrice.side q = side.

(** No quote of [quotes] has side [side]. *)
Definition none_of_side (side : string) (quotes : list EstimatedOrderPrice.t) : Prop :=
  Forall (λ x, EstimatedOrderPrice.side x ≠ side) quotes.

(** The flattened entry [e] mirrors the quotes [bid] and [ask] field by
    field and carries the bid's timestamp. *)
Definition mirrors (e : EstimatedOrderPriceHistoryEntry.t)
    (bid ask : EstimatedOrderPrice.t) : Prop :=
  EstimatedOrderPriceHistoryEntry.symbol e = EstimatedOrderPrice.symbol bid ∧
  EstimatedOrderPriceHistoryEntry.bid_price e = EstimatedOrderPrice.price bid ∧
  EstimatedOrderPriceHistoryEntry.bid_quantity e = EstimatedOrderPrice.quantity bid ∧
  EstimatedOrderPriceHistoryEntry.bid_side e = EstimatedOrderPrice.side bid ∧
  EstimatedOrderPriceHistoryEntry.bid_timestamp e = EstimatedOrderPrice.timestamp bid ∧
  EstimatedOrderPriceHistoryEntry.bid_price_including_spread e
    = EstimatedOrderPrice.price_including_spread bid ∧
  EstimatedOrderPriceHistoryEntry.bid_spread e = EstimatedOrderPrice.spread bid ∧
  EstimatedOrderPriceHistoryEntry.ask_price e = EstimatedOrderPrice.price ask ∧
  EstimatedOrderPriceHistoryEntry.ask_quantity e = EstimatedOrderPrice.quantity ask ∧
  EstimatedOrderPriceHistoryEntry.ask_side e = EstimatedOrderPrice.side ask ∧
  EstimatedOrderPriceHistoryEntry.ask_timestamp e = EstimatedOrderPrice.timestamp ask ∧
  EstimatedOrderPriceHistoryEntry.ask_price_including_spread e
    = EstimatedOrderPrice.price_including_spread ask ∧
  EstimatedOrderPriceHistoryEntry.ask_spread e = EstimatedOrderPrice.spread ask ∧
  EstimatedOrderPriceHistoryEntry.timestamp e = EstimatedOrderPrice.timestamp bid.
End Vocabulary.

(** The world [w] with the disk cache replaced by [d]. *)
Definition with_disk (d : gmap cache_key (Z * list TradingPair.t)) (w : world) : world :=
  mk_world (ticks w) (sent w) d (stdout w).

(** The world [w] after one more clock reading. *)
Definition ticked (w : world) : world :=
  mk_world (S (ticks w)) (sent w) (disk w) (stdout w).

(** The world [w] after [line] has been printed. *)
Definition printed (line : string) (w : world) : world :=
  mk_world (ticks w) (sent w) (disk w) (stdout w ++ [line]).

(** The computation [op] neither consults nor changes the disk cache:
    run on any other cache content it yields the same result and the
    same world, and it leaves the cache as it found it. *)
Definition uncached {A} (op : M A) : Prop :=
  ∀ w d, op (with_disk d w) = ((op w).1, with_disk d (op w).2).

(** The computation [op] makes exactly one HTTP attempt, whatever the
    world it starts from. *)
Definition one_attempt {A} (op : M A) : Prop :=
  ∀ w, ∃ rq, sent (op w).2 = sent w ++ [rq].

Section RequestVocabulary.
Context `{PyLib} `{Env}.

(** The request that [make_api_request self "GET" path body] sends from
    the world [w]. *)
Definition get_request (self : CryptoAPITrading.t) (path body : string) (w : world)
  : request :=
  mk_request "GET" (CryptoAPITrading.base_url +:+ path)
    (CryptoAPITrading.get_authorization_header self "GET" path body
       (CryptoAPITrading.seconds_since_epoch (clock (ticks w))))
    None 10.

(** The world after [make_api_request] has read the clock and sent [rq]
    from [w], having printed [lines]. *)
Definition after_attempt (w : world) (rq : request) (lines : list string) : world :=
  mk_world (S (ticks w)) (sent w ++ [rq]) (disk w) (stdout w ++ lines).
End RequestVocabulary.

(** ** The rest of the code

    The body of an order, the collector of [price_history_collector.py]
    and the reader of [price_history_analyzer.py]. *)

(** The dict that [place_order] serialises. *)
Definition order_body (client_order_id side order_type symbol : string)
    (order_config : gmap string string) : gmap string json :=
  {[ "client_order_id" := JStr client_order_id;
     "side" := JStr side;
     "type" := JStr order_type;
     "symbol" := JStr symbol;
     order_type +:+ "_order_config" := JObj (JStr <$> order_config) ]}.

(** The request that [make_api_request self "POST" path body] sends from
    the world [w] when the body parses into [payload]. *)
Definition post_request `{PyLib} `{Env} (self : CryptoAPITrading.t) (path body : string)
    (payload : json) (w : world) : request :=
  mk_request "POST" (CryptoAPITrading.base_url +:+ path)
    (CryptoAPITrading.get_authorization_header self "POST" path body
       (CryptoAPITrading.seconds_since_epoch (clock (ticks w))))
    (Some payload) 10.

Module Collector.
Section Model.
Context `{PyLib} `{Env}.

(** [pprint.pformat] of the dict of an entry. *)
Variable pformat : EstimatedOrderPriceHistoryEntry.t → string.

Definition target_symbols : list string := ["SHIB-USD"; "DOGE-USD"].

(** [Collection.insert_one(data.dict())]: the collection is the list of
    the documents inserted so far, oldest first. *)
Definition write_to_mongo (data : EstimatedOrderPriceHistoryEntry.t)
    (collection : list EstimatedOrderPriceHistoryEntry.t)
  : list EstimatedOrderPriceHistoryEntry.t :=
  collection ++ [data].

(** The loop of [fetch_and_record_current_prices] over [symbols].  The
    collection is kept when the client raises. *)
Fixpoint record_prices (client : CryptoAPITrading.t) (symbols : list string)
    (collection : list EstimatedOrderPriceHistoryEntry.t) (w : world)
  : result unit * world * list EstimatedOrderPriceHistoryEntry.t :=
  match symbols with
  | [] => (inr tt, w, collection)
  | symbol :: rest =>
      match CryptoAPITrading.get_current_estimated_price client symbol w with
      | (inl e, w1) => (inl e, w1, collection)
      | (inr estimated_order_price_history_entry, w1) =>
          let w2 := (print ("Current estimated price for " +:+ symbol) w1).2 in
          let w3 := (print (pformat estimated_order_price_history_entry) w2).2 in
          record_prices client rest
            (write_to_mongo estimated_order_price_history_entry collection) w3
      end
  end.

Definition fetch_and_record_current_prices (client : CryptoAPITrading.t)
    (collection : list EstimatedOrderPriceHistoryEntry.t) (w : world)
  : result unit * world * list EstimatedOrderPriceHistoryEntry.t :=
  record_prices client target_symbols collection w.

(** [recorded client symbols w entries w']: started in the world [w],
    the client prices each of [symbols] in turn and none of the calls
    raises; [entries] are the entries that the calls return, in the
    order of the symbols, each call running in the world that the two
    printed lines of the one before it leave, and [w'] is the world
    after the lines of the last one. *)
Inductive recorded (client : CryptoAPITrading.t)
  : list string → world → list EstimatedOrderPriceHistoryEntry.t → world → Prop :=
  | recorded_nil (w : world) : recorded client [] w [] w
  | recorded_cons (symbol : string) (rest : list string) (w w1 w' : world)
      (entry : EstimatedOrderPriceHistoryEntry.t)
      (entries : list EstimatedOrderPriceHistoryEntry.t) :
      CryptoAPITrading.get_current_estimated_price client symbol w = (inr entry, w1) →
      recorded client rest
        (mk_world (ticks w1) (sent w1) (disk w1)
           ((stdout w1 ++ ["Current estimated price for " +:+ symbol]) ++ [pformat entry]))
        entries w' →
      recorded client (symbol :: rest) w (entry :: entries) w'.
End Model.
End Collector.

Module Analyzer.
Section Model.
Context `{PyLib}.

(** The documents that [Collection.find()] yields, and the pydantic
    constructor of [EstimatedOrderPriceHistoryEntry] applied to the
    fields of one of them ([None]: [ValidationError]). *)
Variable document : Type.
Variable entry_of_document : document → option EstimatedOrderPriceHistoryEntry.t.

(** One turn of the loop: the symbol gets an empty list when it is new,
    then the entry is appended to the symbol's list. *)
Definition add_entry (price_history : gmap string (list EstimatedOrderPriceHistoryEntry.t))
    (entry : EstimatedOrderPriceHistoryEntry.t)
  : gmap string (list EstimatedOrderPriceHistoryEntry.t) :=
  let symbol := EstimatedOrderPriceHistoryEntry.symbol entry in
  let price_history :=
    match price_history !! symbol with
    | None => <[symbol := []]> price_history
    | Some _ => price_history
    end in
  alter (λ entries, entries ++ [entry]) symbol price_history.

Fixpoint read_loop (documents : list document)
    (price_history : gmap string (list EstimatedOrderPriceHistoryEntry.t))
  : result (gmap string (list EstimatedOrderPriceHistoryEntry.t)) :=
  match documents with
  | [] => inr price_history
  | d :: rest =>
      match entry_of_document d with
      | None => inl ValidationError
      | Some entry => read_loop rest (add_entry price_history entry)
      end
  end.

(** [read_price_history()] when [Collection.find()] yields [documents]. *)
Definition read_price_history (documents : list document)
  : result (gmap string (list EstimatedOrderPriceHistoryEntry.t)) :=
  read_loop documents ∅.
End Model.
End Analyzer.

(** The entries of [entries] whose symbol is [symbol], in order. *)
Definition entries_of_symbol `{PyLib} (symbol : string)
    (entries : list EstimatedOrderPriceHistoryEntry.t)
  : list EstimatedOrderPriceHistoryEntry.t :=
  filter (λ e, EstimatedOrderPriceHistoryEntry.symbol e = symbol) entries.

(** The lists of [price_history] are the entries of [entries] grouped
    by symbol, each group in the order of [entries]; a symbol without
    entries has no list. *)
Definition grouped `{PyLib} (price_history : gmap string (list EstimatedOrderPriceHistoryEntry.t))
    (entries : list EstimatedOrderPriceHistoryEntry.t) : Prop :=
  ∀ symbol : string,
    default [] (price_history !! symbol) = entries_of_symbol symbol entries ∧
    (price_history !! symbol = None ↔ entries_of_symbol symbol entries = []).

(** Further sample data. *)
Module MoreSamples.

(** Like [Sample.lib], with a [json.loads] that gives [payload] back for
    every text. *)
Definition echo_lib (payload : json) : PyLib := {|
  datetime := string;
  fromisoformat := λ s, if bool_decide (s = "") then None else Some s;
  datetime_eq := λ a b, bool_decide (a = b);
  ed25519_sign := λ seed message, seed +:+ ":" +:+ message;
  b64encode := λ s, s;
  float_str := λ _, "nan";
  float_of_unicode := λ _, None;
  json_loads_nonempty := λ _, Some payload;
  json_dumps := λ _, "{}";
  pydantic_str_of_other := λ _, None;
|}.

(** A cache that holds, under the client of the samples, a list for
    BTC-USD that expired long ago and a list for DOGE-USD that expires
    late, and a world that starts with it. *)
Definition btc_key : cache_key := CryptoAPITrading.memoize_key Sample.self [Some "BTC-USD"].
Definition doge_key : cache_key := CryptoAPITrading.memoize_key Sample.self [Some "DOGE-USD"].

Definition stale_disk : gmap cache_key (Z * list TradingPair.t) :=
  {[ btc_key := (1000000, []);
     doge_key := (1800000000 * us_per_second, []) ]}.

Definition w_stale : world := with_disk stale_disk Sample.w0.

(** A server that answers by the URL of the request alone: the
    trading-pair lookup for SHIB-USD with that pair, the request for the
    bid quotes of 800.0 SHIB-USD with [bids], the one for the ask quotes
    with [asks], and anything else with HTTP 404. *)
Definition not_found : reply := Reply (mk_response 404 "Not Found" (inl JSONDecodeError)).

Definition by_url (bids asks : list json) : Env := {|
  clock := λ k, 1731150000 * us_per_second + Z.of_nat k;
  server := λ _ rq,
    if bool_decide (rq_url rq = "https://trading.robinhood.com/api/v1/crypto/trading/trading_pairs/?symbol=SHIB-USD")
    then Sample.ok (Sample.results [JObj Sample.shib_usd])
    else if bool_decide (rq_url rq = "https://trading.robinhood.com/api/v1/crypto/marketdata/estimated_price/?symbol=SHIB-USD&side=bid&quantity=800.0")
    then Sample.ok (Sample.results bids)
    else if bool_decide (rq_url rq = "https://trading.robinhood.com/api/v1/crypto/marketdata/estimated_price/?symbol=SHIB-USD&side=ask&quantity=800.0")
    then Sample.ok (Sample.results asks)
    else not_found;
|}.

Definition limit_order : gmap string json :=
  order_body "131de903-5a9c-4260-abc1-28d562a5dcf0" "buy" "limit" "BTC-USD"
    {[ "asset_quantity" := "0.0001"; "limit_price" := "50000" ]}.

Definition empty_dict : gmap string json := ∅.

(** A payload for [EstimatedBidAndAskPrice.from_dict] that lacks the
    ask. *)
Definition bid_only : gmap string json := {[ "bid" := Sample.bid_a ]}.

(** The dict of [Sample.results]. *)
Definition results_dict (items : list json) : gmap string json :=
  {[ "results" := JArr items ]}.

(** A server that answers every request with HTTP 200 and the empty
    dict. *)
Definition no_results : Env := {|
  clock := λ k, 1731150000 * us_per_second + Z.of_nat k;
  server := λ _ _, Sample.ok (JObj empty_dict);
|}.

(** A server whose answers are not JSON: [response.json()] raises the
    [JSONDecodeError] of [requests] (a [RequestException]) when
    [caught], and a plain [JSONDecodeError] otherwise. *)
Definition not_json (caught : bool) : Env := {|
  clock := λ k, 1731150000 * us_per_second + Z.of_nat k;
  server := λ _ _, Reply (mk_response 200 "<html>"
                            (inl (if caught then RequestException "Expecting value"
                                  else JSONDecodeError)));
|}.

(** A server that knows SHIB-USD but not DOGE-USD: the trading-pair
    lookup for any other symbol has no results. *)
Definition shib_only : Env := {|
  clock := λ k, 1731150000 * us_per_second + Z.of_nat k;
  server := λ _ rq,
    if Sample.is_trading_pairs rq then
      if bool_decide (rq_url rq = CryptoAPITrading.base_url
                        +:+ CryptoAPITrading.trading_pairs_path [Some "SHIB-USD"])
      then Sample.ok (Sample.results [JObj Sample.shib_usd])
      else Sample.ok (Sample.results [])
    else Sample.ok (Sample.results [Sample.bid_a; Sample.ask_a]);
|}.

Definition shib_entry : @EstimatedOrderPriceHistoryEntry.t Sample.lib :=
  @EstimatedOrderPriceHistoryEntry.from_objs Sample.lib
    (Sample.bid_record "0.00001943" Sample.t0) (Sample.ask_record "0.00001945" Sample.t0).

Definition doge_entry : @EstimatedOrderPriceHistoryEntry.t Sample.lib :=
  @EstimatedOrderPriceHistoryEntry.mk Sample.lib "DOGE-USD"
    (PyFloat.literal "0.38") (PyFloat.literal "1") "bid" Sample.t0
    (PyFloat.literal "0.379") (PyFloat.literal "0.005")
    (PyFloat.literal "0.381") (PyFloat.literal "1") "ask" Sample.t0
    (PyFloat.literal "0.382") (PyFloat.literal "0.005") Sample.t0.

End MoreSamples.

(** * Theorems *)

(** Unfolds the two monads. *)
Ltac unfold_monad :=
  unfold mbind, mret, M_bind, M_ret, result_bind, result_ret, lift, raise in *.

(** ** The models *)

Section ModelTheorems.
Context `{PyLib}.

Lemma result_bind_inr {A B} (m : result A) (f : A → result B) (y : B) :
  m ≫= f = inr y ↔ ∃ x, m = inr x ∧ f x = inr y.
Proof.
  unfold_monad. destruct m as [e|x]; split.
  - discriminate.
  - intros (x & Hx & _). discriminate.
  - eauto.
  - intros (x' & Hx & Hf). by simplify_eq.
Qed.

Lemma from_dict_inr_iff (data : json) (r : EstimatedOrderPrice.t) (side0 : json) :
  py_getitem data "side" = inr side0 →
  EstimatedOrderPrice.from_dict data = inr r ↔
  quote_built_from data (EstimatedOrderPrice.spread_keys side0).1
                        (EstimatedOrderPrice.spread_keys side0).2 r.
Proof.
  intros Hside. unfold EstimatedOrderPrice.from_dict, quote_built_from.
  rewrite Hside. unfold_monad; simpl.
  destruct (EstimatedOrderPrice.spread_keys side0) as [k1 k2]; simpl.
  destruct (py_getitem data "symbol") as [e|sy]; simpl.
  { split; [discriminate | intros ((v & Hv & _) & _); discriminate]. }
  destruct (py_getitem data "price") as [e|p0]; simpl.
  { split; [discriminate | intros (_ & Hp & _); discriminate]. }
  destruct (py_float p0) as [e|p]; simpl.
  { split; [discriminate | intros (_ & Hp & _); discriminate]. }
  destruct (py_getitem data "quantity") as [e|q0]; simpl.
  { split; [discriminate | intros (_ & _ & Hq & _); discriminate]. }
  destruct (py_float q0) as [e|q]; simpl.
  { split; [discriminate | intros (_ & _ & Hq & _); discriminate]. }
  destruct (py_getitem data "timestamp") as [e|t0]; simpl.
  { split; [discriminate | intros (_ & _ & _ & _ & Ht & _); discriminate]. }
  destruct (py_fromisoformat t0) as [e|ts]; simpl.
  { split; [discriminate | intros (_ & _ & _ & _ & Ht & _); discriminate]. }
  destruct (py_getitem data k1) as [e|a0]; simpl.
  { split; [discriminate | intros (_ & _ & _ & _ & _ & Ha & _); discriminate]. }
  destruct (py_float a0) as [e|a]; simpl.
  { split; [discriminate | intros (_ & _ & _ & _ & _ & Ha & _); discriminate]. }
  destruct (py_getitem data k2) as [e|b0]; simpl.
  { split; [discriminate | intros (_ & _ & _ & _ & _ & _ & Hb); discriminate]. }
  destruct (py_float b0) as [e|b]; simpl.
  { split; [discriminate | intros (_ & _ & _ & _ & _ & _ & Hb); discriminate]. }
  unfold EstimatedOrderPrice.new.
  destruct (str_field sy) as [sy'|] eqn:Hsy.
  2:{ split; [discriminate | intros ((v & Hv & Hv') & _); congruence]. }
  destruct (str_field side0) as [sd'|] eqn:Hsd.
  2:{ split; [discriminate | intros (_ & _ & _ & (v & Hv & Hv') & _); congruence]. }
  split.
  - intros [= <-]; simpl. repeat split; eauto.
  - destruct r; simpl.
    intros ((v & Hv & Hv') & Hp & Hq & (v' & Hw & Hw') & Ht & Ha & Hb).
    simplify_eq. reflexivity.
Qed.

(** C5.  For every quote payload, [EstimatedOrderPrice.from_dict] picks
    the source of the price including the spread and of the spread by
    the side: with [side = "bid"] the record it returns is exactly the
    one built from [bid_inclusive_of_sell_spread] and [sell_spread];
    with [side = "ask"] the one built from
    [ask_inclusive_of_buy_spread] and [buy_spread]. *)
Theorem from_dict_selects_spread_fields_by_side (data : json) (r : EstimatedOrderPrice.t) :
  (py_getitem data "side" = inr (JStr "bid") →
   EstimatedOrderPrice.from_dict data = inr r ↔
   quote_built_from data "bid_inclusive_of_sell_spread" "sell_spread" r) ∧
  (py_getitem data "side" = inr (JStr "ask") →
   EstimatedOrderPrice.from_dict data = inr r ↔
   quote_built_from data "ask_inclusive_of_buy_spread" "buy_spread" r).
Proof.
  split; intros Hside; apply (from_dict_inr_iff data r _ Hside).
Qed.

(** C4.  Building an [EstimatedBidAndAskPrice] from a bid and an ask
    raises [ValueError("Bid and ask timestamps must match")] when the
    two timestamps differ, and succeeds when they are equal, with the
    bid's timestamp, which equals the ask's, as the composite timestamp;
    [from_dict] does the same on the two parsed sub-payloads. *)
Theorem bid_and_ask_timestamps_must_match (bid ask : EstimatedOrderPrice.t) :
  (datetime_eq (EstimatedOrderPrice.timestamp bid) (EstimatedOrderPrice.timestamp ask) = false →
   EstimatedBidAndAskPrice.from_objs bid ask
   = inl (ValueError "Bid and ask timestamps must match")) ∧
  (datetime_eq (EstimatedOrderPrice.timestamp bid) (EstimatedOrderPrice.timestamp ask) = true →
   ∃ r, EstimatedBidAndAskPrice.from_objs bid ask = inr r ∧
        EstimatedBidAndAskPrice.bid r = bid ∧
        EstimatedBidAndAskPrice.ask r = ask ∧
        EstimatedBidAndAskPrice.timestamp r = EstimatedOrderPrice.timestamp bid ∧
        datetime_eq (EstimatedBidAndAskPrice.timestamp r)
                    (EstimatedOrderPrice.timestamp ask) = true) ∧
  (∀ data : json,
     py_getitem data "bid" ≫= EstimatedOrderPrice.from_dict = inr bid →
     py_getitem data "ask" ≫= EstimatedOrderPrice.from_dict = inr ask →
     EstimatedBidAndAskPrice.from_dict data = EstimatedBidAndAskPrice.from_objs bid ask).
Proof.
  unfold EstimatedBidAndAskPrice.from_objs, EstimatedBidAndAskPrice.from_dict, datetime_ne.
  split; [|split].
  - intros ->. reflexivity.
  - intros Heq. rewrite Heq. simpl. eexists. repeat split. exact Heq.
  - intros data Hb Ha.
    change (@mbind result _ _ _ ?f (?m ≫= ?g)) with (result_bind _ _ f (m ≫= g)).
    unfold result_bind at 1. rewrite Hb.
    unfold result_bind at 1. rewrite Ha. reflexivity.
Qed.

(** *** Decimal numerals

    What [float] makes of the text of a decimal numeral. *)


Lemma digits_of_uint (d : Decimal.uint) :
  Forall (λ a, PyFloat.is_digit a = true) (list_ascii_of_string (NilEmpty.string_of_uint d)).
Proof. induction d; simpl; constructor; (reflexivity || assumption). Qed.

Lemma length_of_uint (d : Decimal.uint) :
  length (list_ascii_of_string (NilEmpty.string_of_uint d)) = Decimal.nb_digits d.
Proof. induction d; simpl; congruence. Qed.

Lemma digits_val_of_uint (d : Decimal.uint) (acc : Decimal.uint) :
  fold_left (λ acc a, 10 * acc + PyFloat.digit_val a)
    (list_ascii_of_string (NilEmpty.string_of_uint d))
    (Z.of_N (DecimalPos.Unsigned.of_lu acc))
  = Z.of_N (DecimalPos.Unsigned.of_lu (Decimal.revapp d acc)).
Proof.
  revert acc. induction d; intros acc; simpl; [reflexivity|..];
    rewrite <- IHd; f_equal;
    cbn [DecimalPos.Unsigned.of_lu]; unfold PyFloat.digit_val;
    match goal with
    | |- context [nat_of_ascii ?c] =>
        let v := eval vm_compute in (nat_of_ascii c) in change (nat_of_ascii c) with v
    end; lia.
Qed.

Lemma digits_val_app (i f : Decimal.uint) :
  PyFloat.digits_val (list_ascii_of_string (NilEmpty.string_of_uint i)
                      ++ list_ascii_of_string (NilEmpty.string_of_uint f))
  = Z.of_uint (Decimal.app i f).
Proof.
  unfold PyFloat.digits_val. rewrite fold_left_app.
  change 0 with (Z.of_N (Unsigned.of_lu Decimal.Nil)).
  rewrite !digits_val_of_uint.
  unfold Z.of_uint. rewrite Unsigned.of_uint_alt. f_equal. f_equal.
  apply to_list_inj.
  rewrite rev_spec, app_spec, !revapp_spec, !rev_append_rev, rev_app_distr.
  simpl. by rewrite app_nil_r.
Qed.

Lemma drop_spaces_digits (l : list ascii) :
  Forall (λ a, PyFloat.is_space a = false) l → PyFloat.drop_spaces l = l.
Proof. intros Hl. destruct Hl as [|a l Ha _]; simpl; [done|]. by rewrite Ha. Qed.

Lemma strip_digits (l : list ascii) :
  Forall (λ a, PyFloat.is_space a = false) l → PyFloat.strip l = l.
Proof.
  intros Hl. unfold PyFloat.strip.
  rewrite (drop_spaces_digits l Hl).
  rewrite drop_spaces_digits by (by apply Forall_rev).
  apply rev_involutive.
Qed.

Lemma remove_underscores_digits (prev : option ascii) (l : list ascii) :
  prev ≠ Some "_"%char → Forall (λ a, a ≠ "_"%char) l →
  PyFloat.remove_underscores prev l = Some l.
Proof.
  intros Hprev Hl. revert prev Hprev.
  induction Hl as [|a l Ha _ IH]; intros prev Hprev; simpl.
  - by rewrite decide_False.
  - rewrite decide_False by done.
    rewrite bool_decide_eq_false_2 by done. simpl.
    rewrite IH by congruence. reflexivity.
Qed.

Lemma span_digits_app (ds r : list ascii) :
  Forall (λ a, PyFloat.is_digit a = true) ds →
  match r with [] => True | a :: _ => PyFloat.is_digit a = false end →
  PyFloat.span_digits (ds ++ r) = (ds, r).
Proof.
  intros Hds Hr. induction Hds as [|a ds Ha _ IH]; simpl.
  - destruct r as [|a r]; [done|]. simpl. by rewrite Hr.
  - by rewrite Ha, IH.
Qed.

Lemma numeral_char_facts (a : ascii) :
  numeral_char a →
  PyFloat.is_space a = false ∧ a ≠ "_"%char ∧ a ≠ "-"%char ∧ a ≠ "+"%char ∧
  PyFloat.lower a = a ∧ a ≠ "i"%char ∧ a ≠ "n"%char ∧ (nat_of_ascii a <? 128)%nat = true.
Proof.
  intros [Ha | ->]; [|by vm_compute].
  unfold PyFloat.is_digit in Ha. apply andb_true_iff in Ha as [H1 H2].
  apply Nat.leb_le in H1, H2.
  unfold PyFloat.is_space, PyFloat.lower.
  assert (Hne : ∀ c : ascii, (nat_of_ascii c < 48 ∨ 57 < nat_of_ascii c)%nat → a ≠ c).
  { intros c Hc ->. lia. }
  repeat split.
  - apply orb_false_iff. split.
    + apply andb_false_iff. right. apply Nat.leb_gt. lia.
    + apply Nat.eqb_neq. lia.
  - apply Hne. vm_compute. lia.
  - apply Hne. vm_compute. lia.
  - apply Hne. vm_compute. lia.
  - replace (65 <=? nat_of_ascii a)%nat with false; [done|].
    symmetry. apply Nat.leb_gt. lia.
  - apply Hne. vm_compute. lia.
  - apply Hne. vm_compute. lia.
  - apply Nat.ltb_lt. lia.
Qed.

Lemma take_sign_numeral (l : list ascii) :
  Forall numeral_char l → PyFloat.take_sign l = (false, l).
Proof.
  intros Hl. destruct Hl as [|a l Ha _]; [reflexivity|].
  apply numeral_char_facts in Ha as (_ & _ & Hminus & Hplus & _).
  destruct a as [[] [] [] [] [] [] [] []]; try reflexivity; congruence.
Qed.

Lemma numeral_is_no_word (l : list ascii) (word : string) :
  l ≠ [] → Forall numeral_char l →
  word = "inf" ∨ word = "infinity" ∨ word = "nan" →
  string_of_list_ascii (PyFloat.lower <$> l) ≠ word.
Proof.
  intros Hne Hl Hword. destruct Hl as [|a l Ha _]; [done|].
  apply numeral_char_facts in Ha as (_ & _ & _ & _ & Hlower & Hi & Hn & _).
  simpl. rewrite Hlower.
  destruct Hword as [-> | [-> | ->]]; intros Heq; injection Heq; intros; congruence.
Qed.

Lemma string_of_uint_nil (d : Decimal.uint) :
  list_ascii_of_string (NilEmpty.string_of_uint d) = [] → d = Decimal.Nil.
Proof. by destruct d. Qed.

Lemma list_ascii_of_string_app (s1 s2 : string) :
  list_ascii_of_string (s1 +:+ s2) = list_ascii_of_string s1 ++ list_ascii_of_string s2.
Proof.
  induction s1 as [|a s1 IH]; [reflexivity|].
  change (String a s1 +:+ s2) with (String a (s1 +:+ s2)). simpl. by rewrite IH.
Qed.

Lemma of_string_decimal_text (i f : Decimal.uint) :
  i ≠ Decimal.Nil ∨ f ≠ Decimal.Nil →
  PyFloat.is_ascii (decimal_text i f) = true ∧
  PyFloat.of_string (decimal_text i f) = Some (decimal_float i f).
Proof.
  intros Hne.
  set (ip := list_ascii_of_string (NilEmpty.string_of_uint i)).
  set (fp := list_ascii_of_string (NilEmpty.string_of_uint f)).
  assert (Hchars : list_ascii_of_string (decimal_text i f) = ip ++ "."%char :: fp).
  { unfold decimal_text. rewrite !list_ascii_of_string_app. reflexivity. }
  assert (Hip : Forall (λ a, PyFloat.is_digit a = true) ip) by apply digits_of_uint.
  assert (Hfp : Forall (λ a, PyFloat.is_digit a = true) fp) by apply digits_of_uint.
  assert (Hall : Forall numeral_char (ip ++ "."%char :: fp)).
  { apply Forall_app. split; [|constructor; [by right|]];
      (eapply Forall_impl; [eassumption|]); intros a Ha; by left. }
  assert (Hfacts := λ a (Ha : numeral_char a), numeral_char_facts a Ha).
  split.
  { unfold PyFloat.is_ascii. rewrite Hchars. apply forallb_forall.
    intros a Ha. apply list_elem_of_In in Ha.
    apply (proj1 (Forall_forall _ _) Hall) in Ha. apply Hfacts in Ha; tauto. }
  unfold PyFloat.of_string. rewrite Hchars.
  rewrite strip_digits
    by (eapply Forall_impl; [exact Hall|]; intros a Ha; apply Hfacts in Ha; tauto).
  rewrite remove_underscores_digits;
    [|done|eapply Forall_impl; [exact Hall|]; intros a Ha; apply Hfacts in Ha; tauto].
  simpl. rewrite take_sign_numeral by exact Hall.
  assert (Hbody : ip ++ "."%char :: fp ≠ []) by (by destruct ip).
  rewrite decide_False
    by (intros [Hw | Hw]; revert Hw; apply numeral_is_no_word; auto).
  rewrite decide_False by (apply numeral_is_no_word; auto).
  unfold PyFloat.parse_decimal.
  rewrite (span_digits_app ip) by (exact Hip || reflexivity).
  rewrite <- (app_nil_r fp) at 1.
  rewrite (span_digits_app fp) by (exact Hfp || exact I).
  assert (Hds : ip ++ fp ≠ []).
  { intros Hnil. apply app_eq_nil in Hnil as [Hi Hf].
    apply string_of_uint_nil in Hi, Hf. tauto. }
  destruct (ip ++ fp) as [|d ds] eqn:Hdigits; [done|].
  simpl. rewrite <- Hdigits. subst ip fp.
  rewrite digits_val_app, length_of_uint. reflexivity.
Qed.

Lemma py_float_decimal_text (i f : Decimal.uint) :
  i ≠ Decimal.Nil ∨ f ≠ Decimal.Nil →
  py_float (JStr (decimal_text i f)) = inr (decimal_float i f).
Proof.
  intros Hne. destruct (of_string_decimal_text i f Hne) as [Hascii Hparse].
  unfold py_float. by rewrite Hascii, Hparse.
Qed.

Lemma trading_pair_from_dict_strings (data : gmap string json)
    (ac ai mx mn qc qi st sy : string) (fai fmx fmn fqi : float) :
  data !! "asset_code" = Some (JStr ac) →
  data !! "asset_increment" = Some (JStr ai) →
  data !! "max_order_size" = Some (JStr mx) →
  data !! "min_order_size" = Some (JStr mn) →
  data !! "quote_code" = Some (JStr qc) →
  data !! "quote_increment" = Some (JStr qi) →
  data !! "status" = Some (JStr st) →
  data !! "symbol" = Some (JStr sy) →
  py_float (JStr ai) = inr fai →
  py_float (JStr mx) = inr fmx →
  py_float (JStr mn) = inr fmn →
  py_float (JStr qi) = inr fqi →
  TradingPair.from_dict (JObj data) = inr (TradingPair.mk ac fai fmx fmn qc fqi st sy).
Proof.
  intros H1 H2 H3 H4 H5 H6 H7 H8 F2 F3 F4 F6.
  unfold TradingPair.from_dict, py_getitem.
  rewrite H1, H2, H3, H4, H5, H6, H7, H8. unfold_monad.
  rewrite F2, F3, F4, F6. reflexivity.
Qed.

Lemma trading_pair_from_dict_reads (data : gmap string json) (tp : TradingPair.t) :
  TradingPair.from_dict (JObj data) = inr tp →
  ∃ v1 v2 v3 v4 v5 v6 v7 v8 f2 f3 f4 f6,
    data !! "asset_code" = Some v1 ∧ data !! "asset_increment" = Some v2 ∧
    data !! "max_order_size" = Some v3 ∧ data !! "min_order_size" = Some v4 ∧
    data !! "quote_code" = Some v5 ∧ data !! "quote_increment" = Some v6 ∧
    data !! "status" = Some v7 ∧ data !! "symbol" = Some v8 ∧
    py_float v2 = inr f2 ∧ py_float v3 = inr f3 ∧ py_float v4 = inr f4 ∧
    py_float v6 = inr f6.
Proof.
  unfold TradingPair.from_dict, py_getitem. unfold_monad.
  destruct (data !! "asset_code") as [v1|]; [|discriminate].
  destruct (data !! "asset_increment") as [v2|]; [|discriminate].
  destruct (py_float v2) as [|f2] eqn:F2; [discriminate|].
  destruct (data !! "max_order_size") as [v3|]; [|discriminate].
  destruct (py_float v3) as [|f3] eqn:F3; [discriminate|].
  destruct (data !! "min_order_size") as [v4|]; [|discriminate].
  destruct (py_float v4) as [|f4] eqn:F4; [discriminate|].
  destruct (data !! "quote_code") as [v5|]; [|discriminate].
  destruct (data !! "quote_increment") as [v6|]; [|discriminate].
  destruct (py_float v6) as [|f6] eqn:F6; [discriminate|].
  destruct (data !! "status") as [v7|]; [|discriminate].
  destruct (data !! "symbol") as [v8|]; [|discriminate].
  intros _. exists v1, v2, v3, v4, v5, v6, v7, v8, f2, f3, f4, f6.
  repeat split; assumption.
Qed.

Lemma trading_pair_from_dict_absent (data : gmap string json) (k : string) :
  k ∈ trading_pair_fields → data !! k = None →
  ∃ e, TradingPair.from_dict (JObj data) = inl e.
Proof.
  intros Hk Hnone.
  destruct (TradingPair.from_dict (JObj data)) as [e|tp] eqn:Hfd; [eauto|].
  exfalso.
  destruct (trading_pair_from_dict_reads _ _ Hfd)
    as (v1&v2&v3&v4&v5&v6&v7&v8&f2&f3&f4&f6&H1&H2&H3&H4&H5&H6&H7&H8&_).
  unfold trading_pair_fields in Hk.
  repeat (apply elem_of_cons in Hk as [-> | Hk]; [congruence|]).
  by apply elem_of_nil in Hk.
Qed.

Lemma trading_pair_from_dict_delete (data : gmap string json) (k : string)
    (tp : TradingPair.t) :
  k ∈ trading_pair_fields →
  TradingPair.from_dict (JObj data) = inr tp →
  TradingPair.from_dict (JObj (delete k data)) = inl (KeyError k).
Proof.
  intros Hk Hfd.
  destruct (trading_pair_from_dict_reads _ _ Hfd)
    as (v1&v2&v3&v4&v5&v6&v7&v8&f2&f3&f4&f6&H1&H2&H3&H4&H5&H6&H7&H8&F2&F3&F4&F6).
  unfold trading_pair_fields in Hk.
  unfold TradingPair.from_dict, py_getitem. unfold_monad.
  repeat (apply elem_of_cons in Hk as [-> | Hk];
          [ repeat (rewrite lookup_delete_eq || (rewrite lookup_delete_ne by done));
            repeat first [ rewrite H1 | rewrite H2 | rewrite H3 | rewrite H4
                         | rewrite H5 | rewrite H6 | rewrite H7 | rewrite H8
                         | rewrite F2 | rewrite F3 | rewrite F4 | rewrite F6 ];
            reflexivity |]).
  by apply elem_of_nil in Hk.
Qed.

(** C9.  [TradingPair.from_dict] fails when a required field is absent
    (with [KeyError] on that field when the payload is otherwise
    complete).  A numeric field that holds the text of a decimal
    numeral becomes the binary64 number nearest to the numeral's value,
    and more generally whatever [float] makes of its text.  The sample
    payload of the source parses into the pair BTC-USD whose
    [min_order_size] is the float [0.000001], that is
    [4722366482869645 * 2^-72], the binary64 number nearest to
    [1/10^6]; its other numeric fields are the numbers nearest to
    [1/10^8], [20] and [1/100]. *)
Theorem trading_pair_from_dict_coerces_and_checks :
  (∀ (data : gmap string json) (k : string),
     k ∈ trading_pair_fields → data !! k = None →
     ∃ e, TradingPair.from_dict (JObj data) = inl e) ∧
  (∀ (data : gmap string json) (k : string) (tp : TradingPair.t),
     k ∈ trading_pair_fields →
     TradingPair.from_dict (JObj data) = inr tp →
     TradingPair.from_dict (JObj (delete k data)) = inl (KeyError k)) ∧
  (∀ (data : gmap string json) (ac qc st sy : string)
     (ai af xi xf ni nf qi qf : Decimal.uint),
     ai ≠ Decimal.Nil ∨ af ≠ Decimal.Nil →
     xi ≠ Decimal.Nil ∨ xf ≠ Decimal.Nil →
     ni ≠ Decimal.Nil ∨ nf ≠ Decimal.Nil →
     qi ≠ Decimal.Nil ∨ qf ≠ Decimal.Nil →
     data !! "asset_code" = Some (JStr ac) →
     data !! "asset_increment" = Some (JStr (decimal_text ai af)) →
     data !! "max_order_size" = Some (JStr (decimal_text xi xf)) →
     data !! "min_order_size" = Some (JStr (decimal_text ni nf)) →
     data !! "quote_code" = Some (JStr qc) →
     data !! "quote_increment" = Some (JStr (decimal_text qi qf)) →
     data !! "status" = Some (JStr st) →
     data !! "symbol" = Some (JStr sy) →
     TradingPair.from_dict (JObj data)
     = inr (TradingPair.mk ac (decimal_float ai af) (decimal_float xi xf)
              (decimal_float ni nf) qc (decimal_float qi qf) st sy)) ∧
  (∀ (data : gmap string json) (ac ai mx mn qc qi st sy : string) (fai fmx fmn fqi : float),
     data !! "asset_code" = Some (JStr ac) →
     data !! "asset_increment" = Some (JStr ai) →
     data !! "max_order_size" = Some (JStr mx) →
     data !! "min_order_size" = Some (JStr mn) →
     data !! "quote_code" = Some (JStr qc) →
     data !! "quote_increment" = Some (JStr qi) →
     data !! "status" = Some (JStr st) →
     data !! "symbol" = Some (JStr sy) →
     py_float (JStr ai) = inr fai →
     py_float (JStr mx) = inr fmx →
     py_float (JStr mn) = inr fmn →
     py_float (JStr qi) = inr fqi →
     TradingPair.from_dict (JObj data)
     = inr (TradingPair.mk ac fai fmx fmn qc fqi st sy)) ∧
  (∃ tp, TradingPair.from_dict (JObj Sample.btc_usd) = inr tp ∧
         TradingPair.asset_code tp = "BTC" ∧
         TradingPair.quote_code tp = "USD" ∧
         TradingPair.status tp = "tradable" ∧
         TradingPair.symbol tp = "BTC-USD" ∧
         TradingPair.min_order_size tp = S754_finite false 4722366482869645 (-72) ∧
         nearest_to (TradingPair.min_order_size tp) 1 (10 ^ 6) ∧
         PyFloat.eqb (TradingPair.min_order_size tp) (PyFloat.literal "0.000001") = true ∧
         TradingPair.asset_increment tp = S754_finite false 6044629098073146 (-79) ∧
         nearest_to (TradingPair.asset_increment tp) 1 (10 ^ 8) ∧
         TradingPair.max_order_size tp = S754_finite false 5629499534213120 (-48) ∧
         nearest_to (TradingPair.max_order_size tp) 20 1 ∧
         TradingPair.quote_increment tp = S754_finite false 5764607523034235 (-59) ∧
         nearest_to (TradingPair.quote_increment tp) 1 100).
Proof.
  split; [|split; [|split; [|split]]].
  - apply trading_pair_from_dict_absent.
  - apply trading_pair_from_dict_delete.
  - intros data ac qc st sy ai af xi xf ni nf qi qf Ha Hx Hn Hq H1 H2 H3 H4 H5 H6 H7 H8.
    apply (trading_pair_from_dict_strings data ac (decimal_text ai af) (decimal_text xi xf)
             (decimal_text ni nf) qc (decimal_text qi qf) st sy); try assumption;
      by apply py_float_decimal_text.
  - apply trading_pair_from_dict_strings.
  - exists (TradingPair.mk "BTC"
              (decimal_float (digits "0") (digits "000000010000000000"))
              (decimal_float (digits "20") (digits "0000000000000000"))
              (decimal_float (digits "0") (digits "000001000000000000")) "USD"
              (decimal_float (digits "0") (digits "010000000000000000")) "tradable" "BTC-USD").
    split.
    + apply (trading_pair_from_dict_strings Sample.btc_usd
               "BTC" "0.000000010000000000" "20.0000000000000000" "0.000001000000000000"
               "USD" "0.010000000000000000" "tradable" "BTC-USD");
        vm_compute; reflexivity.
    + vm_compute. repeat split; congruence.
Qed.

End ModelTheorems.

(** ** The transport *)

Section TransportTheorems.
Context `{PyLib} `{Env}.

(** What a GET request comes to: one clock reading, one attempt with a
    timeout of 10 seconds, and [None] with a printed line on a network
    failure, on a status of 400 or more, and when [response.json()]
    raises a [RequestException]. *)
Lemma make_api_request_GET (self : CryptoAPITrading.t) (path body : string) (w : world) :
  let rq := get_request self path body w in
  CryptoAPITrading.make_api_request self "GET" path body w =
  match server (length (sent w)) rq with
  | NetworkFailure msg =>
      (inr JNull, after_attempt w rq ["Error making API request: " +:+ msg])
  | Reply r =>
      if bool_decide (400 ≤ status_code r)
      then (inr JNull, after_attempt w rq ["Error making API request: " +:+ text r])
      else match json_body r with
           | inl (RequestException msg) =>
               (inr JNull, after_attempt w rq ["Error making API request: " +:+ msg])
           | res => (res, after_attempt w rq [])
           end
  end.
Proof.
  unfold CryptoAPITrading.make_api_request, CryptoAPITrading._get_current_timestamp,
    try_except_RequestException, requests_get, requests_send, time_time, print,
    get_request, after_attempt.
  unfold_monad. simpl.
  destruct (server _ _) as [msg|r]; simpl.
  - reflexivity.
  - destruct (bool_decide (400 ≤ status_code r)); simpl; [reflexivity|].
    rewrite app_nil_r.
    destruct (json_body r) as [[]|v]; reflexivity.
Qed.

(** A GET request makes exactly one HTTP attempt, with a timeout of 10
    seconds and no payload, and never raises for a network failure or
    a status of 400 or more. *)
Lemma make_api_request_GET_single_attempt (self : CryptoAPITrading.t)
    (path body : string) (w : world) :
  let rq := get_request self path body w in
  let out := CryptoAPITrading.make_api_request self "GET" path body w in
  sent out.2 = sent w ++ [rq] ∧ rq_timeout rq = 10 ∧ rq_json rq = None ∧
  (∀ msg, server (length (sent w)) rq = NetworkFailure msg → out.1 = inr JNull) ∧
  (∀ r, server (length (sent w)) rq = Reply r → 400 ≤ status_code r → out.1 = inr JNull).
Proof.
  intros rq out. subst out. rewrite make_api_request_GET. fold rq.
  repeat split.
  - destruct (server _ rq) as [msg|r]; [reflexivity|].
    destruct (bool_decide _); [reflexivity|].
    destruct (json_body r) as [[]|v]; reflexivity.
  - intros msg ->. reflexivity.
  - intros r -> Hst. by rewrite bool_decide_eq_true_2.
Qed.

(** [get_account] under a status of 400 or more (503, say) returns
    [None]: nothing is raised. *)
Lemma get_account_error_status (self : CryptoAPITrading.t) (w : world) (r : response) :
  let rq := get_request self "/api/v1/crypto/trading/accounts/" "" w in
  server (length (sent w)) rq = Reply r →
  400 ≤ status_code r →
  CryptoAPITrading.get_account self w
  = (inr JNull, after_attempt w rq ["Error making API request: " +:+ text r]).
Proof.
  intros rq Hr Hst. unfold CryptoAPITrading.get_account.
  rewrite make_api_request_GET. fold rq. rewrite Hr.
  by rewrite bool_decide_eq_true_2.
Qed.

(** What a POST request comes to: the body is parsed before anything
    is sent, and a [JSONDecodeError] is not caught. *)
Lemma make_api_request_POST (self : CryptoAPITrading.t) (path body : string) (w : world) :
  CryptoAPITrading.make_api_request self "POST" path body w =
  match json_loads body with
  | inl e => (inl e, ticked w)
  | inr payload =>
      let rq := mk_request "POST" (CryptoAPITrading.base_url +:+ path)
                  (CryptoAPITrading.get_authorization_header self "POST" path body
                     (CryptoAPITrading.seconds_since_epoch (clock (ticks w))))
                  (Some payload) 10 in
      match server (length (sent w)) rq with
      | NetworkFailure msg =>
          (inr JNull, after_attempt w rq ["Error making API request: " +:+ msg])
      | Reply r =>
          if bool_decide (400 ≤ status_code r)
          then (inr JNull, after_attempt w rq ["Error making API request: " +:+ text r])
          else match json_body r with
               | inl (RequestException msg) =>
                   (inr JNull, after_attempt w rq ["Error making API request: " +:+ msg])
               | res => (res, after_attempt w rq [])
               end
      end
  end.
Proof.
  unfold CryptoAPITrading.make_api_request, CryptoAPITrading._get_current_timestamp,
    try_except_RequestException, requests_post, requests_send, time_time, print,
    after_attempt, ticked.
  unfold_monad. simpl.
  destruct (json_loads body) as [e|payload] eqn:Hbody; simpl.
  - unfold json_loads in Hbody.
    destruct body; [by simplify_eq|].
    destruct (json_loads_nonempty _); by simplify_eq.
  - destruct (server _ _) as [msg|r]; simpl; [reflexivity|].
    destruct (bool_decide (400 ≤ status_code r)); simpl; [reflexivity|].
    rewrite app_nil_r.
    destruct (json_body r) as [[]|v]; reflexivity.
Qed.

(** C3.  [cancel_order] posts with the default body [""]:
    [json.loads("")] raises [JSONDecodeError] inside the [try], which
    only catches [requests.RequestException]; the exception reaches the
    caller and no HTTP attempt is made. *)
Theorem cancel_order_raises_before_any_attempt (self : CryptoAPITrading.t)
    (order_id : string) (w : world) :
  CryptoAPITrading.cancel_order self order_id w = (inl JSONDecodeError, ticked w) ∧
  sent (CryptoAPITrading.cancel_order self order_id w).2 = sent w.
Proof.
  unfold CryptoAPITrading.cancel_order. rewrite make_api_request_POST.
  split; reflexivity.
Qed.

Lemma string_length_app (s1 s2 : string) :
  String.length (s1 +:+ s2) = (String.length s1 + String.length s2)%nat.
Proof. induction s1 as [|a s1 IH]; simpl; [reflexivity | by rewrite IH]. Qed.

(** C6.  The headers of a request are exactly [x-api-key],
    [x-signature] and [x-timestamp]; the signature is the base64 text
    of the Ed25519 signature of the API key, the timestamp, the path,
    the method and the body put end to end without separators; a GET
    request is sent without a payload but signed with its body text. *)
Theorem authorization_header_signs_concatenation (self : CryptoAPITrading.t)
    (method path body : string) (timestamp : Z) :
  let headers := CryptoAPITrading.get_authorization_header self method path body timestamp in
  let message :=
    String.concat "" [CryptoAPITrading.api_key self; str_of_int timestamp; path; method; body] in
  dom headers = {[ "x-api-key"; "x-signature"; "x-timestamp" ]} ∧
  headers !! "x-api-key" = Some (CryptoAPITrading.api_key self) ∧
  headers !! "x-signature"
    = Some (b64encode (ed25519_sign (CryptoAPITrading.private_key self) message)) ∧
  headers !! "x-timestamp" = Some (str_of_int timestamp) ∧
  String.length message
    = (String.length (CryptoAPITrading.api_key self) + String.length (str_of_int timestamp)
       + String.length path + String.length method + String.length body)%nat ∧
  (∀ w : world,
     let out := CryptoAPITrading.make_api_request self "GET" path body w in
     ∃ rq, sent out.2 = sent w ++ [rq] ∧
           rq_method rq = "GET" ∧
           rq_json rq = None ∧
           rq_headers rq
           = CryptoAPITrading.get_authorization_header self "GET" path body
               (CryptoAPITrading.seconds_since_epoch (clock (ticks w)))).
Proof.
  intros headers message.
  assert (Hmsg : message = CryptoAPITrading.api_key self +:+ str_of_int timestamp
                           +:+ path +:+ method +:+ body).
  { reflexivity. }
  split; [|split; [|split; [|split; [|split]]]].
  - subst headers. unfold CryptoAPITrading.get_authorization_header.
    rewrite !dom_insert_L, dom_singleton_L. set_solver.
  - subst headers. unfold CryptoAPITrading.get_authorization_header.
    by rewrite lookup_insert_eq.
  - subst headers. unfold CryptoAPITrading.get_authorization_header.
    rewrite lookup_insert_ne by done. rewrite lookup_insert_eq. by rewrite Hmsg.
  - subst headers. unfold CryptoAPITrading.get_authorization_header.
    rewrite lookup_insert_ne by done. rewrite lookup_insert_ne by done.
    by rewrite lookup_singleton_eq.
  - rewrite Hmsg. rewrite !string_length_app. lia.
  - intros w out.
    destruct (make_api_request_GET_single_attempt self path body w) as (Hs & _).
    eexists. split; [exact Hs|]. repeat split.
Qed.

End TransportTheorems.

(** ** The price client *)

(** *** The cull of the disk cache *)

Lemma culled_expired (now : Z) (d : gmap cache_key (Z * list TradingPair.t))
    (k : cache_key) :
  k ∈ culled now d → ∃ expire_time value, d !! k = Some (expire_time, value) ∧ expire_time < now.
Proof.
  unfold culled. intros Hk.
  apply list_elem_of_fmap in Hk as ([k' [expire_time value]] & -> & Hrow).
  apply (subseteq_take cull_limit) in Hrow.
  rewrite merge_sort_Permutation in Hrow.
  apply list_elem_of_filter in Hrow as [Hold Hrow].
  apply elem_of_map_to_list in Hrow.
  exists expire_time, value. split; [exact Hrow | exact Hold].
Qed.

Lemma length_culled (now : Z) (d : gmap cache_key (Z * list TradingPair.t)) :
  (length (culled now d) ≤ cull_limit)%nat.
Proof. unfold culled. rewrite length_fmap, length_take. lia. Qed.

Lemma lookup_foldr_delete (d : gmap cache_key (Z * list TradingPair.t))
    (ks : list cache_key) (k : cache_key) :
  foldr delete d ks !! k = if decide (k ∈ ks) then None else d !! k.
Proof.
  induction ks as [|k' ks IH].
  - destruct (decide (k ∈ [])) as [Hin | _]; [|done]. by apply elem_of_nil in Hin.
  - change (foldr delete d (k' :: ks)) with (delete k' (foldr delete d ks)).
    destruct (decide (k = k')) as [-> | Hne].
    + rewrite lookup_delete_eq.
      destruct (decide (k' ∈ k' :: ks)) as [_ | Hnin]; [done|].
      destruct Hnin. apply list_elem_of_here.
    + rewrite lookup_delete_ne by done. rewrite IH.
      destruct (decide (k ∈ ks)) as [Hin | Hnin];
        destruct (decide (k ∈ k' :: ks)) as [Hin' | Hnin']; try done.
      * destruct Hnin'. by apply list_elem_of_further.
      * apply elem_of_cons in Hin' as [? | ?]; done.
Qed.

(** The cull removes entries that expired before [now] and nothing
    else. *)
Lemma lookup_cull (now : Z) (d : gmap cache_key (Z * list TradingPair.t)) (k : cache_key) :
  cull now d !! k = d !! k ∨
  (cull now d !! k = None ∧
   ∃ expire_time value, d !! k = Some (expire_time, value) ∧ expire_time < now).
Proof.
  unfold cull. rewrite lookup_foldr_delete.
  destruct (decide (k ∈ culled now d)) as [Hin | Hnin]; [right | by left].
  split; [done|]. by apply culled_expired.
Qed.

Lemma lookup_cull_live (now : Z) (d : gmap cache_key (Z * list TradingPair.t))
    (k : cache_key) (expire_time : Z) (value : list TradingPair.t) :
  d !! k = Some (expire_time, value) → now ≤ expire_time →
  cull now d !! k = Some (expire_time, value).
Proof.
  intros Hk Hlive. destruct (lookup_cull now d k) as [-> | (_ & e & v & He & Hold)];
    [exact Hk|].
  rewrite Hk in He. injection He as <- <-. lia.
Qed.



Section ClientTheorems.
Context `{PyLib} `{Env}.

Lemma M_bind_inr {A B} (m : M A) (f : A → M B) (w w' : world) (x : A) :
  m w = (inr x, w') → (m ≫= f) w = f x w'.
Proof. intros Hm. unfold_monad. by rewrite Hm. Qed.

Lemma M_bind_inl {A B} (m : M A) (f : A → M B) (w w' : world) (e : exn) :
  m w = (inl e, w') → (m ≫= f) w = (inl e, w').
Proof. intros Hm. unfold_monad. by rewrite Hm. Qed.

(** [get_estimated_price] parses the [results] of the answer. *)
Lemma get_estimated_price_answer (self : CryptoAPITrading.t) (symbol side quantity : string)
    (w w' : world) (answer : json) :
  CryptoAPITrading.make_api_request self "GET"
    (CryptoAPITrading.estimated_price_path symbol side quantity) "" w = (inr answer, w') →
  CryptoAPITrading.get_estimated_price self symbol side quantity w
  = ((py_get answer "results" ≫= py_iter) ≫= mapM EstimatedOrderPrice.from_dict, w').
Proof.
  intros Hreq. unfold CryptoAPITrading.get_estimated_price.
  rewrite (M_bind_inr _ _ _ _ _ Hreq). unfold_monad.
  destruct (py_get answer "results") as [e|r]; [reflexivity|].
  destruct (py_iter r) as [e|items]; reflexivity.
Qed.

(** [get_trading_pairs] under the decorator: a live entry is returned
    after one clock reading. *)
Lemma get_trading_pairs_hit (self : CryptoAPITrading.t) (symbols : list (option string))
    (w : world) (value : list TradingPair.t) :
  unexpired (clock (ticks w)) (disk w !! CryptoAPITrading.memoize_key self symbols)
  = Some value →
  CryptoAPITrading.get_trading_pairs self symbols w = (inr value, ticked w).
Proof.
  intros Hlive. unfold CryptoAPITrading.get_trading_pairs, memoize, cache_get,
    time_time, disk_lookup, ticked.
  unfold_monad. simpl. by rewrite Hlive.
Qed.

(** Without a live entry the body runs; its result is stored with the
    time read after it, plus 86400 seconds, as expiry time, and the
    cache is culled at that time. *)
Lemma get_trading_pairs_miss (self : CryptoAPITrading.t) (symbols : list (option string))
    (w : world) :
  let key := CryptoAPITrading.memoize_key self symbols in
  unexpired (clock (ticks w)) (disk w !! key) = None →
  CryptoAPITrading.get_trading_pairs self symbols w =
  match CryptoAPITrading.fetch_trading_pairs self symbols (ticked w) with
  | (inl e, w1) => (inl e, w1)
  | (inr value, w1) =>
      (inr value,
       with_disk
         (cull (clock (ticks w1))
            (<[key := (clock (ticks w1) + 86400 * us_per_second, value)]> (disk w1)))
         (ticked w1))
  end.
Proof.
  intros key Hmiss. unfold CryptoAPITrading.get_trading_pairs, memoize, cache_get,
    cache_set, time_time, disk_lookup, disk_store, disk_cull, ticked, with_disk.
  unfold_monad. simpl. fold key. rewrite Hmiss.
  destruct (CryptoAPITrading.fetch_trading_pairs _ _ _) as [[e|value] w1]; reflexivity.
Qed.

(** The body of [get_trading_pairs] parses the [results] of the answer. *)
Lemma fetch_trading_pairs_answer (self : CryptoAPITrading.t)
    (symbols : list (option string)) (w w' : world) (answer : json) :
  CryptoAPITrading.make_api_request self "GET"
    (CryptoAPITrading.trading_pairs_path symbols) ""
    (printed "Fetching trading pairs" w) = (inr answer, w') →
  CryptoAPITrading.fetch_trading_pairs self symbols w
  = ((py_getitem answer "results" ≫= py_iter) ≫= mapM TradingPair.from_dict, w').
Proof.
  intros Hreq. unfold CryptoAPITrading.fetch_trading_pairs.
  unfold print at 1. unfold mbind at 1, M_bind at 1. simpl.
  change (mk_world (ticks w) (sent w) (disk w) (stdout w ++ ["Fetching trading pairs"]))
    with (printed "Fetching trading pairs" w).
  rewrite (M_bind_inr _ _ _ _ _ Hreq). unfold_monad.
  destruct (py_getitem answer "results") as [e|r]; [reflexivity|].
  destruct (py_iter r) as [e|items]; reflexivity.
Qed.

Lemma fetch_trading_pairs_raises (self : CryptoAPITrading.t)
    (symbols : list (option string)) (w w' : world) (e : exn) :
  CryptoAPITrading.make_api_request self "GET"
    (CryptoAPITrading.trading_pairs_path symbols) ""
    (printed "Fetching trading pairs" w) = (inl e, w') →
  CryptoAPITrading.fetch_trading_pairs self symbols w = (inl e, w').
Proof.
  intros Hreq. unfold CryptoAPITrading.fetch_trading_pairs.
  unfold print at 1. unfold mbind at 1, M_bind at 1. simpl.
  change (mk_world (ticks w) (sent w) (disk w) (stdout w ++ ["Fetching trading pairs"]))
    with (printed "Fetching trading pairs" w).
  by rewrite (M_bind_inl _ _ _ _ _ Hreq).
Qed.

(** The body of [get_trading_pairs] makes exactly one HTTP attempt and
    leaves the cache alone. *)
Lemma fetch_trading_pairs_one_attempt (self : CryptoAPITrading.t)
    (symbols : list (option string)) (w : world) :
  let out := CryptoAPITrading.fetch_trading_pairs self symbols w in
  (∃ rq, sent out.2 = sent w ++ [rq]) ∧ disk out.2 = disk w.
Proof.
  intros out. subst out.
  pose proof (make_api_request_GET self (CryptoAPITrading.trading_pairs_path symbols) ""
                (printed "Fetching trading pairs" w)) as Hget.
  simpl in Hget.
  assert (Hout : ∀ r w', CryptoAPITrading.make_api_request self "GET"
              (CryptoAPITrading.trading_pairs_path symbols) ""
              (printed "Fetching trading pairs" w) = (r, w') →
            (∃ rq, sent w' = sent w ++ [rq]) ∧ disk w' = disk w).
  { intros r0 w' Hreq. rewrite Hreq in Hget.
    destruct (server _ _) as [msg|r]; [simplify_eq; simpl; eauto|].
    destruct (bool_decide _); [simplify_eq; simpl; eauto|].
    destruct (json_body r) as [[]|v]; simplify_eq; simpl; eauto. }
  destruct (CryptoAPITrading.make_api_request self "GET"
              (CryptoAPITrading.trading_pairs_path symbols) ""
              (printed "Fetching trading pairs" w)) as [[e|answer] w'] eqn:Hreq.
  - rewrite (fetch_trading_pairs_raises _ _ _ _ _ Hreq). simpl.
    eapply Hout. reflexivity.
  - rewrite (fetch_trading_pairs_answer _ _ _ _ _ Hreq). simpl.
    eapply Hout. reflexivity.
Qed.

(** C10.  When the transport returns [None], [get_trading_pairs] (on a
    cache miss) raises [TypeError] by subscripting it, and
    [get_holdings], [get_best_bid_ask] and [get_estimated_price] raise
    [AttributeError] by calling [.get] on it; [get_account], which
    returns the transport's result as it is, returns [None]. *)
Theorem absent_transport_result_is_dereferenced (self : CryptoAPITrading.t) :
  (∀ (symbols : list (option string)) (w w' : world),
     unexpired (clock (ticks w)) (disk w !! CryptoAPITrading.memoize_key self symbols) = None →
     CryptoAPITrading.make_api_request self "GET"
       (CryptoAPITrading.trading_pairs_path symbols) ""
       (printed "Fetching trading pairs" (ticked w)) = (inr JNull, w') →
     CryptoAPITrading.get_trading_pairs self symbols w = (inl TypeError, w')) ∧
  (∀ (asset_codes : list (option string)) (w w' : world),
     CryptoAPITrading.make_api_request self "GET"
       ("/api/v1/crypto/trading/holdings/"
        +:+ CryptoAPITrading.get_query_params "asset_code" asset_codes) "" w
     = (inr JNull, w') →
     CryptoAPITrading.get_holdings self asset_codes w = (inl AttributeError, w')) ∧
  (∀ (symbols : list (option string)) (w w' : world),
     CryptoAPITrading.make_api_request self "GET"
       ("/api/v1/crypto/marketdata/best_bid_ask/"
        +:+ CryptoAPITrading.get_query_params "symbol" symbols) "" w
     = (inr JNull, w') →
     CryptoAPITrading.get_best_bid_ask self symbols w = (inl AttributeError, w')) ∧
  (∀ (symbol side quantity : string) (w w' : world),
     CryptoAPITrading.make_api_request self "GET"
       (CryptoAPITrading.estimated_price_path symbol side quantity) "" w
     = (inr JNull, w') →
     CryptoAPITrading.get_estimated_price self symbol side quantity w
     = (inl AttributeError, w')) ∧
  (∀ (w w' : world),
     CryptoAPITrading.make_api_request self "GET" "/api/v1/crypto/trading/accounts/" "" w
     = (inr JNull, w') →
     CryptoAPITrading.get_account self w = (inr JNull, w')).
Proof.
  split; [|split; [|split; [|split]]].
  - intros symbols w w' Hmiss Hreq.
    rewrite get_trading_pairs_miss by exact Hmiss.
    by rewrite (fetch_trading_pairs_answer _ _ _ _ _ Hreq).
  - intros codes w w' Hreq. unfold CryptoAPITrading.get_holdings.
    by rewrite (M_bind_inr _ _ _ _ _ Hreq).
  - intros symbols w w' Hreq. unfold CryptoAPITrading.get_best_bid_ask.
    by rewrite (M_bind_inr _ _ _ _ _ Hreq).
  - intros symbol side quantity w w' Hreq.
    by rewrite (get_estimated_price_answer _ _ _ _ _ _ _ Hreq).
  - intros w w' Hreq. exact Hreq.
Qed.

(** *** Operations that bypass the cache *)

Lemma uncached_ret {A} (x : A) : uncached (mret x : M A).
Proof. intros w d. reflexivity. Qed.

Lemma uncached_lift {A} (r : result A) : uncached (lift r).
Proof. intros w d. reflexivity. Qed.

Lemma uncached_raise {A} (e : exn) : uncached (raise e : M A).
Proof. intros w d. reflexivity. Qed.

Lemma uncached_print (line : string) : uncached (print line).
Proof. intros w d. reflexivity. Qed.

Lemma uncached_time_time : uncached time_time.
Proof. intros w d. reflexivity. Qed.

Lemma uncached_requests_send (rq : request) : uncached (requests_send rq).
Proof.
  intros w d. unfold requests_send, with_disk. simpl.
  destruct (server _ rq); reflexivity.
Qed.

Lemma uncached_bind {A B} (m : M A) (f : A → M B) :
  uncached m → (∀ x, uncached (f x)) → uncached (m ≫= f).
Proof.
  intros Hm Hf w d. unfold mbind, M_bind. rewrite Hm.
  destruct (m w) as [[e|x] w1]; simpl; [reflexivity | apply Hf].
Qed.

Lemma uncached_try {A} (c : M A) (handler : string → M A) :
  uncached c → (∀ msg, uncached (handler msg)) →
  uncached (try_except_RequestException c handler).
Proof.
  intros Hc Hh w d. unfold try_except_RequestException. rewrite Hc.
  destruct (c w) as [[[]|x] w1]; simpl; try reflexivity. apply Hh.
Qed.

Lemma uncached_then_ret {A B} (m : M A) (g : A → B) :
  uncached m → uncached (m ≫= λ x, mret (g x)).
Proof. intros Hm. apply uncached_bind; [exact Hm | intros x; apply uncached_ret]. Qed.

Lemma uncached_then_lift {A B} (m : M A) (g : A → result B) :
  uncached m → uncached (m ≫= λ x, lift (g x)).
Proof. intros Hm. apply uncached_bind; [exact Hm | intros x; apply uncached_lift]. Qed.

Lemma uncached_make_api_request (self : CryptoAPITrading.t) (method path body : string) :
  uncached (CryptoAPITrading.make_api_request self method path body).
Proof.
  unfold CryptoAPITrading.make_api_request.
  apply uncached_bind.
  { unfold CryptoAPITrading._get_current_timestamp.
    apply uncached_then_ret, uncached_time_time. }
  intros timestamp. cbv zeta.
  apply uncached_try.
  - apply uncached_bind.
    + destruct (bool_decide (method = "GET")).
      { apply uncached_then_ret, uncached_requests_send. }
      destruct (bool_decide (method = "POST")); [|apply uncached_ret].
      apply uncached_bind; [apply uncached_lift | intros payload].
      apply uncached_then_ret, uncached_requests_send.
    + intros [|r]; [apply uncached_raise|].
      destruct (bool_decide (400 ≤ status_code r)); [|apply uncached_lift].
      apply uncached_then_ret, uncached_print.
  - intros msg. apply uncached_then_ret, uncached_print.
Qed.

Lemma uncached_get_estimated_price (self : CryptoAPITrading.t)
    (symbol side quantity : string) :
  uncached (CryptoAPITrading.get_estimated_price self symbol side quantity).
Proof.
  unfold CryptoAPITrading.get_estimated_price. cbv zeta.
  apply uncached_bind; [apply uncached_make_api_request | intros answer].
  apply uncached_bind; [apply uncached_lift | intros r].
  apply uncached_bind; [apply uncached_lift | intros items].
  apply uncached_lift.
Qed.

(** A computation followed by a pure step ends in the world the
    computation ends in. *)
Lemma bind_lift_world {A B} (m : M A) (g : A → result B) (w : world) :
  ((m ≫= λ x, lift (g x)) w).2 = (m w).2.
Proof. unfold_monad. destruct (m w) as [[e|x] w1]; reflexivity. Qed.

Lemma get_estimated_price_world (self : CryptoAPITrading.t)
    (symbol side quantity : string) (w : world) :
  (CryptoAPITrading.get_estimated_price self symbol side quantity w).2
  = (CryptoAPITrading.make_api_request self "GET"
       (CryptoAPITrading.estimated_price_path symbol side quantity) "" w).2.
Proof.
  destruct (CryptoAPITrading.make_api_request self "GET" _ "" w) as [[e|answer] w'] eqn:Hreq.
  - unfold CryptoAPITrading.get_estimated_price. by rewrite (M_bind_inl _ _ _ _ _ Hreq).
  - by rewrite (get_estimated_price_answer _ _ _ _ _ _ _ Hreq).
Qed.

Lemma one_attempt_make_api_request_GET (self : CryptoAPITrading.t) (path body : string) :
  one_attempt (CryptoAPITrading.make_api_request self "GET" path body).
Proof.
  intros w. destruct (make_api_request_GET_single_attempt self path body w) as (Hs & _).
  eauto.
Qed.

Lemma one_attempt_get_estimated_price (self : CryptoAPITrading.t)
    (symbol side quantity : string) :
  one_attempt (CryptoAPITrading.get_estimated_price self symbol side quantity).
Proof.
  intros w. rewrite get_estimated_price_world. apply one_attempt_make_api_request_GET.
Qed.

Lemma uncached_disk {A} (op : M A) (w : world) : uncached op → disk (op w).2 = disk w.
Proof.
  intros Hop. specialize (Hop w (disk w)).
  replace (with_disk (disk w) w) with w in Hop by (by destruct w).
  destruct (op w) as [r w1]; simpl in *.
  injection Hop as Hw. exact (f_equal disk Hw).
Qed.

(** The parsed first quote of an answer. *)
Lemma first_estimated_price (self : CryptoAPITrading.t) (symbol side quantity : string)
    (w w' : world) (m : gmap string json) :
  CryptoAPITrading.make_api_request self "GET"
    (CryptoAPITrading.estimated_price_path symbol side quantity) "" w
  = (inr (JObj m), w') →
  (m !! "results" = Some (JArr []) →
   (CryptoAPITrading.get_estimated_price self symbol side quantity
      ≫= λ quotes, lift (py_first quotes)) w = (inl IndexError, w')) ∧
  (∀ (d : json) (ds : list json) (q : EstimatedOrderPrice.t)
     (qs : list EstimatedOrderPrice.t),
     m !! "results" = Some (JArr (d :: ds)) →
     EstimatedOrderPrice.from_dict d = inr q →
     mapM EstimatedOrderPrice.from_dict ds = inr qs →
     (CryptoAPITrading.get_estimated_price self symbol side quantity
        ≫= λ quotes, lift (py_first quotes)) w = (inr q, w')).
Proof.
  intros Hreq.
  pose proof (get_estimated_price_answer _ _ _ _ _ _ _ Hreq) as Hquotes.
  split.
  - intros Hres. unfold py_get in Hquotes. rewrite Hres in Hquotes.
    by rewrite (M_bind_inr _ _ _ _ _ Hquotes).
  - intros d ds q qs Hres Hd Hds. unfold py_get in Hquotes. rewrite Hres in Hquotes.
    simpl in Hquotes. unfold_monad. simpl in Hquotes.
    rewrite Hd in Hquotes. unfold_monad. rewrite Hds in Hquotes.
    by rewrite Hquotes.
Qed.

(** The request that the lookup of the first quote sends, and what the
    lookup makes of an answer with a status below 400 whose body is a
    dict. *)
Lemma first_estimated_price_request (self : CryptoAPITrading.t)
    (symbol side quantity : string) (w : world) :
  let rq := get_request self (CryptoAPITrading.estimated_price_path symbol side quantity)
              "" w in
  let op := CryptoAPITrading.get_estimated_price self symbol side quantity
              ≫= λ quotes, lift (py_first quotes) in
  sent (op w).2 = sent w ++ [rq] ∧
  ∀ (r : response) (m : gmap string json),
    server (length (sent w)) rq = Reply r →
    status_code r < 400 →
    json_body r = inr (JObj m) →
    (m !! "results" = Some (JArr []) → op w = (inl IndexError, after_attempt w rq [])) ∧
    (∀ (d : json) (ds : list json) (q : EstimatedOrderPrice.t)
       (qs : list EstimatedOrderPrice.t),
       m !! "results" = Some (JArr (d :: ds)) →
       EstimatedOrderPrice.from_dict d = inr q →
       mapM EstimatedOrderPrice.from_dict ds = inr qs →
       op w = (inr q, after_attempt w rq [])).
Proof.
  intros rq op. split.
  - subst op. rewrite bind_lift_world, get_estimated_price_world.
    apply make_api_request_GET_single_attempt.
  - intros r m Hreply Hstatus Hbody. apply first_estimated_price.
    rewrite make_api_request_GET. fold rq. rewrite Hreply.
    rewrite bool_decide_eq_false_2 by lia. by rewrite Hbody.
Qed.


(** The request that a trading-pair lookup sends when it misses the
    cache; a lookup served from the cache sends none. *)
Lemma get_trading_pairs_request (self : CryptoAPITrading.t)
    (symbols : list (option string)) (w : world) :
  let key := CryptoAPITrading.memoize_key self symbols in
  let out := CryptoAPITrading.get_trading_pairs self symbols w in
  (unexpired (clock (ticks w)) (disk w !! key) = None →
   sent out.2
   = sent w ++ [get_request self (CryptoAPITrading.trading_pairs_path symbols) ""
                  (ticked w)]) ∧
  (∀ value, unexpired (clock (ticks w)) (disk w !! key) = Some value →
            out = (inr value, ticked w)).
Proof.
  intros key out. subst out. split.
  - intros Hmiss. rewrite get_trading_pairs_miss by exact Hmiss.
    pose proof (make_api_request_GET_single_attempt self
                  (CryptoAPITrading.trading_pairs_path symbols) ""
                  (printed "Fetching trading pairs" (ticked w))) as (Hsent & _).
    destruct (CryptoAPITrading.make_api_request self "GET"
                (CryptoAPITrading.trading_pairs_path symbols) ""
                (printed "Fetching trading pairs" (ticked w))) as [[e|answer] w'] eqn:Hreq.
    + rewrite (fetch_trading_pairs_raises _ _ _ _ _ Hreq). exact Hsent.
    + rewrite (fetch_trading_pairs_answer _ _ _ _ _ Hreq).
      destruct ((py_getitem answer "results" ≫= py_iter) ≫= mapM TradingPair.from_dict);
        exact Hsent.
  - intros value Hhit. by apply get_trading_pairs_hit.
Qed.

(** C8.  [get_quantity_of_crypto] looks the trading pair up through the
    cache (on a miss with one GET request for
    [.../trading_pairs/?symbol=<symbol>], on a hit without any), then
    sends one GET request for
    [.../estimated_price/?symbol=<symbol>&side=bid&quantity=<q>], [q]
    being the text of the minimum order size of the first pair, and
    returns the amount divided by the price of the first quote of the
    answer; that request is sent whatever the cache holds, and the
    cache is left as the lookup of the pair left it. *)
Theorem quantity_of_crypto_divides_by_bid_price (self : CryptoAPITrading.t)
    (symbol : string) (price : float) (w w1 w2 : world)
    (tp : TradingPair.t) (rest : list TradingPair.t) (r : EstimatedOrderPrice.t) :
  CryptoAPITrading.get_trading_pairs self [Some symbol] w = (inr (tp :: rest), w1) →
  CryptoAPITrading.get_estimated_bid_price self symbol
    (float_str (TradingPair.min_order_size tp)) w1 = (inr r, w2) →
  let pairs_path := "/api/v1/crypto/trading/trading_pairs/?symbol=" +:+ symbol in
  let pairs_rq :=
    mk_request "GET" ("https://trading.robinhood.com" +:+ pairs_path)
      (CryptoAPITrading.get_authorization_header self "GET" pairs_path ""
         (CryptoAPITrading.seconds_since_epoch (clock (S (ticks w))))) None 10 in
  let bid_path := "/api/v1/crypto/marketdata/estimated_price/?symbol=" +:+ symbol
                  +:+ "&side=bid&quantity=" +:+ float_str (TradingPair.min_order_size tp) in
  let bid_rq :=
    mk_request "GET" ("https://trading.robinhood.com" +:+ bid_path)
      (CryptoAPITrading.get_authorization_header self "GET" bid_path ""
         (CryptoAPITrading.seconds_since_epoch (clock (ticks w1)))) None 10 in
  let cached :=
    unexpired (clock (ticks w))
      (disk w !! CryptoAPITrading.memoize_key self [Some symbol]) in
  CryptoAPITrading.get_quantity_of_crypto self symbol price w
  = (PyFloat.truediv price (EstimatedOrderPrice.price r), w2) ∧
  (PyFloat.is_zero (EstimatedOrderPrice.price r) = false →
   CryptoAPITrading.get_quantity_of_crypto self symbol price w
   = (inr (SFdiv prec emax price (EstimatedOrderPrice.price r)), w2)) ∧
  (cached = None → sent w1 = sent w ++ [pairs_rq]) ∧
  (cached ≠ None → cached = Some (tp :: rest) ∧ sent w1 = sent w) ∧
  w2 = after_attempt w1 bid_rq [] ∧
  sent w2 = sent w1 ++ [bid_rq] ∧
  disk w2 = disk w1 ∧
  (∃ (reply : response) (answer results : json) (d : json) (ds : list json),
     server (length (sent w1)) bid_rq = Reply reply ∧
     status_code reply < 400 ∧
     json_body reply = inr answer ∧
     py_get answer "results" = inr results ∧
     py_iter results = inr (d :: ds) ∧
     EstimatedOrderPrice.from_dict d = inr r).
Proof.
  intros Hpairs Hbid pairs_path pairs_rq bid_path bid_rq cached.
  assert (Hrun : CryptoAPITrading.get_quantity_of_crypto self symbol price w
                 = (PyFloat.truediv price (EstimatedOrderPrice.price r), w2)).
  { unfold CryptoAPITrading.get_quantity_of_crypto.
    rewrite (M_bind_inr _ _ _ _ _ Hpairs). unfold lift at 1.
    unfold mbind at 1, M_bind at 1. simpl.
    by rewrite (M_bind_inr _ _ _ _ _ Hbid). }
  destruct (get_trading_pairs_request self [Some symbol] w) as [Hmiss Hhit].
  rewrite Hpairs in Hmiss, Hhit. simpl in Hmiss.
  destruct (first_estimated_price_request self symbol "bid"
              (float_str (TradingPair.min_order_size tp)) w1) as [Hsent _].
  change (CryptoAPITrading.get_estimated_price self symbol "bid"
            (float_str (TradingPair.min_order_size tp)) ≫= λ quotes, lift (py_first quotes))
    with (CryptoAPITrading.get_estimated_bid_price self symbol
            (float_str (TradingPair.min_order_size tp))) in Hsent.
  rewrite Hbid in Hsent. simpl in Hsent.
  change (get_request self
            (CryptoAPITrading.estimated_price_path symbol "bid"
               (float_str (TradingPair.min_order_size tp))) "" w1)
    with bid_rq in Hsent.
  assert (Hanswer : w2 = after_attempt w1 bid_rq [] ∧
            ∃ (reply : response) (answer results : json) (d : json) (ds : list json),
              server (length (sent w1)) bid_rq = Reply reply ∧
              status_code reply < 400 ∧
              json_body reply = inr answer ∧
              py_get answer "results" = inr results ∧
              py_iter results = inr (d :: ds) ∧
              EstimatedOrderPrice.from_dict d = inr r).
  { revert Hbid. unfold CryptoAPITrading.get_estimated_bid_price,
      CryptoAPITrading.get_estimated_price.
    pose proof (make_api_request_GET self
                  (CryptoAPITrading.estimated_price_path symbol "bid"
                     (float_str (TradingPair.min_order_size tp))) "" w1) as Hget.
    simpl in Hget.
    change (get_request self
              (CryptoAPITrading.estimated_price_path symbol "bid"
                 (float_str (TradingPair.min_order_size tp))) "" w1)
      with bid_rq in Hget.
    unfold mbind at 1 2 3 4, M_bind at 1 2 3 4. rewrite Hget. clear Hget.
    destruct (server (length (sent w1)) bid_rq) as [msg|reply] eqn:Hreply; [discriminate|].
    destruct (bool_decide (400 ≤ status_code reply)) eqn:Hstatus; [discriminate|].
    apply bool_decide_eq_false in Hstatus.
    destruct (json_body reply) as [[]|answer] eqn:Hbody; try discriminate.
    unfold lift. unfold_monad.
    destruct (py_get answer "results") as [e|res] eqn:Hres; [discriminate|].
    destruct (py_iter res) as [e|items] eqn:Hiter; [discriminate|].
    destruct items as [|d ds]; simpl.
    { intros [=]. }
    destruct (EstimatedOrderPrice.from_dict d) as [e|q] eqn:Hd; simpl; [discriminate|].
    destruct (mapM EstimatedOrderPrice.from_dict ds) as [e|qs]; simpl; [discriminate|].
    intros [= -> <-]. split; [reflexivity|].
    exists reply, answer, res, d, ds. repeat split; (lia || done). }
  destruct Hanswer as [Hw2 Hreply].
  split; [exact Hrun|]. split; [|split; [|split; [|split; [|split; [|split]]]]].
  - intros Hnz. rewrite Hrun. unfold PyFloat.truediv. by rewrite Hnz.
  - intros Hnone. exact (Hmiss Hnone).
  - intros Hsome. subst cached.
    destruct (unexpired (clock (ticks w))
                (disk w !! CryptoAPITrading.memoize_key self [Some symbol]))
      as [value|]; [|done].
    specialize (Hhit value eq_refl). injection Hhit as -> ->. done.
  - exact Hw2.
  - exact Hsent.
  - rewrite Hw2. reflexivity.
  - exact Hreply.
Qed.

Lemma uncached_first_estimated_price (self : CryptoAPITrading.t)
    (symbol side quantity : string) :
  uncached (CryptoAPITrading.get_estimated_price self symbol side quantity
              ≫= λ quotes, lift (py_first quotes)) ∧
  one_attempt (CryptoAPITrading.get_estimated_price self symbol side quantity
                 ≫= λ quotes, lift (py_first quotes)).
Proof.
  split.
  - apply uncached_then_lift, uncached_get_estimated_price.
  - intros w. rewrite bind_lift_world. apply one_attempt_get_estimated_price.
Qed.

Lemma uncached_get_best_bid_ask (self : CryptoAPITrading.t)
    (symbols : list (option string)) :
  uncached (CryptoAPITrading.get_best_bid_ask self symbols) ∧
  one_attempt (CryptoAPITrading.get_best_bid_ask self symbols).
Proof.
  unfold CryptoAPITrading.get_best_bid_ask. cbv zeta. split.
  - apply (uncached_then_lift _ (λ answer, py_get answer "results")),
      uncached_make_api_request.
  - intros w. rewrite (bind_lift_world _ (λ answer, py_get answer "results")).
    apply one_attempt_make_api_request_GET.
Qed.

(** A stored entry is served until its expiry time and refetched, with
    one HTTP attempt, from then on. *)
Lemma get_trading_pairs_entry (self : CryptoAPITrading.t) (symbols : list (option string))
    (w : world) (expire_time : Z) (value : list TradingPair.t) :
  disk w !! CryptoAPITrading.memoize_key self symbols = Some (expire_time, value) →
  (clock (ticks w) < expire_time →
   CryptoAPITrading.get_trading_pairs self symbols w = (inr value, ticked w)) ∧
  (expire_time ≤ clock (ticks w) →
   ∃ rq, sent (CryptoAPITrading.get_trading_pairs self symbols w).2 = sent w ++ [rq]).
Proof.
  intros Hentry. split.
  - intros Hlive. apply get_trading_pairs_hit. rewrite Hentry. simpl.
    by rewrite bool_decide_eq_true_2.
  - intros Hexpired. rewrite get_trading_pairs_miss.
    2:{ rewrite Hentry. simpl. rewrite bool_decide_eq_false_2; [done | lia]. }
    destruct (fetch_trading_pairs_one_attempt self symbols (ticked w)) as ((rq & Hs) & _).
    destruct (CryptoAPITrading.fetch_trading_pairs self symbols (ticked w))
      as [[e|v] w1]; simpl in *; eauto.
Qed.

(** A call that misses the cache and returns stores what it returns,
    to expire 86400 seconds after the clock reading that follows the
    fetch. *)
Lemma get_trading_pairs_stores (self : CryptoAPITrading.t) (symbols : list (option string))
    (w w1 : world) (value : list TradingPair.t) :
  unexpired (clock (ticks w)) (disk w !! CryptoAPITrading.memoize_key self symbols) = None →
  CryptoAPITrading.get_trading_pairs self symbols w = (inr value, w1) →
  disk w1 !! CryptoAPITrading.memoize_key self symbols
  = Some (clock (Nat.pred (ticks w1)) + 86400 * us_per_second, value).
Proof.
  intros Hmiss Hcall. rewrite get_trading_pairs_miss in Hcall by exact Hmiss.
  destruct (CryptoAPITrading.fetch_trading_pairs self symbols (ticked w))
    as [[e|v] w0]; [discriminate|].
  injection Hcall as <- <-. simpl.
  apply lookup_cull_live; [by rewrite lookup_insert_eq | unfold us_per_second; lia].
Qed.

(** C7.  [get_trading_pairs] is memoized for 86400 seconds: after a call
    that fetched and returned, a call with the same arguments made
    before the entry expires returns the same value without an HTTP
    attempt, and a call made once it has expired makes exactly one.
    The quote, bid/ask and order operations neither consult nor change
    the cache, and each quote operation makes an HTTP attempt on every
    call. *)
Theorem only_trading_pairs_are_memoized (self : CryptoAPITrading.t) :
  (∀ (symbols : list (option string)) (w w1 : world) (value : list TradingPair.t),
     let key := CryptoAPITrading.memoize_key self symbols in
     unexpired (clock (ticks w)) (disk w !! key) = None →
     CryptoAPITrading.get_trading_pairs self symbols w = (inr value, w1) →
     let expire_time := clock (Nat.pred (ticks w1)) + 86400 * us_per_second in
     disk w1 !! key = Some (expire_time, value) ∧
     ∀ w2 : world,
       disk w2 !! key = disk w1 !! key →
       (clock (ticks w2) < expire_time →
        CryptoAPITrading.get_trading_pairs self symbols w2 = (inr value, ticked w2)) ∧
       (expire_time ≤ clock (ticks w2) →
        ∃ rq, sent (CryptoAPITrading.get_trading_pairs self symbols w2).2
              = sent w2 ++ [rq])) ∧
  (∀ symbol side quantity : string,
     uncached (CryptoAPITrading.get_estimated_price self symbol side quantity) ∧
     one_attempt (CryptoAPITrading.get_estimated_price self symbol side quantity)) ∧
  (∀ symbol quantity : string,
     uncached (CryptoAPITrading.get_estimated_bid_price self symbol quantity) ∧
     one_attempt (CryptoAPITrading.get_estimated_bid_price self symbol quantity) ∧
     uncached (CryptoAPITrading.get_estimated_ask_price self symbol quantity) ∧
     one_attempt (CryptoAPITrading.get_estimated_ask_price self symbol quantity)) ∧
  (∀ symbols : list (option string),
     uncached (CryptoAPITrading.get_best_bid_ask self symbols) ∧
     one_attempt (CryptoAPITrading.get_best_bid_ask self symbols)) ∧
  (∀ (client_order_id side order_type symbol : string) (order_config : gmap string string),
     uncached (CryptoAPITrading.place_order self client_order_id side order_type symbol
                 order_config)) ∧
  (∀ order_id : string,
     uncached (CryptoAPITrading.cancel_order self order_id) ∧
     uncached (CryptoAPITrading.get_order self order_id)) ∧
  uncached (CryptoAPITrading.get_orders self).
Proof.
  split; [|split; [|split; [|split; [|split; [|split]]]]].
  - intros symbols w w1 value key Hmiss Hcall expire_time.
    pose proof (get_trading_pairs_stores _ _ _ _ _ Hmiss Hcall) as Hstored.
    split; [exact Hstored|].
    intros w2 Hsame. apply get_trading_pairs_entry.
    fold key. by rewrite Hsame.
  - intros symbol side quantity. split.
    + apply uncached_get_estimated_price.
    + apply one_attempt_get_estimated_price.
  - intros symbol quantity.
    destruct (uncached_first_estimated_price self symbol "bid" quantity) as [Hb1 Hb2].
    destruct (uncached_first_estimated_price self symbol "ask" quantity) as [Ha1 Ha2].
    by repeat split.
  - apply uncached_get_best_bid_ask.
  - intros. apply uncached_make_api_request.
  - intros. split; apply uncached_make_api_request.
  - apply uncached_make_api_request.
Qed.

Lemma filter_first_of_side (side : string) (quotes : list EstimatedOrderPrice.t)
    (q : EstimatedOrderPrice.t) :
  first_of_side side quotes q →
  py_first (filter (λ x, EstimatedOrderPrice.side x = side) quotes) = inr q.
Proof.
  intros (before & after & -> & Hbefore & Hq).
  induction Hbefore as [|x before Hx _ IH]; simpl.
  - by rewrite filter_cons_True.
  - by rewrite filter_cons_False.
Qed.

Lemma filter_none_of_side (side : string) (quotes : list EstimatedOrderPrice.t) :
  none_of_side side quotes →
  py_first (filter (λ x, EstimatedOrderPrice.side x = side) quotes) = inl IndexError.
Proof.
  intros Hnone. induction Hnone as [|x quotes Hx _ IH]; [reflexivity|].
  by rewrite filter_cons_False.
Qed.

Lemma first_or_none_of_side (side : string) (quotes : list EstimatedOrderPrice.t) :
  none_of_side side quotes ∨ ∃ q, first_of_side side quotes q.
Proof.
  induction quotes as [|x quotes [Hnone | (q & before & after & -> & Hb & Hq)]].
  - left. constructor.
  - destruct (decide (EstimatedOrderPrice.side x = side)) as [Hx|Hx].
    + right. exists x, [], quotes. by repeat split.
    + left. by constructor.
  - destruct (decide (EstimatedOrderPrice.side x = side)) as [Hx|Hx].
    + right. exists x, [], (before ++ q :: after). by repeat split.
    + right. exists q, (x :: before), after. repeat split; [|done]. by constructor.
Qed.

(** C1 (as amended).  [get_current_estimated_price] asks for the quotes
    of both sides at the pair's minimum order size and takes the first
    bid and the first ask of the answer, further quotes of a side being
    ignored: when the two timestamps match it returns the entry that
    mirrors these two quotes and carries the bid's timestamp; when a
    side has no quote it raises [IndexError]. *)
Theorem current_estimated_price_takes_first_bid_and_ask (self : CryptoAPITrading.t)
    (symbol : string) (w w1 w2 : world) (tp : TradingPair.t) (rest : list TradingPair.t)
    (both : list EstimatedOrderPrice.t) :
  CryptoAPITrading.get_trading_pairs self [Some symbol] w = (inr (tp :: rest), w1) →
  CryptoAPITrading.get_estimated_price self symbol "both"
    (float_str (TradingPair.min_order_size tp)) w1 = (inr both, w2) →
  (none_of_side "bid" both ∨ none_of_side "ask" both →
   CryptoAPITrading.get_current_estimated_price self symbol w = (inl IndexError, w2)) ∧
  (∀ bid ask : EstimatedOrderPrice.t,
     first_of_side "bid" both bid →
     first_of_side "ask" both ask →
     datetime_eq (EstimatedOrderPrice.timestamp bid) (EstimatedOrderPrice.timestamp ask) = true →
     ∃ e, CryptoAPITrading.get_current_estimated_price self symbol w = (inr e, w2) ∧
          mirrors e bid ask).
Proof.
  intros Hpairs Hboth.
  assert (Hrun : CryptoAPITrading.get_current_estimated_price self symbol w
    = (py_first (filter (λ x, EstimatedOrderPrice.side x = "bid") both) ≫= λ bid,
       py_first (filter (λ x, EstimatedOrderPrice.side x = "ask") both) ≫= λ ask,
       inr (EstimatedOrderPriceHistoryEntry.from_objs bid ask), w2)).
  { unfold CryptoAPITrading.get_current_estimated_price.
    rewrite (M_bind_inr _ _ _ _ _ Hpairs). unfold lift at 1.
    unfold mbind at 1, M_bind at 1. simpl.
    rewrite (M_bind_inr _ _ _ _ _ Hboth). unfold_monad.
    destruct (py_first (filter _ both)) as [e|b]; [reflexivity|].
    destruct (py_first (filter _ both)) as [e|a]; reflexivity. }
  split.
  - intros [Hnone | Hnone].
    + rewrite Hrun. by rewrite (filter_none_of_side _ _ Hnone).
    + rewrite Hrun. rewrite (filter_none_of_side _ _ Hnone).
      unfold_monad. by destruct (filter _ both).
  - intros bid ask Hbid Hask _.
    exists (EstimatedOrderPriceHistoryEntry.from_objs bid ask). split.
    + rewrite Hrun.
      by rewrite (filter_first_of_side _ _ _ Hbid), (filter_first_of_side _ _ _ Hask).
    + unfold mirrors. by repeat split.
Qed.

End ClientTheorems.

(** * Worked examples

    The theorems above at the sample payloads of [Sample]. *)

Lemma from_dict_selects_spread_fields_by_side_witness :
  let data := JObj (Sample.bid_quote "0.00001943" Sample.t0) in
  let r := @EstimatedOrderPrice.mk Sample.lib "SHIB-USD"
             (PyFloat.literal "0.00001943") (PyFloat.literal "800") "bid" Sample.t0
             (PyFloat.literal "0.00001933") (PyFloat.literal "0.00514668") in
  py_getitem data "side" = inr (JStr "bid") ∧
  @quote_built_from Sample.lib data "bid_inclusive_of_sell_spread" "sell_spread" r.
Proof.
  intros data r. split; [reflexivity|].
  apply (proj1 (@from_dict_selects_spread_fields_by_side Sample.lib data r)).
  - reflexivity.
  - vm_compute. reflexivity.
Defined.

Lemma bid_and_ask_timestamps_must_match_witness :
  let bid := @EstimatedOrderPrice.mk Sample.lib "SHIB-USD"
               (PyFloat.literal "0.00001943") (PyFloat.literal "800") "bid" Sample.t0
               (PyFloat.literal "0.00001933") (PyFloat.literal "0.00514668") in
  let ask (t : string) := @EstimatedOrderPrice.mk Sample.lib "SHIB-USD"
               (PyFloat.literal "0.00001945") (PyFloat.literal "800") "ask" t
               (PyFloat.literal "0.00001955") (PyFloat.literal "0.00514139") in
  @EstimatedBidAndAskPrice.from_objs Sample.lib bid (ask Sample.t1)
  = inl (ValueError "Bid and ask timestamps must match") ∧
  ∃ r, @EstimatedBidAndAskPrice.from_objs Sample.lib bid (ask Sample.t0) = inr r ∧
       EstimatedBidAndAskPrice.timestamp r = Sample.t0.
Proof.
  intros bid ask. split.
  - apply (proj1 (@bid_and_ask_timestamps_must_match Sample.lib bid (ask Sample.t1))).
    vm_compute. reflexivity.
  - destruct (proj1 (proj2 (@bid_and_ask_timestamps_must_match Sample.lib bid (ask Sample.t0))))
      as (r & Hr & _ & _ & Ht & _).
    + vm_compute. reflexivity.
    + exists r. split; [exact Hr | exact Ht].
Defined.

Lemma trading_pair_from_dict_coerces_and_checks_witness :
  (∃ e, @TradingPair.from_dict Sample.lib (JObj (delete "symbol" Sample.btc_usd)) = inl e) ∧
  @TradingPair.from_dict Sample.lib (JObj (delete "status" Sample.btc_usd))
  = inl (KeyError "status") ∧
  @TradingPair.from_dict Sample.lib (JObj Sample.btc_usd)
  = inr (TradingPair.mk "BTC"
           (S754_finite false 6044629098073146 (-79))
           (S754_finite false 5629499534213120 (-48))
           (S754_finite false 4722366482869645 (-72)) "USD"
           (S754_finite false 5764607523034235 (-59)) "tradable" "BTC-USD").
Proof.
  destruct (@trading_pair_from_dict_coerces_and_checks Sample.lib)
    as (Habsent & Hdelete & Hdecimal & _ & (tp & Htp & _)).
  split; [|split].
  - apply (Habsent (delete "symbol" Sample.btc_usd) "symbol").
    + apply (bool_decide_unpack _). vm_compute. exact I.
    + vm_compute. reflexivity.
  - apply (Hdelete Sample.btc_usd "status" tp).
    + apply (bool_decide_unpack _). vm_compute. exact I.
    + exact Htp.
  - apply (Hdecimal Sample.btc_usd "BTC" "USD" "tradable" "BTC-USD"
             (digits "0") (digits "000000010000000000") (digits "20") (digits "0000000000000000")
             (digits "0") (digits "000001000000000000") (digits "0") (digits "010000000000000000"));
      try (left; discriminate); vm_compute; reflexivity.
Defined.


Lemma absent_transport_result_is_dereferenced_witness :
  (∃ w', @CryptoAPITrading.get_trading_pairs Sample.lib Sample.unavailable Sample.self
           [Some "BTC-USD"] Sample.w0 = (inl TypeError, w')) ∧
  (∃ w', @CryptoAPITrading.get_holdings Sample.lib Sample.unavailable Sample.self
           [Some "BTC"] Sample.w0 = (inl AttributeError, w')) ∧
  (∃ w', @CryptoAPITrading.get_account Sample.lib Sample.unavailable Sample.self Sample.w0
         = (inr JNull, w')).
Proof.
  destruct (@absent_transport_result_is_dereferenced Sample.lib Sample.unavailable Sample.self)
    as (Hpairs & Hholdings & _ & _ & Haccount).
  split; [|split].
  - exists (@CryptoAPITrading.make_api_request Sample.lib Sample.unavailable Sample.self "GET"
              (CryptoAPITrading.trading_pairs_path [Some "BTC-USD"]) ""
              (printed "Fetching trading pairs" (ticked Sample.w0))).2.
    apply Hpairs; vm_compute; reflexivity.
  - exists (@CryptoAPITrading.make_api_request Sample.lib Sample.unavailable Sample.self "GET"
              ("/api/v1/crypto/trading/holdings/"
               +:+ CryptoAPITrading.get_query_params "asset_code" [Some "BTC"]) ""
              Sample.w0).2.
    apply Hholdings; vm_compute; reflexivity.
  - exists (@CryptoAPITrading.make_api_request Sample.lib Sample.unavailable Sample.self "GET"
              "/api/v1/crypto/trading/accounts/" "" Sample.w0).2.
    apply Haccount; vm_compute; reflexivity.
Defined.

Lemma quantity_of_crypto_divides_by_bid_price_witness :
  let market := MoreSamples.by_url [Sample.bid_a] [] in
  let out := @CryptoAPITrading.get_quantity_of_crypto Sample.lib market Sample.self
               "SHIB-USD" (PyFloat.literal "1") Sample.w0 in
  out.1 = PyFloat.truediv (PyFloat.literal "1") (PyFloat.literal "0.00001943") ∧
  rq_url <$> sent out.2
  = ["https://trading.robinhood.com/api/v1/crypto/trading/trading_pairs/?symbol=SHIB-USD";
     "https://trading.robinhood.com/api/v1/crypto/marketdata/estimated_price/?symbol=SHIB-USD&side=bid&quantity=800.0"].
Proof.
  intros market out.
  pose (w1 := (@CryptoAPITrading.get_trading_pairs Sample.lib market Sample.self
                 [Some "SHIB-USD"] Sample.w0).2).
  pose (w2 := (@CryptoAPITrading.get_estimated_bid_price Sample.lib market Sample.self
                 "SHIB-USD" "800.0" w1).2).
  destruct (@quantity_of_crypto_divides_by_bid_price Sample.lib market Sample.self
              "SHIB-USD" (PyFloat.literal "1") Sample.w0 w1 w2
              Sample.shib_pair [] (Sample.bid_record "0.00001943" Sample.t0)
              ltac:(vm_compute; reflexivity) ltac:(vm_compute; reflexivity))
    as (Hrun & _ & Hmiss & _ & _ & Hsent & _).
  subst out. rewrite Hrun. split; [reflexivity|].
  cbn [snd]. rewrite Hsent, (Hmiss ltac:(vm_compute; reflexivity)).
  vm_compute. reflexivity.
Defined.

Lemma only_trading_pairs_are_memoized_witness :
  let first := @CryptoAPITrading.get_trading_pairs Sample.lib (Sample.shib_market [])
                 Sample.self [Some "SHIB-USD"] Sample.w0 in
  first.1 = inr [Sample.shib_pair] ∧
  @CryptoAPITrading.get_trading_pairs Sample.lib (Sample.shib_market [])
    Sample.self [Some "SHIB-USD"] first.2
  = (inr [Sample.shib_pair], ticked first.2).
Proof.
  intros first. split; [vm_compute; reflexivity|].
  refine (proj1 (proj2 (proj1 (@only_trading_pairs_are_memoized Sample.lib
            (Sample.shib_market []) Sample.self)
            [Some "SHIB-USD"] Sample.w0 first.2 [Sample.shib_pair] _ _) first.2 _) _);
    vm_compute; reflexivity.
Defined.

Lemma current_estimated_price_takes_first_bid_and_ask_witness :
  ∃ e w2,
    @CryptoAPITrading.get_current_estimated_price Sample.lib
      (Sample.shib_market [Sample.ask_a; Sample.bid_a; Sample.bid_b]) Sample.self
      "SHIB-USD" Sample.w0 = (inr e, w2) ∧
    @mirrors Sample.lib e (Sample.bid_record "0.00001943" Sample.t0)
      (Sample.ask_record "0.00001945" Sample.t0).
Proof.
  pose proof (proj2 (@current_estimated_price_takes_first_bid_and_ask Sample.lib
    (Sample.shib_market [Sample.ask_a; Sample.bid_a; Sample.bid_b]) Sample.self "SHIB-USD"
    Sample.w0
    (@CryptoAPITrading.get_trading_pairs Sample.lib
       (Sample.shib_market [Sample.ask_a; Sample.bid_a; Sample.bid_b]) Sample.self
       [Some "SHIB-USD"] Sample.w0).2
    (@CryptoAPITrading.get_estimated_price Sample.lib
       (Sample.shib_market [Sample.ask_a; Sample.bid_a; Sample.bid_b]) Sample.self
       "SHIB-USD" "both" "800.0"
       (@CryptoAPITrading.get_trading_pairs Sample.lib
          (Sample.shib_market [Sample.ask_a; Sample.bid_a; Sample.bid_b]) Sample.self
          [Some "SHIB-USD"] Sample.w0).2).2
    Sample.shib_pair []
    [Sample.ask_record "0.00001945" Sample.t0; Sample.bid_record "0.00001943" Sample.t0;
     Sample.bid_record "0.00001940" Sample.t0]
    ltac:(vm_compute; reflexivity) ltac:(vm_compute; reflexivity))
    (Sample.bid_record "0.00001943" Sample.t0) (Sample.ask_record "0.00001945" Sample.t0))
    as Hfirst.
  destruct Hfirst as (e & He & Hmirror).
  - exists [Sample.ask_record "0.00001945" Sample.t0],
           [Sample.bid_record "0.00001940" Sample.t0].
    split; [reflexivity|]. split; [|reflexivity].
    constructor; [discriminate | constructor].
  - exists [], [Sample.bid_record "0.00001943" Sample.t0;
                Sample.bid_record "0.00001940" Sample.t0].
    split; [reflexivity|]. split; [constructor | reflexivity].
  - vm_compute. reflexivity.
  - exists e. eexists. split; [exact He | exact Hmirror].
Defined.

(** C1, as stated, fails: an answer with two bid quotes (and one ask
    quote, all at the same time) is not rejected; the entry is built
    from the first bid. *)
Lemma two_bid_quotes_are_not_rejected :
  let out := (@CryptoAPITrading.get_current_estimated_price Sample.lib
                (Sample.shib_market [Sample.bid_a; Sample.bid_b; Sample.ask_a]) Sample.self
                "SHIB-USD" Sample.w0).1 in
  out = inr (EstimatedOrderPriceHistoryEntry.from_objs
               (Sample.bid_record "0.00001943" Sample.t0)
               (Sample.ask_record "0.00001945" Sample.t0)) ∧
  ¬ ∃ err, out = inl err.
Proof.
  intros out.
  assert (Hout : out = inr (EstimatedOrderPriceHistoryEntry.from_objs
                              (Sample.bid_record "0.00001943" Sample.t0)
                              (Sample.ask_record "0.00001945" Sample.t0))).
  { vm_compute. reflexivity. }
  split; [exact Hout|]. intros [err Herr]. rewrite Hout in Herr. discriminate.
Qed.

(** Nor is a pair of quotes whose timestamps differ: the entry carries
    the bid's timestamp, and the ask's in [ask_timestamp]. *)
Lemma mismatched_timestamps_are_not_rejected :
  (@CryptoAPITrading.get_current_estimated_price Sample.lib
     (Sample.shib_market [Sample.bid_a; JObj (Sample.ask_quote "0.00001945" Sample.t1)])
     Sample.self "SHIB-USD" Sample.w0).1
  = inr (EstimatedOrderPriceHistoryEntry.from_objs
           (Sample.bid_record "0.00001943" Sample.t0)
           (Sample.ask_record "0.00001945" Sample.t1)).
Proof. vm_compute. reflexivity. Qed.

(** C2, as stated, fails: when the answer to the request for the bid
    quotes opens with an ask quote, that quote is returned, although a
    bid quote follows it. *)
Lemma first_entry_is_returned_whatever_its_side :
  let answer := [Sample.ask_a; Sample.bid_a] in
  let ask := Sample.ask_record "0.00001945" Sample.t0 in
  let bid := Sample.bid_record "0.00001943" Sample.t0 in
  let out := (@CryptoAPITrading.get_estimated_bid_price Sample.lib
                (MoreSamples.by_url answer []) Sample.self "SHIB-USD" "800.0"
                Sample.w0).1 in
  mapM (@EstimatedOrderPrice.from_dict Sample.lib) answer = inr [ask; bid] ∧
  @first_of_side Sample.lib "bid" [ask; bid] bid ∧
  out = inr ask ∧
  EstimatedOrderPrice.side ask = "ask" ∧
  out ≠ inr bid.
Proof.
  intros answer ask bid out.
  assert (Hout : out = inr ask) by (vm_compute; reflexivity).
  split; [vm_compute; reflexivity|]. split; [|split; [exact Hout|split; [reflexivity|]]].
  - exists [ask], []. split; [reflexivity|]. split; [|reflexivity].
    constructor; [discriminate | constructor].
  - rewrite Hout. intros Heq.
    apply (f_equal (λ r, match r with
                         | inr q => EstimatedOrderPrice.side q
                         | inl _ => EmptyString
                         end)) in Heq.
    vm_compute in Heq. discriminate.
Qed.

(** [get_account] under HTTP 503: [None], one attempt, nothing raised. *)
Lemma get_account_503 :
  let out := @CryptoAPITrading.get_account Sample.lib Sample.unavailable Sample.self
               Sample.w0 in
  out.1 = inr JNull ∧ length (sent out.2) = 1%nat ∧
  stdout out.2 = ["Error making API request: Service Unavailable"].
Proof. vm_compute. auto. Qed.

(** * Further properties of the code *)

(** ** Query strings and payloads *)

Lemma string_app_assoc (s1 s2 s3 : string) : (s1 +:+ s2) +:+ s3 = s1 +:+ s2 +:+ s3.
Proof.
  induction s1 as [|a s1 IH]; [reflexivity|].
  change ((String a s1 +:+ s2) +:+ s3) with (String a ((s1 +:+ s2) +:+ s3)).
  change (String a s1 +:+ s2 +:+ s3) with (String a (s1 +:+ s2 +:+ s3)).
  by rewrite IH.
Qed.

Lemma string_app_nil_r (s : string) : s +:+ "" = s.
Proof.
  induction s as [|a s IH]; [reflexivity|].
  change (String a s +:+ "") with (String a (s +:+ "")). by rewrite IH.
Qed.

Lemma join_cons (sep p : string) (ps : list string) :
  CryptoAPITrading.join sep (p :: ps) = p +:+ String.concat "" ((λ x, sep +:+ x) <$> ps).
Proof.
  revert p. induction ps as [|q ps IH]; intros p.
  - simpl. by rewrite string_app_nil_r.
  - change (CryptoAPITrading.join sep (p :: q :: ps))
      with (p +:+ sep +:+ CryptoAPITrading.join sep (q :: ps)).
    rewrite IH. rewrite fmap_cons.
    destruct ps as [|q' ps].
    + change (String.concat "" [sep +:+ q]) with (sep +:+ q).
      change (String.concat "" ((λ x, sep +:+ x) <$> [])) with "".
      by rewrite string_app_nil_r.
    + change (String.concat "" ((sep +:+ q) :: ((λ x, sep +:+ x) <$> q' :: ps)))
        with ((sep +:+ q) +:+ String.concat "" ((λ x, sep +:+ x) <$> q' :: ps)).
      by rewrite string_app_assoc.
Qed.

(** X1.  [get_query_params] gives the empty text for no arguments and
    otherwise ["?"] followed by [key=arg] for the first argument and
    [&key=arg] for each further one, in order; an argument that is
    [None] is written [None]. *)
Theorem get_query_params_shape (key : string) :
  CryptoAPITrading.get_query_params key [] = "" ∧
  (∀ (a : option string) (rest : list (option string)),
     CryptoAPITrading.get_query_params key (a :: rest)
     = "?" +:+ key +:+ "=" +:+ CryptoAPITrading.format_arg a
       +:+ String.concat ""
             ((λ x, "&" +:+ key +:+ "=" +:+ CryptoAPITrading.format_arg x) <$> rest)) ∧
  (∀ args, CryptoAPITrading.get_query_params key args = "" ↔ args = []) ∧
  CryptoAPITrading.get_query_params key [None] = "?" +:+ key +:+ "=None".
Proof.
  assert (Hshape : ∀ (a : option string) (rest : list (option string)),
     CryptoAPITrading.get_query_params key (a :: rest)
     = "?" +:+ key +:+ "=" +:+ CryptoAPITrading.format_arg a
       +:+ String.concat ""
             ((λ x, "&" +:+ key +:+ "=" +:+ CryptoAPITrading.format_arg x) <$> rest)).
  { intros a rest. unfold CryptoAPITrading.get_query_params.
    rewrite fmap_cons, join_cons. rewrite <- list_fmap_compose.
    rewrite !string_app_assoc. reflexivity. }
  split; [reflexivity|]. split; [exact Hshape|]. split.
  - intros [|a rest]; [done|]. rewrite Hshape. split; discriminate.
  - reflexivity.
Qed.

Section PayloadProperties.
Context `{PyLib}.

(** X2.  [TradingPair.from_dict] reads the eight fields of the model
    and nothing else: a payload with a further key, whatever its value,
    parses to the same result. *)
Theorem trading_pair_from_dict_ignores_other_fields (data : gmap string json)
    (k : string) (v : json) :
  k ∉ trading_pair_fields →
  TradingPair.from_dict (JObj (<[k := v]> data)) = TradingPair.from_dict (JObj data).
Proof.
  intros Hk. unfold trading_pair_fields in Hk.
  unfold TradingPair.from_dict, py_getitem.
  rewrite !lookup_insert_ne; [reflexivity | ..];
    intros ->; apply Hk; set_solver.
Qed.

(** X3.  [EstimatedOrderPrice.from_dict] treats every side other than
    ["bid"] as an ask: the price including the spread and the spread
    are then read from [ask_inclusive_of_buy_spread] and [buy_spread]. *)
Theorem from_dict_treats_other_sides_as_ask (data side0 : json)
    (r : EstimatedOrderPrice.t) :
  py_getitem data "side" = inr side0 →
  py_eq_str side0 "bid" = false →
  EstimatedOrderPrice.from_dict data = inr r ↔
  quote_built_from data "ask_inclusive_of_buy_spread" "buy_spread" r.
Proof.
  intros Hside Hne.
  rewrite (from_dict_inr_iff data r side0 Hside).
  unfold EstimatedOrderPrice.spread_keys. by rewrite Hne.
Qed.

(** X4.  Flattening a validated pair gives the entry built directly
    from the two quotes: [from_obj] after
    [EstimatedBidAndAskPrice.from_objs] is
    [EstimatedOrderPriceHistoryEntry.from_objs]. *)
Theorem from_obj_of_validated_pair (bid ask : EstimatedOrderPrice.t)
    (pair : EstimatedBidAndAskPrice.t) :
  EstimatedBidAndAskPrice.from_objs bid ask = inr pair →
  EstimatedOrderPriceHistoryEntry.from_obj pair
  = EstimatedOrderPriceHistoryEntry.from_objs bid ask.
Proof.
  unfold EstimatedBidAndAskPrice.from_objs.
  destruct (datetime_ne _ _); [discriminate|].
  intros [= <-]. reflexivity.
Qed.

End PayloadProperties.

Lemma trading_pair_from_dict_ignores_other_fields_witness :
  @TradingPair.from_dict Sample.lib (JObj (<["base_increment" := JNull]> Sample.btc_usd))
  = @TradingPair.from_dict Sample.lib (JObj Sample.btc_usd).
Proof.
  apply (@trading_pair_from_dict_ignores_other_fields Sample.lib).
  apply (bool_decide_unpack _). vm_compute. exact I.
Defined.

Lemma from_dict_treats_other_sides_as_ask_witness :
  let data := JObj (<["side" := JStr "both"]> (Sample.ask_quote "0.00001945" Sample.t0)) in
  let r := @EstimatedOrderPrice.mk Sample.lib "SHIB-USD"
             (PyFloat.literal "0.00001945") (PyFloat.literal "800") "both" Sample.t0
             (PyFloat.literal "0.00001955") (PyFloat.literal "0.00514139") in
  @quote_built_from Sample.lib data "ask_inclusive_of_buy_spread" "buy_spread" r.
Proof.
  intros data r.
  apply (proj1 (@from_dict_treats_other_sides_as_ask Sample.lib data (JStr "both") r
                  ltac:(vm_compute; reflexivity) ltac:(vm_compute; reflexivity))).
  vm_compute. reflexivity.
Defined.

Lemma from_obj_of_validated_pair_witness :
  @EstimatedOrderPriceHistoryEntry.from_obj Sample.lib
    (@EstimatedBidAndAskPrice.mk Sample.lib (Sample.bid_record "0.00001943" Sample.t0)
       (Sample.ask_record "0.00001945" Sample.t0) Sample.t0)
  = MoreSamples.shib_entry.
Proof.
  apply (@from_obj_of_validated_pair Sample.lib). vm_compute. reflexivity.
Defined.

(** ** The transport, further *)

Section TransportProperties.
Context `{PyLib} `{Env}.

(** X6.  With a method other than ["GET"] and ["POST"],
    [make_api_request] sends nothing: [response] stays the empty dict,
    reading its [status_code] raises [AttributeError], and the
    exception reaches the caller. *)
Theorem make_api_request_other_method (self : CryptoAPITrading.t)
    (method path body : string) (w : world) :
  method ≠ "GET" → method ≠ "POST" →
  CryptoAPITrading.make_api_request self method path body w
  = (inl AttributeError, ticked w).
Proof.
  intros Hget Hpost.
  unfold CryptoAPITrading.make_api_request, CryptoAPITrading._get_current_timestamp,
    try_except_RequestException, time_time, ticked.
  unfold_monad. simpl.
  rewrite (bool_decide_eq_false_2 _ Hget), (bool_decide_eq_false_2 _ Hpost).
  reflexivity.
Qed.

(** X7.  After a GET answered with a status below 400, the result is
    what [response.json()] does: its value is returned; a
    [RequestException] it raises is swallowed into [None] with a
    printed line; any other exception it raises reaches the caller.
    One HTTP attempt has been made in each case. *)
Theorem make_api_request_json_outcome (self : CryptoAPITrading.t) (path body : string)
    (w : world) (r : response) :
  let rq := get_request self path body w in
  server (length (sent w)) rq = Reply r →
  status_code r < 400 →
  (∀ v, json_body r = inr v →
        CryptoAPITrading.make_api_request self "GET" path body w
        = (inr v, after_attempt w rq [])) ∧
  (∀ msg, json_body r = inl (RequestException msg) →
          CryptoAPITrading.make_api_request self "GET" path body w
          = (inr JNull, after_attempt w rq ["Error making API request: " +:+ msg])) ∧
  (∀ e, json_body r = inl e → (∀ msg, e ≠ RequestException msg) →
        CryptoAPITrading.make_api_request self "GET" path body w
        = (inl e, after_attempt w rq [])).
Proof.
  intros rq Hreply Hstatus.
  rewrite make_api_request_GET. fold rq. rewrite Hreply.
  rewrite bool_decide_eq_false_2 by lia.
  split; [|split].
  - intros v ->. reflexivity.
  - intros msg ->. reflexivity.
  - intros e -> Hother. destruct e; try reflexivity. by destruct (Hother msg).
Qed.

End TransportProperties.

Lemma make_api_request_other_method_witness :
  @CryptoAPITrading.make_api_request Sample.lib Sample.unavailable Sample.self
    "DELETE" "/api/v1/crypto/trading/orders/abc/" "" Sample.w0
  = (inl AttributeError, ticked Sample.w0).
Proof.
  apply (@make_api_request_other_method Sample.lib Sample.unavailable); discriminate.
Defined.

Lemma make_api_request_json_outcome_witness :
  (@CryptoAPITrading.get_account Sample.lib (MoreSamples.not_json true) Sample.self
     Sample.w0).1 = inr JNull ∧
  (@CryptoAPITrading.get_account Sample.lib (MoreSamples.not_json false) Sample.self
     Sample.w0).1 = inl JSONDecodeError.
Proof.
  unfold CryptoAPITrading.get_account. split.
  - rewrite (proj1 (proj2 (@make_api_request_json_outcome Sample.lib
               (MoreSamples.not_json true) Sample.self "/api/v1/crypto/trading/accounts/" ""
               Sample.w0 (mk_response 200 "<html>" (inl (RequestException "Expecting value")))
               ltac:(vm_compute; reflexivity) ltac:(vm_compute; reflexivity)))
             "Expecting value" eq_refl).
    reflexivity.
  - rewrite (proj2 (proj2 (@make_api_request_json_outcome Sample.lib
               (MoreSamples.not_json false) Sample.self "/api/v1/crypto/trading/accounts/" ""
               Sample.w0 (mk_response 200 "<html>" (inl JSONDecodeError))
               ltac:(vm_compute; reflexivity) ltac:(vm_compute; reflexivity)))
             JSONDecodeError eq_refl ltac:(discriminate)).
    reflexivity.
Defined.

(** ** The price client, further *)

Section ClientProperties.
Context `{PyLib} `{Env}.

Lemma mapM_result_inr {A B} (f : A → result B) (l : list A) (k : list B) :
  mapM f l = inr k ↔ Forall2 (λ x y, f x = inr y) l k.
Proof.
  revert k. induction l as [|x l IH]; intros k; simpl.
  - split.
    + intros [= <-]. constructor.
    + intros Hk. by inversion Hk.
  - unfold_monad. destruct (f x) as [e|y] eqn:Hx.
    + split; [discriminate|]. intros Hk. inversion Hk; congruence.
    + destruct (mapM f l) as [e|k'] eqn:Hl.
      * split; [discriminate|]. intros Hk. inversion Hk as [|? ? ? k'' ? Hk'']; subst.
        apply IH in Hk''. discriminate.
      * split.
        -- intros [= <-]. constructor; [done|]. by apply IH.
        -- intros Hk. inversion Hk as [|? y' ? k'' Hy Hk'']; subst.
           apply IH in Hk''. congruence.
Qed.

Lemma mapM_result_inl {A B} (f : A → result B) (before after : list A) (d : A) (e : exn) :
  Forall (λ x, ∃ y, f x = inr y) before →
  f d = inl e →
  mapM f (before ++ d :: after) = inl e.
Proof.
  intros Hbefore Hd. induction Hbefore as [|x before [y Hx] _ IH]; simpl; unfold_monad.
  - by rewrite Hd.
  - rewrite Hx. unfold_monad. simpl in IH. by rewrite IH.
Qed.

(** What [get_current_estimated_price] comes to once the pair and the
    quotes of both sides are there. *)
Lemma current_estimated_price_run (self : CryptoAPITrading.t) (symbol : string)
    (w w1 w2 : world) (tp : TradingPair.t) (rest : list TradingPair.t)
    (both : list EstimatedOrderPrice.t) :
  CryptoAPITrading.get_trading_pairs self [Some symbol] w = (inr (tp :: rest), w1) →
  CryptoAPITrading.get_estimated_price self symbol "both"
    (float_str (TradingPair.min_order_size tp)) w1 = (inr both, w2) →
  CryptoAPITrading.get_current_estimated_price self symbol w
  = (py_first (filter (λ x, EstimatedOrderPrice.side x = "bid") both) ≫= λ bid,
     py_first (filter (λ x, EstimatedOrderPrice.side x = "ask") both) ≫= λ ask,
     inr (EstimatedOrderPriceHistoryEntry.from_objs bid ask), w2).
Proof.
  intros Hpairs Hboth. unfold CryptoAPITrading.get_current_estimated_price.
  rewrite (M_bind_inr _ _ _ _ _ Hpairs). unfold lift at 1.
  unfold mbind at 1, M_bind at 1. simpl.
  rewrite (M_bind_inr _ _ _ _ _ Hboth). unfold_monad.
  destruct (py_first (filter _ both)) as [e|b]; [reflexivity|].
  destruct (py_first (filter _ both)) as [e|a]; reflexivity.
Qed.

(** X5.  [get_current_estimated_price] does not compare the timestamps
    of the bid and the ask it picks: a pair that
    [EstimatedBidAndAskPrice.from_objs] rejects is still flattened into
    an entry, with the bid's timestamp as the entry's own and the ask's
    in [ask_timestamp]. *)
Theorem current_estimated_price_does_not_compare_timestamps (self : CryptoAPITrading.t)
    (symbol : string) (w w1 w2 : world) (tp : TradingPair.t) (rest : list TradingPair.t)
    (both : list EstimatedOrderPrice.t) (bid ask : EstimatedOrderPrice.t) :
  CryptoAPITrading.get_trading_pairs self [Some symbol] w = (inr (tp :: rest), w1) →
  CryptoAPITrading.get_estimated_price self symbol "both"
    (float_str (TradingPair.min_order_size tp)) w1 = (inr both, w2) →
  first_of_side "bid" both bid →
  first_of_side "ask" both ask →
  datetime_eq (EstimatedOrderPrice.timestamp bid) (EstimatedOrderPrice.timestamp ask) = false →
  EstimatedBidAndAskPrice.from_objs bid ask
  = inl (ValueError "Bid and ask timestamps must match") ∧
  ∃ e, CryptoAPITrading.get_current_estimated_price self symbol w = (inr e, w2) ∧
       EstimatedOrderPriceHistoryEntry.timestamp e = EstimatedOrderPrice.timestamp bid ∧
       EstimatedOrderPriceHistoryEntry.bid_timestamp e = EstimatedOrderPrice.timestamp bid ∧
       EstimatedOrderPriceHistoryEntry.ask_timestamp e = EstimatedOrderPrice.timestamp ask.
Proof.
  intros Hpairs Hboth Hbid Hask Hne. split.
  - unfold EstimatedBidAndAskPrice.from_objs, datetime_ne. by rewrite Hne.
  - exists (EstimatedOrderPriceHistoryEntry.from_objs bid ask). split; [|done].
    rewrite (current_estimated_price_run _ _ _ _ _ _ _ _ Hpairs Hboth).
    by rewrite (filter_first_of_side _ _ _ Hbid), (filter_first_of_side _ _ _ Hask).
Qed.

(** X8.  A trading-pair lookup that misses the cache makes exactly one
    HTTP attempt, and when it raises it stores nothing: the cache is
    as it was. *)
Theorem failed_lookup_is_not_cached (self : CryptoAPITrading.t)
    (symbols : list (option string)) (w : world) :
  unexpired (clock (ticks w)) (disk w !! CryptoAPITrading.memoize_key self symbols) = None →
  (∃ rq, sent (CryptoAPITrading.get_trading_pairs self symbols w).2 = sent w ++ [rq]) ∧
  (∀ e w1, CryptoAPITrading.get_trading_pairs self symbols w = (inl e, w1) →
           disk w1 = disk w).
Proof.
  intros Hmiss. rewrite get_trading_pairs_miss by exact Hmiss.
  destruct (fetch_trading_pairs_one_attempt self symbols (ticked w)) as ((rq & Hs) & Hd).
  destruct (CryptoAPITrading.fetch_trading_pairs self symbols (ticked w))
    as [[e|v] w1]; simpl in *.
  - split; [eauto|]. intros e' w1' [= <- <-]. exact Hd.
  - split; [eauto|]. intros e' w1' [=].
Qed.


(** X10.  When the answer is a dict without the key [results],
    [get_holdings] and [get_best_bid_ask] return [None],
    [get_estimated_price] raises [TypeError] (it iterates over [None])
    and [get_trading_pairs] raises [KeyError("results")]. *)
Theorem answer_without_results (self : CryptoAPITrading.t) (m : gmap string json)
    (w w' : world) :
  m !! "results" = None →
  (∀ asset_codes : list (option string),
     CryptoAPITrading.make_api_request self "GET"
       ("/api/v1/crypto/trading/holdings/"
        +:+ CryptoAPITrading.get_query_params "asset_code" asset_codes) "" w
     = (inr (JObj m), w') →
     CryptoAPITrading.get_holdings self asset_codes w = (inr JNull, w')) ∧
  (∀ symbols : list (option string),
     CryptoAPITrading.make_api_request self "GET"
       ("/api/v1/crypto/marketdata/best_bid_ask/"
        +:+ CryptoAPITrading.get_query_params "symbol" symbols) "" w
     = (inr (JObj m), w') →
     CryptoAPITrading.get_best_bid_ask self symbols w = (inr JNull, w')) ∧
  (∀ symbol side quantity : string,
     CryptoAPITrading.make_api_request self "GET"
       (CryptoAPITrading.estimated_price_path symbol side quantity) "" w
     = (inr (JObj m), w') →
     CryptoAPITrading.get_estimated_price self symbol side quantity w
     = (inl TypeError, w')) ∧
  (∀ (symbols : list (option string)) (w0 : world),
     unexpired (clock (ticks w0)) (disk w0 !! CryptoAPITrading.memoize_key self symbols)
     = None →
     CryptoAPITrading.make_api_request self "GET"
       (CryptoAPITrading.trading_pairs_path symbols) ""
       (printed "Fetching trading pairs" (ticked w0)) = (inr (JObj m), w') →
     CryptoAPITrading.get_trading_pairs self symbols w0 = (inl (KeyError "results"), w')).
Proof.
  intros Hm. split; [|split; [|split]].
  - intros codes Hreq. unfold CryptoAPITrading.get_holdings.
    rewrite (M_bind_inr _ _ _ _ _ Hreq). unfold lift, py_get. by rewrite Hm.
  - intros symbols Hreq. unfold CryptoAPITrading.get_best_bid_ask.
    rewrite (M_bind_inr _ _ _ _ _ Hreq). unfold lift, py_get. by rewrite Hm.
  - intros symbol side quantity Hreq.
    rewrite (get_estimated_price_answer _ _ _ _ _ _ _ Hreq).
    unfold py_get. by rewrite Hm.
  - intros symbols w0 Hmiss Hreq.
    rewrite get_trading_pairs_miss by exact Hmiss.
    rewrite (fetch_trading_pairs_answer _ _ _ _ _ Hreq).
    unfold py_getitem. by rewrite Hm.
Qed.

(** X11.  [get_estimated_price] parses every entry of the results, in
    order: it returns a list exactly when each entry parses, the quotes
    standing in the order of the entries; the first entry that does not
    parse makes the whole call raise that entry's exception, the quotes
    before it being lost. *)
Theorem estimated_price_parses_every_entry (self : CryptoAPITrading.t)
    (symbol side quantity : string) (w w' : world) (m : gmap string json)
    (items : list json) :
  CryptoAPITrading.make_api_request self "GET"
    (CryptoAPITrading.estimated_price_path symbol side quantity) "" w
  = (inr (JObj m), w') →
  m !! "results" = Some (JArr items) →
  (∀ quotes : list EstimatedOrderPrice.t,
     CryptoAPITrading.get_estimated_price self symbol side quantity w = (inr quotes, w') ↔
     Forall2 (λ d q, EstimatedOrderPrice.from_dict d = inr q) items quotes) ∧
  (∀ (before after : list json) (d : json) (e : exn),
     items = before ++ d :: after →
     Forall (λ x, ∃ q, EstimatedOrderPrice.from_dict x = inr q) before →
     EstimatedOrderPrice.from_dict d = inl e →
     CryptoAPITrading.get_estimated_price self symbol side quantity w = (inl e, w')).
Proof.
  intros Hreq Hm.
  assert (Hrun : CryptoAPITrading.get_estimated_price self symbol side quantity w
                 = (mapM EstimatedOrderPrice.from_dict items, w')).
  { rewrite (get_estimated_price_answer _ _ _ _ _ _ _ Hreq).
    unfold py_get. by rewrite Hm. }
  rewrite Hrun. split.
  - intros quotes. rewrite <- mapM_result_inr. split; [by intros [= ->] | by intros ->].
  - intros before after d e -> Hbefore Hd. by rewrite (mapM_result_inl _ _ _ _ _ Hbefore Hd).
Qed.

(** X12.  An empty list of trading pairs is cached like any other: the
    call that fetched it stores it, and until it expires
    [get_quantity_of_crypto] and [get_current_estimated_price] raise
    [IndexError] from the cached list without an HTTP attempt. *)
Theorem empty_pair_list_is_cached (self : CryptoAPITrading.t) (symbol : string) :
  (∀ (w w' : world) (m : gmap string json),
     unexpired (clock (ticks w))
       (disk w !! CryptoAPITrading.memoize_key self [Some symbol]) = None →
     CryptoAPITrading.make_api_request self "GET"
       (CryptoAPITrading.trading_pairs_path [Some symbol]) ""
       (printed "Fetching trading pairs" (ticked w)) = (inr (JObj m), w') →
     m !! "results" = Some (JArr []) →
     CryptoAPITrading.get_trading_pairs self [Some symbol] w
     = (inr [],
        with_disk
          (cull (clock (ticks w'))
             (<[CryptoAPITrading.memoize_key self [Some symbol] :=
                  (clock (ticks w') + 86400 * us_per_second, [])]> (disk w')))
          (ticked w'))) ∧
  (∀ (w : world) (expire_time : Z) (price : float),
     disk w !! CryptoAPITrading.memoize_key self [Some symbol] = Some (expire_time, []) →
     clock (ticks w) < expire_time →
     CryptoAPITrading.get_quantity_of_crypto self symbol price w
     = (inl IndexError, ticked w) ∧
     CryptoAPITrading.get_current_estimated_price self symbol w
     = (inl IndexError, ticked w)).
Proof.
  split.
  - intros w w' m Hmiss Hreq Hm.
    rewrite get_trading_pairs_miss by exact Hmiss.
    rewrite (fetch_trading_pairs_answer _ _ _ _ _ Hreq).
    unfold py_getitem. by rewrite Hm.
  - intros w expire_time price Hentry Hlive.
    assert (Hhit : CryptoAPITrading.get_trading_pairs self [Some symbol] w
                   = (inr [], ticked w)).
    { apply get_trading_pairs_hit. rewrite Hentry. simpl.
      by rewrite bool_decide_eq_true_2. }
    split.
    + unfold CryptoAPITrading.get_quantity_of_crypto.
      by rewrite (M_bind_inr _ _ _ _ _ Hhit).
    + unfold CryptoAPITrading.get_current_estimated_price.
      by rewrite (M_bind_inr _ _ _ _ _ Hhit).
Qed.

End ClientProperties.

Lemma current_estimated_price_does_not_compare_timestamps_witness :
  ∃ e w2,
    @CryptoAPITrading.get_current_estimated_price Sample.lib
      (Sample.shib_market [Sample.bid_a; JObj (Sample.ask_quote "0.00001945" Sample.t1)])
      Sample.self "SHIB-USD" Sample.w0 = (inr e, w2) ∧
    EstimatedOrderPriceHistoryEntry.timestamp e = Sample.t0 ∧
    EstimatedOrderPriceHistoryEntry.ask_timestamp e = Sample.t1.
Proof.
  pose proof (proj2 (@current_estimated_price_does_not_compare_timestamps Sample.lib
    (Sample.shib_market [Sample.bid_a; JObj (Sample.ask_quote "0.00001945" Sample.t1)])
    Sample.self "SHIB-USD" Sample.w0
    (@CryptoAPITrading.get_trading_pairs Sample.lib
       (Sample.shib_market [Sample.bid_a; JObj (Sample.ask_quote "0.00001945" Sample.t1)])
       Sample.self [Some "SHIB-USD"] Sample.w0).2
    (@CryptoAPITrading.get_estimated_price Sample.lib
       (Sample.shib_market [Sample.bid_a; JObj (Sample.ask_quote "0.00001945" Sample.t1)])
       Sample.self "SHIB-USD" "both" "800.0"
       (@CryptoAPITrading.get_trading_pairs Sample.lib
          (Sample.shib_market [Sample.bid_a; JObj (Sample.ask_quote "0.00001945" Sample.t1)])
          Sample.self [Some "SHIB-USD"] Sample.w0).2).2
    Sample.shib_pair []
    [Sample.bid_record "0.00001943" Sample.t0; Sample.ask_record "0.00001945" Sample.t1]
    (Sample.bid_record "0.00001943" Sample.t0) (Sample.ask_record "0.00001945" Sample.t1)
    ltac:(vm_compute; reflexivity) ltac:(vm_compute; reflexivity)
    ltac:(exists [], [Sample.ask_record "0.00001945" Sample.t1];
          split; [reflexivity|]; split; [constructor | reflexivity])
    ltac:(exists [Sample.bid_record "0.00001943" Sample.t0], [];
          split; [reflexivity|]; split; [|reflexivity];
          constructor; [discriminate | constructor])
    ltac:(vm_compute; reflexivity))) as (e & He & Ht & _ & Ha).
  exists e. eexists. split; [exact He|]. split; [exact Ht | exact Ha].
Defined.

Lemma failed_lookup_is_not_cached_witness :
  disk (@CryptoAPITrading.get_trading_pairs Sample.lib Sample.unavailable Sample.self
          [Some "BTC-USD"] Sample.w0).2 = disk Sample.w0.
Proof.
  apply (proj2 (@failed_lookup_is_not_cached Sample.lib Sample.unavailable Sample.self
                  [Some "BTC-USD"] Sample.w0 ltac:(vm_compute; reflexivity))
           TypeError).
  vm_compute. reflexivity.
Defined.


(** The entry that had expired is gone once the lookup has stored its
    result; the one that lives on and the new one are there. *)
Lemma stale_entry_is_culled :
  let w1 := (@CryptoAPITrading.get_trading_pairs Sample.lib (Sample.shib_market [])
               Sample.self [Some "SHIB-USD"] MoreSamples.w_stale).2 in
  disk MoreSamples.w_stale !! MoreSamples.btc_key = Some (1000000, []) ∧
  disk w1 !! MoreSamples.btc_key = None ∧
  disk w1 !! MoreSamples.doge_key = Some (1800000000 * us_per_second, []) ∧
  disk w1 !! CryptoAPITrading.memoize_key Sample.self [Some "SHIB-USD"]
  = Some (@clock (Sample.shib_market []) 2 + 86400 * us_per_second, [Sample.shib_pair]).
Proof. vm_compute. repeat split; reflexivity. Qed.

Lemma answer_without_results_witness :
  (@CryptoAPITrading.get_holdings Sample.lib MoreSamples.no_results Sample.self
     [] Sample.w0).1 = inr JNull ∧
  (@CryptoAPITrading.get_estimated_price Sample.lib MoreSamples.no_results Sample.self
     "SHIB-USD" "bid" "800" Sample.w0).1 = inl TypeError ∧
  (@CryptoAPITrading.get_trading_pairs Sample.lib MoreSamples.no_results Sample.self
     [] Sample.w0).1 = inl (KeyError "results").
Proof.
  split; [|split].
  - rewrite (proj1 (@answer_without_results Sample.lib MoreSamples.no_results Sample.self
                      MoreSamples.empty_dict Sample.w0
                      (@CryptoAPITrading.make_api_request Sample.lib MoreSamples.no_results
                         Sample.self "GET"
                         ("/api/v1/crypto/trading/holdings/"
                          +:+ CryptoAPITrading.get_query_params "asset_code" []) ""
                         Sample.w0).2
                      (lookup_empty "results")) [] ltac:(vm_compute; reflexivity)).
    reflexivity.
  - rewrite (proj1 (proj2 (proj2 (@answer_without_results Sample.lib MoreSamples.no_results
                      Sample.self MoreSamples.empty_dict Sample.w0
                      (@CryptoAPITrading.make_api_request Sample.lib MoreSamples.no_results
                         Sample.self "GET"
                         (CryptoAPITrading.estimated_price_path "SHIB-USD" "bid" "800") ""
                         Sample.w0).2
                      (lookup_empty "results")))) "SHIB-USD" "bid" "800" ltac:(vm_compute; reflexivity)).
    reflexivity.
  - rewrite (proj2 (proj2 (proj2 (@answer_without_results Sample.lib MoreSamples.no_results
                      Sample.self MoreSamples.empty_dict Sample.w0
                      (@CryptoAPITrading.make_api_request Sample.lib MoreSamples.no_results
                         Sample.self "GET" (CryptoAPITrading.trading_pairs_path []) ""
                         (printed "Fetching trading pairs" (ticked Sample.w0))).2
                      (lookup_empty "results")))) [] Sample.w0
                ltac:(vm_compute; reflexivity) ltac:(vm_compute; reflexivity)).
    reflexivity.
Defined.

Lemma estimated_price_parses_every_entry_witness :
  ∃ w', @CryptoAPITrading.get_estimated_price Sample.lib
          (Sample.shib_market [Sample.bid_a; JObj MoreSamples.empty_dict; Sample.ask_a]) Sample.self
          "SHIB-USD" "both" "800" Sample.w0 = (inl (KeyError "side"), w').
Proof.
  eexists.
  refine (proj2 (@estimated_price_parses_every_entry Sample.lib
            (Sample.shib_market [Sample.bid_a; JObj MoreSamples.empty_dict; Sample.ask_a]) Sample.self
            "SHIB-USD" "both" "800" Sample.w0
            (@CryptoAPITrading.make_api_request Sample.lib
               (Sample.shib_market [Sample.bid_a; JObj MoreSamples.empty_dict; Sample.ask_a]) Sample.self "GET"
               (CryptoAPITrading.estimated_price_path "SHIB-USD" "both" "800") ""
               Sample.w0).2
            (MoreSamples.results_dict [Sample.bid_a; JObj MoreSamples.empty_dict; Sample.ask_a])
            [Sample.bid_a; JObj MoreSamples.empty_dict; Sample.ask_a]
            ltac:(vm_compute; reflexivity) ltac:(vm_compute; reflexivity))
          [Sample.bid_a] [Sample.ask_a] (JObj MoreSamples.empty_dict) (KeyError "side") eq_refl _ _).
  - constructor; [|constructor].
    exists (Sample.bid_record "0.00001943" Sample.t0). vm_compute. reflexivity.
  - vm_compute. reflexivity.
Defined.

Lemma empty_pair_list_is_cached_witness :
  let w1 := (@CryptoAPITrading.get_trading_pairs Sample.lib MoreSamples.shib_only
               Sample.self [Some "DOGE-USD"] Sample.w0).2 in
  @CryptoAPITrading.get_quantity_of_crypto Sample.lib MoreSamples.shib_only Sample.self
    "DOGE-USD" (PyFloat.literal "1") w1 = (inl IndexError, ticked w1) ∧
  sent (ticked w1) = sent w1.
Proof.
  intros w1. split; [|reflexivity].
  apply (proj1 (proj2 (@empty_pair_list_is_cached Sample.lib MoreSamples.shib_only
                         Sample.self "DOGE-USD")
                  w1 (@clock MoreSamples.shib_only 2 + 86400 * us_per_second)
                  (PyFloat.literal "1")
                  ltac:(vm_compute; reflexivity) ltac:(vm_compute; reflexivity))).
Defined.

(** ** Orders and plain reads *)

Section OrderProperties.
Context `{PyLib} `{Env}.

Lemma order_config_key_fresh (order_type : string) :
  order_type +:+ "_order_config" ≠ "client_order_id" ∧
  order_type +:+ "_order_config" ≠ "side" ∧
  order_type +:+ "_order_config" ≠ "type" ∧
  order_type +:+ "_order_config" ≠ "symbol".
Proof.
  assert (Hlen : ∀ s : string,
            (String.length s < 13)%nat → order_type +:+ "_order_config" ≠ s).
  { intros s Hs Heq. apply (f_equal String.length) in Heq.
    rewrite string_length_app in Heq. simpl in Heq. lia. }
  split; [|split; [|split]]; try (apply Hlen; simpl; lia).
  intros Heq.
  destruct order_type as [|a [|b [|c rest]]]; try (cbv in Heq; discriminate).
  apply (f_equal String.length) in Heq.
  change (String.length (String a (String b (String c rest)) +:+ "_order_config"))
    with (S (S (S (String.length (rest +:+ "_order_config"))))) in Heq.
  rewrite string_length_app in Heq. simpl in Heq. lia.
Qed.

(** X13.  The body of an order has exactly the keys [client_order_id],
    [side], [type], [symbol] and [<order_type>_order_config], the last
    holding the order's configuration whatever the order type is
    called.  [place_order] parses the serialised body back before it
    sends anything: when that succeeds it makes one POST attempt to
    [/api/v1/crypto/trading/orders/] carrying the parsed body, signed
    over the serialised text; when it fails the exception reaches the
    caller and nothing is sent. *)
Theorem place_order_posts_body (self : CryptoAPITrading.t)
    (client_order_id side order_type symbol : string) (order_config : gmap string string) :
  let body := order_body client_order_id side order_type symbol order_config in
  let text := json_dumps (JObj body) in
  dom body = {[ "client_order_id"; "side"; "type"; "symbol";
                order_type +:+ "_order_config" ]} ∧
  body !! "client_order_id" = Some (JStr client_order_id) ∧
  body !! "side" = Some (JStr side) ∧
  body !! "type" = Some (JStr order_type) ∧
  body !! "symbol" = Some (JStr symbol) ∧
  body !! (order_type +:+ "_order_config") = Some (JObj (JStr <$> order_config)) ∧
  (∀ (w : world) (payload : json),
     json_loads text = inr payload →
     sent (CryptoAPITrading.place_order self client_order_id side order_type symbol
             order_config w).2
     = sent w ++ [post_request self "/api/v1/crypto/trading/orders/" text payload w]) ∧
  (∀ (w : world) (e : exn),
     json_loads text = inl e →
     CryptoAPITrading.place_order self client_order_id side order_type symbol
       order_config w = (inl e, ticked w)).
Proof.
  intros body text.
  destruct (order_config_key_fresh order_type) as (F1 & F2 & F3 & F4).
  assert (Hrun : ∀ w, CryptoAPITrading.place_order self client_order_id side order_type
                        symbol order_config w
                      = CryptoAPITrading.make_api_request self "POST"
                          "/api/v1/crypto/trading/orders/" text w) by reflexivity.
  subst body. unfold order_body.
  split; [|split; [|split; [|split; [|split; [|split; [|split]]]]]].
  - rewrite !dom_insert_L, dom_singleton_L. apply set_eq. intros x.
    rewrite !elem_of_union, !elem_of_singleton. tauto.
  - by rewrite lookup_insert_eq.
  - rewrite lookup_insert_ne by done. by rewrite lookup_insert_eq.
  - do 2 (rewrite lookup_insert_ne by done). by rewrite lookup_insert_eq.
  - do 3 (rewrite lookup_insert_ne by done). by rewrite lookup_insert_eq.
  - do 4 (rewrite lookup_insert_ne by done). by rewrite lookup_singleton_eq.
  - intros w payload Hload. rewrite Hrun, make_api_request_POST. rewrite Hload.
    unfold post_request.
    destruct (server _ _) as [msg|r]; [reflexivity|].
    destruct (bool_decide _); [reflexivity|].
    destruct (json_body r) as [[]|v]; reflexivity.
  - intros w e Hload. rewrite Hrun, make_api_request_POST. by rewrite Hload.
Qed.

Lemma uncached_one_attempt_GET (self : CryptoAPITrading.t) (path : string) :
  uncached (CryptoAPITrading.make_api_request self "GET" path "") ∧
  one_attempt (CryptoAPITrading.make_api_request self "GET" path "").
Proof.
  split; [apply uncached_make_api_request | apply one_attempt_make_api_request_GET].
Qed.

(** X17.  The reads of the account, the holdings and the orders are
    never served from the cache: each call makes exactly one HTTP
    attempt and leaves the cache as it was. *)
Theorem plain_reads_bypass_the_cache (self : CryptoAPITrading.t) :
  (uncached (CryptoAPITrading.get_account self) ∧
   one_attempt (CryptoAPITrading.get_account self)) ∧
  (∀ asset_codes : list (option string),
     uncached (CryptoAPITrading.get_holdings self asset_codes) ∧
     one_attempt (CryptoAPITrading.get_holdings self asset_codes)) ∧
  (∀ order_id : string,
     uncached (CryptoAPITrading.get_order self order_id) ∧
     one_attempt (CryptoAPITrading.get_order self order_id)) ∧
  (uncached (CryptoAPITrading.get_orders self) ∧
   one_attempt (CryptoAPITrading.get_orders self)).
Proof.
  split; [|split; [|split]].
  - apply uncached_one_attempt_GET.
  - intros asset_codes. unfold CryptoAPITrading.get_holdings. cbv zeta. split.
    + apply (uncached_then_lift _ (λ answer, py_get answer "results")),
        uncached_make_api_request.
    + intros w. rewrite (bind_lift_world _ (λ answer, py_get answer "results")).
      apply one_attempt_make_api_request_GET.
  - intros order_id. apply uncached_one_attempt_GET.
  - apply uncached_one_attempt_GET.
Qed.

End OrderProperties.

Lemma place_order_posts_body_witness :
  sent (@CryptoAPITrading.place_order (MoreSamples.echo_lib (JObj MoreSamples.limit_order))
          Sample.unavailable Sample.self
          "131de903-5a9c-4260-abc1-28d562a5dcf0" "buy" "limit" "BTC-USD"
          {[ "asset_quantity" := "0.0001"; "limit_price" := "50000" ]} Sample.w0).2
  = [@post_request (MoreSamples.echo_lib (JObj MoreSamples.limit_order)) Sample.unavailable
       Sample.self "/api/v1/crypto/trading/orders/" "{}" (JObj MoreSamples.limit_order)
       Sample.w0].
Proof.
  apply (proj1 (proj2 (proj2 (proj2 (proj2 (proj2 (proj2
    (@place_order_posts_body (MoreSamples.echo_lib (JObj MoreSamples.limit_order))
       Sample.unavailable Sample.self
       "131de903-5a9c-4260-abc1-28d562a5dcf0" "buy" "limit" "BTC-USD"
       {[ "asset_quantity" := "0.0001"; "limit_price" := "50000" ]})))))))
    Sample.w0 (JObj MoreSamples.limit_order)).
  reflexivity.
Defined.

(** ** The collector and the reader of the price history *)

Section HistoryProperties.
Context `{PyLib} `{Env}.

Lemma record_prices_cons (pformat : EstimatedOrderPriceHistoryEntry.t → string)
    (client : CryptoAPITrading.t) (symbol : string) (rest : list string)
    (collection : list EstimatedOrderPriceHistoryEntry.t) (w : world) :
  Collector.record_prices pformat client (symbol :: rest) collection w =
  match CryptoAPITrading.get_current_estimated_price client symbol w with
  | (inl e, w1) => (inl e, w1, collection)
  | (inr entry, w1) =>
      Collector.record_prices pformat client rest
        (Collector.write_to_mongo entry collection)
        (print (pformat entry) (print ("Current estimated price for " +:+ symbol) w1).2).2
  end.
Proof. reflexivity. Qed.

Lemma recorded_length (pformat : EstimatedOrderPriceHistoryEntry.t → string)
    (client : CryptoAPITrading.t) (symbols : list string) (w w' : world)
    (entries : list EstimatedOrderPriceHistoryEntry.t) :
  Collector.recorded pformat client symbols w entries w' →
  length entries = length symbols.
Proof. induction 1; simpl; congruence. Qed.

Lemma record_prices_recorded (pformat : EstimatedOrderPriceHistoryEntry.t → string)
    (client : CryptoAPITrading.t) (symbols : list string) (w w' : world)
    (entries collection : list EstimatedOrderPriceHistoryEntry.t) :
  Collector.recorded pformat client symbols w entries w' →
  Collector.record_prices pformat client symbols collection w
  = (inr tt, w', collection ++ entries).
Proof.
  intros Hrec. revert collection.
  induction Hrec as [w|symbol rest w w1 w' entry entries Hcall _ IH]; intros collection.
  - simpl. by rewrite app_nil_r.
  - rewrite record_prices_cons, Hcall.
    unfold Collector.write_to_mongo.
    etrans; [exact (IH (collection ++ [entry]))|]. by rewrite <- app_assoc.
Qed.

Lemma record_prices_raises (pformat : EstimatedOrderPriceHistoryEntry.t → string)
    (client : CryptoAPITrading.t) (before : list string) (symbol : string)
    (rest : list string) (w wi w' : world) (e : exn)
    (entries collection : list EstimatedOrderPriceHistoryEntry.t) :
  Collector.recorded pformat client before w entries wi →
  CryptoAPITrading.get_current_estimated_price client symbol wi = (inl e, w') →
  Collector.record_prices pformat client (before ++ symbol :: rest) collection w
  = (inl e, w', collection ++ entries).
Proof.
  intros Hrec Hfail. revert collection.
  induction Hrec as [w|s before w w1 wi entry entries Hcall _ IH]; intros collection.
  - simpl app. rewrite record_prices_cons, Hfail. by rewrite app_nil_r.
  - change ((s :: before) ++ symbol :: rest) with (s :: (before ++ symbol :: rest)).
    rewrite record_prices_cons, Hcall.
    unfold Collector.write_to_mongo.
    etrans; [exact (IH Hfail (collection ++ [entry]))|]. by rewrite <- app_assoc.
Qed.

(** X15.  The collector prices the symbols in their order and appends
    each entry to the collection as soon as it has it, after the
    documents that are there and in the order of the symbols.  A run
    either prices every symbol and ends without an exception, having
    written one entry per symbol, or stops at the first symbol whose
    pricing raises: that exception ends the run, the entries of the
    symbols before it have been written and none for that symbol or
    the later ones. *)
Theorem record_prices_appends (pformat : EstimatedOrderPriceHistoryEntry.t → string)
    (client : CryptoAPITrading.t) (symbols : list string)
    (collection : list EstimatedOrderPriceHistoryEntry.t) (w : world) :
  let out := Collector.record_prices pformat client symbols collection w in
  (∀ entries w',
     Collector.recorded pformat client symbols w entries w' →
     out = (inr tt, w', collection ++ entries) ∧ length entries = length symbols) ∧
  (∀ before symbol rest entries wi e w',
     symbols = before ++ symbol :: rest →
     Collector.recorded pformat client before w entries wi →
     CryptoAPITrading.get_current_estimated_price client symbol wi = (inl e, w') →
     out = (inl e, w', collection ++ entries) ∧ length entries = length before) ∧
  ((∃ entries w', Collector.recorded pformat client symbols w entries w') ∨
   (∃ before symbol rest entries wi e w',
      symbols = before ++ symbol :: rest ∧
      Collector.recorded pformat client before w entries wi ∧
      CryptoAPITrading.get_current_estimated_price client symbol wi = (inl e, w'))).
Proof.
  intros out. subst out. split; [|split].
  - intros entries w' Hrec. split.
    + by apply record_prices_recorded.
    + by apply recorded_length in Hrec.
  - intros before symbol rest entries wi e w' -> Hrec Hfail. split.
    + by apply (record_prices_raises _ _ _ _ _ _ wi).
    + by apply recorded_length in Hrec.
  - clear collection. revert w.
    induction symbols as [|symbol rest IH]; intros w.
    + left. exists [], w. constructor.
    + destruct (CryptoAPITrading.get_current_estimated_price client symbol w)
        as [[e|entry] w1] eqn:Hcall.
      * right. exists [], symbol, rest, [], w, e, w1.
        split; [reflexivity|]. split; [constructor | exact Hcall].
      * destruct (IH (mk_world (ticks w1) (sent w1) (disk w1)
                        ((stdout w1 ++ ["Current estimated price for " +:+ symbol])
                         ++ [pformat entry])))
          as [(entries & w' & Hrec)
             | (before & s & rest' & entries & wi & e & w' & -> & Hrec & Hfail)].
        -- left. exists (entry :: entries), w'. by econstructor.
        -- right. exists (symbol :: before), s, rest', (entry :: entries), wi, e, w'.
           split; [reflexivity|]. split; [by econstructor | exact Hfail].
Qed.

Lemma add_entry_grouped
    (price_history : gmap string (list EstimatedOrderPriceHistoryEntry.t))
    (entries : list EstimatedOrderPriceHistoryEntry.t)
    (entry : EstimatedOrderPriceHistoryEntry.t) :
  grouped price_history entries →
  grouped (Analyzer.add_entry price_history entry) (entries ++ [entry]).
Proof.
  intros Hgrouped symbol. destruct (Hgrouped symbol) as [Hlist Hnone].
  unfold Analyzer.add_entry, entries_of_symbol in *. rewrite filter_app.
  destruct (decide (EstimatedOrderPriceHistoryEntry.symbol entry = symbol)) as [Heq|Hne].
  - subst symbol. rewrite filter_cons_True by done. rewrite filter_nil.
    destruct (price_history !! EstimatedOrderPriceHistoryEntry.symbol entry)
      as [l|] eqn:Hl; simpl in *.
    + rewrite lookup_alter_eq, Hl. simpl. rewrite Hlist. split; [reflexivity|].
      split; [discriminate|]. intros Happ. by apply app_nil in Happ as [_ ?].
    + rewrite lookup_alter_eq, lookup_insert_eq. simpl.
      rewrite <- Hlist. split; [reflexivity|]. split; discriminate.
  - rewrite filter_cons_False by done. rewrite filter_nil, app_nil_r.
    rewrite lookup_alter_ne by done.
    destruct (price_history !! EstimatedOrderPriceHistoryEntry.symbol entry); [done|].
    by rewrite lookup_insert_ne.
Qed.

Lemma read_loop_grouped (document : Type)
    (entry_of_document : document → option EstimatedOrderPriceHistoryEntry.t)
    (documents : list document) :
  ∀ (entries entries0 : list EstimatedOrderPriceHistoryEntry.t)
    (price_history : gmap string (list EstimatedOrderPriceHistoryEntry.t)),
    grouped price_history entries0 →
    Forall2 (λ d e, entry_of_document d = Some e) documents entries →
    ∃ result,
      Analyzer.read_loop document entry_of_document documents price_history = inr result ∧
      grouped result (entries0 ++ entries).
Proof.
  induction documents as [|d rest IH]; intros entries entries0 price_history Hg Hparsed.
  - inversion Hparsed; subst. exists price_history. rewrite app_nil_r. by split.
  - inversion Hparsed as [|? e ? entries' Hd Hrest]; subst. simpl. rewrite Hd.
    destruct (IH entries' (entries0 ++ [e]) (Analyzer.add_entry price_history e)
                (add_entry_grouped _ _ _ Hg) Hrest) as (result & Hrun & Hres).
    exists result. split; [exact Hrun|]. by rewrite <- app_assoc in Hres.
Qed.

Lemma read_loop_invalid (document : Type)
    (entry_of_document : document → option EstimatedOrderPriceHistoryEntry.t)
    (documents : list document) :
  Exists (λ d, entry_of_document d = None) documents →
  ∀ price_history,
    Analyzer.read_loop document entry_of_document documents price_history
    = inl ValidationError.
Proof.
  induction documents as [|d rest IH]; intros Hex price_history.
  - by inversion Hex.
  - simpl. destruct (entry_of_document d) as [e|] eqn:Hd; [|reflexivity].
    apply IH. inversion Hex; [congruence | assumption].
Qed.

(** X16.  When every stored document is a valid entry,
    [read_price_history] returns, for each symbol that occurs, the
    list of that symbol's entries in the order of the documents, and
    nothing for a symbol that does not occur; one invalid document
    makes the whole read raise [ValidationError]. *)
Theorem read_price_history_groups_by_symbol (document : Type)
    (entry_of_document : document → option EstimatedOrderPriceHistoryEntry.t)
    (documents : list document) :
  (∀ entries : list EstimatedOrderPriceHistoryEntry.t,
     Forall2 (λ d e, entry_of_document d = Some e) documents entries →
     ∃ price_history,
       Analyzer.read_price_history document entry_of_document documents
       = inr price_history ∧
       ∀ symbol : string,
         default [] (price_history !! symbol) = entries_of_symbol symbol entries ∧
         (price_history !! symbol = None ↔ entries_of_symbol symbol entries = [])) ∧
  (Exists (λ d, entry_of_document d = None) documents →
   Analyzer.read_price_history document entry_of_document documents
   = inl ValidationError).
Proof.
  split.
  - intros entries Hparsed.
    destruct (read_loop_grouped document entry_of_document documents entries [] ∅)
      as (result & Hrun & Hres); [|exact Hparsed|].
    + intros symbol. rewrite lookup_empty. by split.
    + exists result. split; [exact Hrun | exact Hres].
  - intros Hex. by apply read_loop_invalid.
Qed.

End HistoryProperties.

Lemma record_prices_appends_witness :
  let w1 := (@CryptoAPITrading.get_current_estimated_price Sample.lib MoreSamples.shib_only
               Sample.self "SHIB-USD" Sample.w0).2 in
  let wi := mk_world (ticks w1) (sent w1) (disk w1)
              ((stdout w1 ++ ["Current estimated price for SHIB-USD"]) ++ ["{...}"]) in
  @Collector.fetch_and_record_current_prices Sample.lib MoreSamples.shib_only
    (λ _, "{...}") Sample.self [MoreSamples.doge_entry] Sample.w0
  = (inl IndexError,
     (@CryptoAPITrading.get_current_estimated_price Sample.lib MoreSamples.shib_only
        Sample.self "DOGE-USD" wi).2,
     [MoreSamples.doge_entry; MoreSamples.shib_entry]).
Proof.
  intros w1 wi.
  apply (proj1 (proj2 (@record_prices_appends Sample.lib MoreSamples.shib_only
                         (λ _, "{...}") Sample.self Collector.target_symbols
                         [MoreSamples.doge_entry] Sample.w0))
           ["SHIB-USD"] "DOGE-USD" [] [MoreSamples.shib_entry] wi IndexError
           (@CryptoAPITrading.get_current_estimated_price Sample.lib MoreSamples.shib_only
              Sample.self "DOGE-USD" wi).2).
  - reflexivity.
  - apply (@Collector.recorded_cons Sample.lib MoreSamples.shib_only (λ _, "{...}")
             Sample.self "SHIB-USD" [] Sample.w0 w1 wi MoreSamples.shib_entry []).
    + vm_compute. reflexivity.
    + apply Collector.recorded_nil.
  - vm_compute. reflexivity.
Defined.

Lemma read_price_history_groups_by_symbol_witness :
  ∃ price_history,
    @Analyzer.read_price_history Sample.lib
      (option (@EstimatedOrderPriceHistoryEntry.t Sample.lib)) (λ d, d)
      [Some MoreSamples.shib_entry; Some MoreSamples.doge_entry; Some MoreSamples.shib_entry]
    = inr price_history ∧
    default [] (price_history !! "SHIB-USD")
    = [MoreSamples.shib_entry; MoreSamples.shib_entry] ∧
    @Analyzer.read_price_history Sample.lib
      (option (@EstimatedOrderPriceHistoryEntry.t Sample.lib)) (λ d, d)
      [Some MoreSamples.shib_entry; None]
    = inl ValidationError.
Proof.
  destruct (proj1 (@read_price_history_groups_by_symbol Sample.lib
                     (option (@EstimatedOrderPriceHistoryEntry.t Sample.lib)) (λ d, d)
                     [Some MoreSamples.shib_entry; Some MoreSamples.doge_entry;
                      Some MoreSamples.shib_entry])
             [MoreSamples.shib_entry; MoreSamples.doge_entry; MoreSamples.shib_entry])
    as (price_history & Hrun & Hgroups).
  { repeat constructor. }
  exists price_history. split; [exact Hrun|]. split.
  - rewrite (proj1 (Hgroups "SHIB-USD")). vm_compute. reflexivity.
  - apply (proj2 (@read_price_history_groups_by_symbol Sample.lib
                    (option (@EstimatedOrderPriceHistoryEntry.t Sample.lib)) (λ d, d)
                    [Some MoreSamples.shib_entry; None])).
    apply Exists_cons_tl, Exists_cons_hd. reflexivity.
Defined.

(** ** Further error behaviour *)

Section ErrorProperties.
Context `{PyLib} `{Env}.

(** X18.  [EstimatedBidAndAskPrice.from_dict] reads and parses the bid
    first: a payload without [bid] raises [KeyError("bid")], a bid that
    does not parse raises its own exception whatever the ask is, and
    only then is a missing [ask] reported with [KeyError("ask")]. *)
Theorem bid_and_ask_from_dict_reads_bid_first (m : gmap string json) :
  (m !! "bid" = None →
   EstimatedBidAndAskPrice.from_dict (JObj m) = inl (KeyError "bid")) ∧
  (∀ (b : json) (e : exn),
     m !! "bid" = Some b →
     EstimatedOrderPrice.from_dict b = inl e →
     EstimatedBidAndAskPrice.from_dict (JObj m) = inl e) ∧
  (∀ (b : json) (bid : EstimatedOrderPrice.t),
     m !! "bid" = Some b →
     EstimatedOrderPrice.from_dict b = inr bid →
     m !! "ask" = None →
     EstimatedBidAndAskPrice.from_dict (JObj m) = inl (KeyError "ask")).
Proof.
  unfold EstimatedBidAndAskPrice.from_dict, py_getitem.
  split; [|split].
  - intros ->. reflexivity.
  - intros b e -> Hb. unfold_monad. by rewrite Hb.
  - intros b bid -> Hb ->. unfold_monad. by rewrite Hb.
Qed.

(** X19.  When the first bid quote has a price of zero,
    [get_quantity_of_crypto] raises [ZeroDivisionError], after the
    trading-pair lookup and the request for the bid price. *)
Theorem quantity_of_crypto_zero_price (self : CryptoAPITrading.t)
    (symbol : string) (price : float) (w w1 w2 : world)
    (tp : TradingPair.t) (rest : list TradingPair.t) (r : EstimatedOrderPrice.t) :
  CryptoAPITrading.get_trading_pairs self [Some symbol] w = (inr (tp :: rest), w1) →
  CryptoAPITrading.get_estimated_bid_price self symbol
    (float_str (TradingPair.min_order_size tp)) w1 = (inr r, w2) →
  PyFloat.is_zero (EstimatedOrderPrice.price r) = true →
  CryptoAPITrading.get_quantity_of_crypto self symbol price w
  = (inl ZeroDivisionError, w2).
Proof.
  intros Hpairs Hbid Hzero. unfold CryptoAPITrading.get_quantity_of_crypto.
  rewrite (M_bind_inr _ _ _ _ _ Hpairs). unfold lift at 1.
  unfold mbind at 1, M_bind at 1. simpl.
  rewrite (M_bind_inr _ _ _ _ _ Hbid). unfold lift, PyFloat.truediv.
  by rewrite Hzero.
Qed.

End ErrorProperties.

Lemma bid_and_ask_from_dict_reads_bid_first_witness :
  @EstimatedBidAndAskPrice.from_dict Sample.lib (JObj MoreSamples.empty_dict)
  = inl (KeyError "bid") ∧
  @EstimatedBidAndAskPrice.from_dict Sample.lib (JObj MoreSamples.bid_only)
  = inl (KeyError "ask").
Proof.
  split.
  - apply (proj1 (@bid_and_ask_from_dict_reads_bid_first Sample.lib MoreSamples.empty_dict)).
    vm_compute. reflexivity.
  - apply (proj2 (proj2 (@bid_and_ask_from_dict_reads_bid_first Sample.lib
                           MoreSamples.bid_only))
             Sample.bid_a (Sample.bid_record "0.00001943" Sample.t0));
      vm_compute; reflexivity.
Defined.

Lemma quantity_of_crypto_zero_price_witness :
  ∃ w2, @CryptoAPITrading.get_quantity_of_crypto Sample.lib
          (Sample.shib_market [JObj (Sample.bid_quote "0.0" Sample.t0)]) Sample.self
          "SHIB-USD" (PyFloat.literal "1") Sample.w0
        = (inl ZeroDivisionError, w2).
Proof.
  eexists.
  refine (@quantity_of_crypto_zero_price Sample.lib
            (Sample.shib_market [JObj (Sample.bid_quote "0.0" Sample.t0)]) Sample.self
            "SHIB-USD" (PyFloat.literal "1") Sample.w0
            (@CryptoAPITrading.get_trading_pairs Sample.lib
               (Sample.shib_market [JObj (Sample.bid_quote "0.0" Sample.t0)]) Sample.self
               [Some "SHIB-USD"] Sample.w0).2
            (@CryptoAPITrading.get_estimated_bid_price Sample.lib
               (Sample.shib_market [JObj (Sample.bid_quote "0.0" Sample.t0)]) Sample.self
               "SHIB-USD" "800.0"
               (@CryptoAPITrading.get_trading_pairs Sample.lib
                  (Sample.shib_market [JObj (Sample.bid_quote "0.0" Sample.t0)]) Sample.self
                  [Some "SHIB-USD"] Sample.w0).2).2
            Sample.shib_pair [] (Sample.bid_record "0.0" Sample.t0) _ _ _);
    vm_compute; reflexivity.
Defined.
